(** * DIGITAL_TWIN_AI: the memory bank, the persona derivation and the twin engine

    A shallow embedding of [models.py], [memory_bank.py], [gemini_client.py]
    and [twin_core.py], followed by the properties of the specification that
    were checked against it.

    Conventions of the embedding.
    - A Python [float] (and a numpy [float64]) is a binary64 number: Rocq's
      primitive [float], with the IEEE operations of the kernel.
    - A Python [int] is unbounded: [Z].
    - A Python [str] is a [string]; a character is one of the 256 code points
      of [ascii].  The two en dashes of the prompt literals are spelled with
      their UTF-8 bytes.
    - A raised exception is the [Raise] outcome of [result]; code that mutates
      the engine is a function on the engine state that returns the outcome
      together with the state reached, so that what was stored before an
      exception stays stored.
    - The generative SDK, the clock and Python's string hash are outside the
      repository: they are the fields of [world], read through a counter of
      the external calls made so far. *)

From Stdlib Require Import ZArith List String Ascii Floats Bool Lia.
From Stdlib Require Import Sorting.Sorted DecimalString.
From stdpp Require Import gmap strings list.

Open Scope string_scope.
Open Scope Z_scope.

(** ** Outcomes of Python code *)

Inductive exn : Type :=
| ValueError
| TypeError
| IndexError
| KeyError.

Inductive result (A : Type) : Type :=
| Ok (a : A)
| Raise (e : exn).

Arguments Ok {A} a.
Arguments Raise {A} e.

Definition result_bind {A B} (r : result A) (k : A -> result B) : result B :=
  match r with
  | Ok a => k a
  | Raise e => Raise e
  end.

Notation "'do' x <- r ; k" := (result_bind r (fun x => k))
  (at level 10, x pattern, r at level 100, k at level 200).

Definition is_ok {A} (r : result A) : bool :=
  match r with Ok _ => true | Raise _ => false end.

(** ** The Python built-ins the sources use *)

Module Py.

(** [l[:n]]: a negative bound counts from the end. *)
Definition slice_to {A} (l : list A) (n : Z) : list A :=
  if 0 <=? n then take (Z.to_nat n) l
  else take (Z.to_nat (Z.of_nat (length l) + n)) l.

(** [l[-1]] on a list that is known to be non-empty at the call. *)
Definition last_item {A} (l : list A) (d : A) : A := List.last l d.

(** [s[:n]] on a string, [n >= 0]. *)
Fixpoint str_take (n : nat) (s : string) : string :=
  match n, s with
  | S n', String c s' => String c (str_take n' s')
  | _, _ => EmptyString
  end.

(** [str.isspace] on one character (code points up to 255). *)
Definition isspace (c : ascii) : bool :=
  let n := N_of_ascii c in
  ((9 <=? n) && (n <=? 13) || (28 <=? n) && (n <=? 32)
   || (n =? 133) || (n =? 160))%N.

Fixpoint lstrip (s : string) : string :=
  match s with
  | String c s' => if isspace c then lstrip s' else s
  | EmptyString => EmptyString
  end.

Fixpoint rstrip (s : string) : string :=
  match s with
  | String c s' =>
      match rstrip s' with
      | EmptyString => if isspace c then EmptyString else String c EmptyString
      | r => String c r
      end
  | EmptyString => EmptyString
  end.

(** [s.strip()] *)
Definition strip (s : string) : string := rstrip (lstrip s).

(** [sep.join(l)] *)
Definition join (sep : string) (l : list string) : string := String.concat sep l.

(** Truth value of a string: empty is false. *)
Definition truthy (s : string) : bool :=
  match s with EmptyString => false | _ => true end.

(** [str(n)] for an [int]. *)
Definition str_of_int (n : Z) : string := NilZero.string_of_int (Z.to_int n).

Definition lower_char (c : ascii) : ascii :=
  let n := N_of_ascii c in
  if ((65 <=? n) && (n <=? 90)
      || (192 <=? n) && (n <=? 222) && negb (n =? 215))%N
  then ascii_of_N (n + 32) else c.

Definition upper_ascii_char (c : ascii) : ascii :=
  let n := N_of_ascii c in
  if ((97 <=? n) && (n <=? 122))%N then ascii_of_N (n - 32) else c.

Fixpoint str_map (f : ascii -> ascii) (s : string) : string :=
  match s with
  | String c s' => String (f c) (str_map f s')
  | EmptyString => EmptyString
  end.

(** [s.lower()] *)
Definition lower (s : string) : string := str_map lower_char s.

(** [s.upper()], used on memory types only, which are ASCII words. *)
Definition upper (s : string) : string := str_map upper_ascii_char s.

(** [sub in s] *)
Fixpoint contains (sub s : string) : bool :=
  String.prefix sub s
  || match s with
     | String _ s' => contains sub s'
     | EmptyString => false
     end.

(** [s.startswith(p)] *)
Definition startswith (s p : string) : bool := String.prefix p s.

(** [s.split(":", 1)[-1]]: what follows the first colon, or all of [s]
    when it has none. *)
Fixpoint after_first_colon (s : string) : option string :=
  match s with
  | String c s' => if Ascii.eqb c ":" then Some s' else after_first_colon s'
  | EmptyString => None
  end.

Definition split_colon_last (s : string) : string :=
  match after_first_colon s with
  | Some r => r
  | None => s
  end.

(** The objects an answer of the survey may be.  [VOther] is any object
    of another kind (a float, a list, ...), given by what [str] and [int]
    make of it. *)
Inductive value : Type :=
| VNone
| VBool (b : bool)
| VInt (n : Z)
| VStr (s : string)
| VOther (as_str : string) (as_int : result Z).

Definition digit_of (c : ascii) : option Z :=
  let n := N_of_ascii c in
  if ((48 <=? n) && (n <=? 57))%N then Some (Z.of_N (n - 48)) else None.

(** Decimal digits, with single underscores between digits. *)
Fixpoint parse_digits (s : string) (acc : Z) (after_digit : bool) : option Z :=
  match s with
  | EmptyString => if after_digit then Some acc else None
  | String c s' =>
      match digit_of c with
      | Some d => parse_digits s' (10 * acc + d) true
      | None =>
          if Ascii.eqb c "_" && after_digit then parse_digits s' acc false
          else None
      end
  end.

(** [int(s)] for a string: surrounding whitespace, an optional sign,
    then the digits. *)
Definition int_of_str (s : string) : result Z :=
  let parsed :=
    match strip s with
    | String "-" s' => option_map Z.opp (parse_digits s' 0 false)
    | String "+" s' => parse_digits s' 0 false
    | s' => parse_digits s' 0 false
    end in
  match parsed with
  | Some n => Ok n
  | None => Raise ValueError
  end.

(** [int(v)] *)
Definition int (v : value) : result Z :=
  match v with
  | VNone => Raise TypeError
  | VBool b => Ok (if b then 1 else 0)
  | VInt n => Ok n
  | VStr s => int_of_str s
  | VOther _ r => r
  end.

(** [str(v)] *)
Definition str (v : value) : string :=
  match v with
  | VNone => "None"
  | VBool b => if b then "True" else "False"
  | VInt n => str_of_int n
  | VStr s => s
  | VOther s _ => s
  end.

(** [d.get(key, dflt)] *)
Definition get (d : gmap string value) (key : string) (dflt : value) : value :=
  match d !! key with
  | Some v => v
  | None => dflt
  end.

(** [dict.fromkeys(l)] read back as a sequence: the items of [l] without
    the repetitions, each at its first place. *)
Fixpoint fromkeys_from (seen l : list string) : list string :=
  match l with
  | [] => []
  | x :: l' =>
      if existsb (String.eqb x) seen then fromkeys_from seen l'
      else x :: fromkeys_from (x :: seen) l'
  end.

Definition fromkeys (l : list string) : list string := fromkeys_from [] l.

(** [list.sort(key=..., reverse=True)] and [sorted(..., reverse=True)].
    Python's sort is stable, also when reversed: of two items with equal
    keys, the one that came first stays first.  It compares keys with [<]
    only.  It is modelled by insertion from the right, each item being put
    behind the items whose key is strictly greater.  Whenever [<] is a
    strict weak order on the keys present (for floats: no NaN among them)
    this is the list CPython's algorithm returns. *)
Section Sort.
Context {A K : Type} (lt : K -> K -> bool) (key : A -> K).

Fixpoint insert_desc (x : A) (l : list A) : list A :=
  match l with
  | [] => [x]
  | y :: l' => if lt (key x) (key y) then y :: insert_desc x l' else x :: l
  end.

Fixpoint sort_desc (l : list A) : list A :=
  match l with
  | [] => []
  | x :: l' => insert_desc x (sort_desc l')
  end.
End Sort.

End Py.

(** ** numpy on one-dimensional [float64] arrays *)

Module np.

Definition ndarray := list float.

Definition size (a : ndarray) : nat := length a.

(** The sum of products, accumulated from the left.  The order in which
    [np.dot] adds is that of the BLAS in use; nothing below depends on it
    beyond both calls of a comparison adding in the same order. *)
Definition sum_products (a b : ndarray) : float :=
  fold_left (fun acc p => (acc + fst p * snd p)%float) (combine a b) 0%float.

(** [np.dot(a, b)]: shapes that are not aligned raise [ValueError]. *)
Definition dot (a b : ndarray) : result float :=
  if Nat.eqb (size a) (size b) then Ok (sum_products a b) else Raise ValueError.

(** [np.linalg.norm(a)]: [sqrt(a.dot(a))]. *)
Definition linalg_norm (a : ndarray) : float :=
  PrimFloat.sqrt (sum_products a a).

End np.

(** ** models.py *)

Module models.

Definition VALID_MEMORY_TYPES : list string :=
  ["survey"; "chat"; "decision"; "correction"; "situation"].

Record MemoryItem : Type := {
  type : string;
  text : string;
  embedding : list float;
  timestamp : Z;
  meta : gmap string string;
  permanent : bool
}.

(** The dataclass constructor with [__post_init__]; [now] is what
    [datetime.utcnow] returned for the default of [timestamp]. *)
Definition MemoryItem_init (now : Z) (type' text' : string)
    (embedding' : list float) (meta' : gmap string string)
    (permanent' : bool) : result MemoryItem :=
  if existsb (String.eqb type') VALID_MEMORY_TYPES
  then Ok {| type := type'; text := text'; embedding := embedding';
             timestamp := now; meta := meta'; permanent := permanent' |}
  else Raise ValueError.

Record Persona : Type := {
  user_name : string;
  persona_summary : string;
  tone_style : string;
  values : string;
  humor : string;
  decision_style : string;
  survey_json : gmap string Py.value;
  mbti : string
}.

(** [Persona(user_name=...)] with the defaults of the dataclass. *)
Definition Persona_init (user_name' : string) : Persona :=
  {| user_name := user_name';
     persona_summary := "";
     tone_style := "Balanced, friendly";
     values := "Pragmatic, honest";
     humor := "Light, situational";
     decision_style := "Evidence-driven with intuition";
     survey_json := ∅;
     mbti := "" |}.

End models.
Import models.

(** ** memory_bank.py *)

Module memory_bank.

Record MemoryBank : Type := { _memories : list MemoryItem }.

Definition init : MemoryBank := {| _memories := [] |}.

Definition _cosine_similarity (a b : np.ndarray) : result float :=
  if Nat.eqb (np.size a) 0 || Nat.eqb (np.size b) 0 then Ok 0%float
  else
    let denom := (np.linalg_norm a * np.linalg_norm b)%float in
    if PrimFloat.eqb denom 0%float then Ok 0%float
    else do d <- np.dot a b; Ok (d / denom)%float.

Definition add (self : MemoryBank) (item : MemoryItem) : MemoryBank :=
  {| _memories := _memories self ++ [item] |}.

Definition list_ (self : MemoryBank) : list MemoryItem := _memories self.

(** [type_filter and m.type != type_filter]: [None] and the empty string
    are false, so neither filters. *)
Definition skipped (type_filter : option string) (m : MemoryItem) : bool :=
  match type_filter with
  | None => false
  | Some t => Py.truthy t && negb (String.eqb (type m) t)
  end.

(** The loop of [search]: the [(s, m)] pairs in the order of the store. *)
Fixpoint score_loop (q : np.ndarray) (type_filter : option string)
    (ms : list MemoryItem) (scored : list (float * MemoryItem))
    : result (list (float * MemoryItem)) :=
  match ms with
  | [] => Ok scored
  | m :: ms' =>
      if skipped type_filter m then score_loop q type_filter ms' scored
      else
        do s <- _cosine_similarity q (embedding m);
        score_loop q type_filter ms' (scored ++ [(s, m)])
  end.

Definition search (self : MemoryBank) (query_embedding : list float)
    (top_k : Z) (type_filter : option string) : result (list MemoryItem) :=
  let q := query_embedding in
  do scored <- score_loop q type_filter (_memories self) [];
  let scored := Py.sort_desc PrimFloat.ltb fst scored in
  Ok (map snd (Py.slice_to scored top_k)).

(** [list.pop(i)] for an index in range. *)
Fixpoint pop {A} (i : nat) (l : list A) : list A :=
  match l, i with
  | [], _ => []
  | _ :: l', O => l'
  | x :: l', S i' => x :: pop i' l'
  end.

Definition delete (self : MemoryBank) (idx : Z) : MemoryBank :=
  if (0 <=? idx) && (idx <? Z.of_nat (length (_memories self)))
  then {| _memories := pop (Z.to_nat idx) (_memories self) |}
  else self.

(** The comprehension [[m for m in ms if m.permanent]]. *)
Fixpoint keep_permanent_items (ms : list MemoryItem) : list MemoryItem :=
  match ms with
  | [] => []
  | m :: ms' =>
      if permanent m then m :: keep_permanent_items ms'
      else keep_permanent_items ms'
  end.

Definition clear (self : MemoryBank) (keep_permanent : bool) : MemoryBank :=
  if keep_permanent
  then {| _memories := keep_permanent_items (_memories self) |}
  else {| _memories := [] |}.

End memory_bank.
Import memory_bank.

(** ** What lies outside the repository *)

(** What a [generate_content] call of the SDK came to: it raised (or an
    attribute read of the response did), or it gave a response with a [text]
    (absent when it is no string) and candidates, each with the texts of its
    parts. *)
Inductive sdk_answer : Type :=
| sdk_raises
| sdk_response (txt : option string) (candidates : list (list string)).

Record world : Type := {
  (** value of [GEMINI_API_KEY] in the environment, empty when unset *)
  environ_key : string;
  (** whether importing and configuring the SDK with this key succeeds *)
  genai_configures : string -> bool;
  (** [embed_content(model, content)] at a given external call: the
      ["embedding"] of the answer, [None] when the call raises *)
  embed_content : nat -> string -> string -> option (list float);
  (** [GenerativeModel(name, system_instruction).generate_content(msg)] *)
  generate_content : nat -> string -> string -> string -> sdk_answer;
  (** [hash(t)] in this process *)
  str_hash : string -> Z;
  (** [[r.random() for _ in range(256)]] for [r = random.Random(seed)] *)
  random_256 : Z -> list float;
  (** [datetime.utcnow()] at a given external call *)
  utcnow : nat -> Z
}.

(** ** gemini_client.py *)

Module gemini_client.

Record GeminiClient : Type := {
  api_key : string;
  model_name : string;
  embed_model : string;
  _configured : bool;
  _have_sdk : bool
}.

Definition _configure_sdk (w : world) (self : GeminiClient) : GeminiClient :=
  if negb (Py.truthy (api_key self))
  then {| api_key := api_key self; model_name := model_name self;
          embed_model := embed_model self;
          _configured := _configured self; _have_sdk := false |}
  else
    let ok := genai_configures w (api_key self) in
    {| api_key := api_key self; model_name := model_name self;
       embed_model := embed_model self;
       _configured := ok; _have_sdk := ok |}.

Definition init (w : world) (api_key' : option string) : GeminiClient :=
  let k := match api_key' with
           | Some k => if Py.truthy k then k else environ_key w
           | None => environ_key w
           end in
  _configure_sdk w
    {| api_key := Py.strip k; model_name := "gemini-1.5-flash";
       embed_model := "text-embedding-004";
       _configured := false; _have_sdk := false |}.

(** The offline pseudo-embeddings. *)
Definition stub_vectors (w : world) (texts : list string) : list (list float) :=
  map (fun t => random_256 w (Z.land (str_hash w t) 4294967295)) texts.

(** The loop over [texts] inside the [try]: [None] when a call raised. *)
Fixpoint embed_loop (w : world) (model : string) (calls : nat)
    (texts : list string) : option (list (list float)) * nat :=
  match texts with
  | [] => (Some [], calls)
  | t :: texts' =>
      match embed_content w calls model t with
      | None => (None, S calls)
      | Some v =>
          let '(r, calls') := embed_loop w model (S calls) texts' in
          (option_map (cons v) r, calls')
      end
  end.

(** [embed]: the vectors, and the count of external calls afterwards. *)
Definition embed (w : world) (self : GeminiClient) (calls : nat)
    (texts : list string) : list (list float) * nat :=
  match texts with
  | [] => ([], calls)
  | _ =>
      if _have_sdk self && _configured self then
        match embed_loop w (embed_model self) calls texts with
        | (Some vecs, calls') =>
            if forallb (fun v => Nat.eqb (length v) 0) vecs
            then (stub_vectors w texts, calls')
            else (vecs, calls')
        | (None, calls') => (stub_vectors w texts, calls')
        end
      else (stub_vectors w texts, calls)
  end.

(** The first candidate whose joined parts are not blank. *)
Fixpoint first_candidate (candidates : list (list string)) : option string :=
  match candidates with
  | [] => None
  | parts :: rest =>
      match parts with
      | [] => first_candidate rest
      | _ =>
          let joined := Py.join " " parts in
          if Py.truthy (Py.strip joined) then Some (Py.strip joined)
          else first_candidate rest
      end
  end.

Definition stub_reply (user_message : string) : string :=
  "[Stubbed Gemini Reply] Based on your persona and memories, "
  +:+ "here's a likely response: " +:+ Py.str_take 160 user_message +:+ " ...".

Definition chat (w : world) (self : GeminiClient) (calls : nat)
    (system_prompt user_message : string) : string * nat :=
  if _have_sdk self && _configured self then
    match generate_content w calls (model_name self) system_prompt user_message with
    | sdk_raises => (stub_reply user_message, S calls)
    | sdk_response txt candidates =>
        match txt with
        | Some t =>
            if Py.truthy (Py.strip t) then (Py.strip t, S calls)
            else match first_candidate candidates with
                 | Some r => (r, S calls)
                 | None => (stub_reply user_message, S calls)
                 end
        | None =>
            match first_candidate candidates with
            | Some r => (r, S calls)
            | None => (stub_reply user_message, S calls)
            end
        end
    end
  else (stub_reply user_message, calls).

(** [set_api_key]: the client afterwards, and the value it writes to
    [os.environ["GEMINI_API_KEY"]]. *)
Definition set_api_key (w : world) (self : GeminiClient) (api_key' : string)
    : GeminiClient * string :=
  let k := Py.strip api_key' in
  (_configure_sdk w
     {| api_key := k; model_name := model_name self;
        embed_model := embed_model self;
        _configured := _configured self; _have_sdk := _have_sdk self |},
   k).

End gemini_client.

(** ** twin_core.py: the derivation of the persona *)

Module twin_core.

Definition _top_values (values : list (string * Z)) (n : Z) : list string :=
  map fst (Py.slice_to (Py.sort_desc Z.ltb snd values) n).

(** One letter of the type code. *)
Definition axis_letter (hi lo : string) (v : Z) : string :=
  if 4 <=? v then hi else if v <=? 2 then lo else "X".

Definition _derive_mbti (answers : gmap string Py.value) : result string :=
  do ei <- Py.int (Py.get answers "mbti_ei" (Py.VInt 3));
  do sn <- Py.int (Py.get answers "mbti_sn" (Py.VInt 3));
  do tf <- Py.int (Py.get answers "mbti_tf" (Py.VInt 3));
  do jp <- Py.int (Py.get answers "mbti_jp" (Py.VInt 3));
  let e := axis_letter "E" "I" ei in
  let n := axis_letter "N" "S" sn in
  let f := axis_letter "F" "T" tf in
  let p := axis_letter "P" "J" jp in
  Ok (e +:+ n +:+ f +:+ p).

Definition _top_values_sentence (vals : list string) : string :=
  match vals with
  | [] => "pragmatism"
  | [v] => v
  | _ => Py.join ", " (Py.slice_to vals (-1)) +:+ " and " +:+ Py.last_item vals ""
  end.

(** The local [geti] of [_derive_persona_fields]. *)
Definition geti (answers : gmap string Py.value) (key : string) (dflt : Z) : Z :=
  let v := Py.get answers key Py.VNone in
  match Py.int v with
  | Ok n => n
  | Raise _ => dflt
  end.

Definition values_map (answers : gmap string Py.value) : list (string * Z) :=
  [ ("honesty", geti answers "val_honesty" 3);
    ("efficiency", geti answers "val_efficiency" 3);
    ("loyalty", geti answers "val_loyalty" 3);
    ("creativity", geti answers "val_creativity" 3);
    ("frugality", geti answers "val_frugality" 3) ].

Definition top_vals (answers : gmap string Py.value) : list string :=
  _top_values (values_map answers) 3.

Definition tone_bits (answers : gmap string Py.value) : list string :=
  let directness := geti answers "tone_directness" 3 in
  let formality := geti answers "tone_formality" 3 in
  let empathy := geti answers "tone_empathy" 3 in
  let msg_len := geti answers "msg_length" 3 in
  [ if 4 <=? directness then "direct"
    else if directness <=? 2 then "diplomatic" else "balanced" ]
  ++ [ if 4 <=? formality then "formal"
       else if formality <=? 2 then "casual" else "semi-formal" ]
  ++ (if 4 <=? empathy then ["empathetic"] else [])
  ++ (if 4 <=? msg_len then ["detailed"]
      else if msg_len <=? 2 then ["concise"] else []).

Definition tone_style_of (answers : gmap string Py.value) : string :=
  Py.join ", " (Py.fromkeys (tone_bits answers)).

Definition humor_phrase_of (answers : gmap string Py.value) : string :=
  let stripped := Py.strip (Py.str (Py.get answers "humor_style" (Py.VStr "light"))) in
  let humor_style := if Py.truthy stripped then stripped else "light" in
  let humor_freq := geti answers "humor_frequency" 3 in
  if 4 <=? humor_freq then "often " +:+ humor_style
  else if humor_freq <=? 2 then "rarely " +:+ humor_style
  else humor_style.

Definition decision_style_of (answers : gmap string Py.value) : string :=
  let data_vs_intuition := geti answers "decision_data_vs_intuition" 3 in
  let risk := geti answers "risk_tolerance" 3 in
  let speed := geti answers "speed_vs_thoroughness" 3 in
  let decision_style :=
    if (4 <=? data_vs_intuition) && (risk <=? 2) then "data-first, risk-averse"
    else if (4 <=? data_vs_intuition) && (4 <=? risk)
    then "data-first, calculated risk-taker"
    else if (data_vs_intuition <=? 2) && (4 <=? risk)
    then "intuition-led, comfortable with risk"
    else if (data_vs_intuition <=? 2) && (risk <=? 2)
    then "intuition-led, cautious"
    else "balances data and intuition" in
  if 4 <=? speed then decision_style +:+ ", prefers speed"
  else if speed <=? 2 then decision_style +:+ ", prefers thoroughness"
  else decision_style.

Definition persona_summary_of (answers : gmap string Py.value) : string :=
  let agree := geti answers "agreeableness" 3 in
  let consc := geti answers "conscientiousness" 3 in
  let open_ := geti answers "openness" 3 in
  let extra := geti answers "extraversion" 3 in
  "Tone is " +:+ tone_style_of answers
  +:+ ". Values center on " +:+ _top_values_sentence (top_vals answers) +:+ ". "
  +:+ "Humor is " +:+ humor_phrase_of answers
  +:+ ". Decision-making is " +:+ decision_style_of answers +:+ ". "
  +:+ "Traits: agreeableness " +:+ Py.str_of_int agree
  +:+ "/5, conscientiousness " +:+ Py.str_of_int consc
  +:+ "/5, openness " +:+ Py.str_of_int open_
  +:+ "/5, extraversion " +:+ Py.str_of_int extra +:+ "/5.".

(** [_derive_persona_fields]: everything before the [return] cannot raise
    ([geti] catches what [int] raises); the dictionary displayed by the
    [return] is built from left to right and [_derive_mbti] is its last
    entry. *)
Definition _derive_persona_fields (answers : gmap string Py.value)
    : result (gmap string string) :=
  let tone_style := tone_style_of answers in
  let humor_phrase := humor_phrase_of answers in
  let decision_style := decision_style_of answers in
  let persona_summary := persona_summary_of answers in
  do mbti <- _derive_mbti answers;
  Ok (<["mbti" := mbti]>
      (<["persona_summary" := persona_summary]>
       (<["decision_style" := decision_style]>
        (<["humor" := humor_phrase]>
         (<["values" := Py.join ", " (top_vals answers)]>
          (<["tone" := tone_style]> ∅)))))).

(** [d[key]] on a dictionary of strings. *)
Definition getitem (d : gmap string string) (key : string) : result string :=
  match d !! key with
  | Some v => Ok v
  | None => Raise KeyError
  end.

(** *** The class [DigitalAITwin] *)

Record DigitalAITwin : Type := {
  persona : Persona;
  memories : MemoryBank;
  gemini : gemini_client.GeminiClient
}.

(** The engine together with the count of external calls made so far. *)
Record state : Type := { self : DigitalAITwin; calls : nat }.

(** A method: an outcome and the state reached, exception or not. *)
Definition M (A : Type) : Type := state -> result A * state.

Definition ret {A} (a : A) : M A := fun s => (Ok a, s).

Definition bind {A B} (m : M A) (k : A -> M B) : M B :=
  fun s =>
    match m s with
    | (Ok a, s') => k a s'
    | (Raise e, s') => (Raise e, s')
    end.

Definition lift {A} (r : result A) : M A := fun s => (r, s).

Notation "'run' x <- m ; k" := (bind m (fun x => k))
  (at level 10, x pattern, m at level 100, k at level 200).
Notation "'exec' m ; k" := (bind m (fun _ => k))
  (at level 10, m at level 100, k at level 200).

Definition read {A} (f : DigitalAITwin -> A) : M A :=
  fun s => (Ok (f (self s)), s).

Definition set_persona (f : Persona -> Persona) : M unit :=
  fun s =>
    (Ok tt,
     {| self := {| persona := f (persona (self s));
                   memories := memories (self s);
                   gemini := gemini (self s) |};
        calls := calls s |}).

(** [self.memories.add(item)] *)
Definition memories_add (item : MemoryItem) : M unit :=
  fun s =>
    (Ok tt,
     {| self := {| persona := persona (self s);
                   memories := add (memories (self s)) item;
                   gemini := gemini (self s) |};
        calls := calls s |}).

Definition with_survey_json (v : gmap string Py.value) (p : Persona) : Persona :=
  {| user_name := user_name p; persona_summary := persona_summary p;
     tone_style := tone_style p; values := values p; humor := humor p;
     decision_style := decision_style p; survey_json := v; mbti := mbti p |}.

Definition with_persona_summary (v : string) (p : Persona) : Persona :=
  {| user_name := user_name p; persona_summary := v;
     tone_style := tone_style p; values := values p; humor := humor p;
     decision_style := decision_style p; survey_json := survey_json p;
     mbti := mbti p |}.

Definition with_tone_style (v : string) (p : Persona) : Persona :=
  {| user_name := user_name p; persona_summary := persona_summary p;
     tone_style := v; values := values p; humor := humor p;
     decision_style := decision_style p; survey_json := survey_json p;
     mbti := mbti p |}.

Definition with_values (v : string) (p : Persona) : Persona :=
  {| user_name := user_name p; persona_summary := persona_summary p;
     tone_style := tone_style p; values := v; humor := humor p;
     decision_style := decision_style p; survey_json := survey_json p;
     mbti := mbti p |}.

Definition with_humor (v : string) (p : Persona) : Persona :=
  {| user_name := user_name p; persona_summary := persona_summary p;
     tone_style := tone_style p; values := values p; humor := v;
     decision_style := decision_style p; survey_json := survey_json p;
     mbti := mbti p |}.

Definition with_decision_style (v : string) (p : Persona) : Persona :=
  {| user_name := user_name p; persona_summary := persona_summary p;
     tone_style := tone_style p; values := values p; humor := humor p;
     decision_style := v; survey_json := survey_json p; mbti := mbti p |}.

Definition with_mbti (v : string) (p : Persona) : Persona :=
  {| user_name := user_name p; persona_summary := persona_summary p;
     tone_style := tone_style p; values := values p; humor := humor p;
     decision_style := decision_style p; survey_json := survey_json p;
     mbti := v |}.

Section Methods.
Variable w : world.

(** [DigitalAITwin(user_name)] *)
Definition init (user_name' : string) : DigitalAITwin :=
  {| persona := Persona_init user_name';
     memories := memory_bank.init;
     gemini := gemini_client.init w None |}.

(** [set_gemini_key]: the engine afterwards, and the value written to the
    environment. *)
Definition set_gemini_key (self' : DigitalAITwin) (key : string)
    : DigitalAITwin * string :=
  let '(g, env) := gemini_client.set_api_key w (gemini self') key in
  ({| persona := persona self'; memories := memories self'; gemini := g |}, env).

(** [self.gemini.embed([t])[0]] *)
Definition embed_first (t : string) : M (list float) :=
  fun s =>
    let '(vecs, calls') := gemini_client.embed w (gemini (self s)) (calls s) [t] in
    let s' := {| self := self s; calls := calls' |} in
    match vecs with
    | v :: _ => (Ok v, s')
    | [] => (Raise IndexError, s')
    end.

(** [self.gemini.chat(system_prompt, user_message)] *)
Definition gemini_chat (system_prompt user_message : string) : M string :=
  fun s =>
    let '(reply, calls') :=
      gemini_client.chat w (gemini (self s)) (calls s) system_prompt user_message in
    (Ok reply, {| self := self s; calls := calls' |}).

(** [MemoryItem(...)], its [timestamp] read from the clock. *)
Definition new_item (type' text' : string) (embedding' : list float)
    (meta' : gmap string string) : M MemoryItem :=
  fun s =>
    (MemoryItem_init (utcnow w (calls s)) type' text' embedding' meta' false,
     {| self := self s; calls := S (calls s) |}).

(** The [text_summary] of [process_survey]. *)
Definition text_summary_of (p : Persona) : string :=
  "Tone: " +:+ tone_style p +:+ ". Values: " +:+ values p +:+ ". "
  +:+ "Decision Style: " +:+ decision_style p +:+ ". Humor: " +:+ humor p
  +:+ ". MBTI: " +:+ mbti p +:+ ".".

(** One turn of the loop over the example decisions. *)
Definition store_example (answers : gmap string Py.value) (key : string) : M unit :=
  let txt := Py.strip (Py.str (Py.get answers key (Py.VStr ""))) in
  if Py.truthy txt then
    run emb <- embed_first txt;
    run item <- new_item "decision" txt emb ∅;
    memories_add item
  else ret tt.

Fixpoint store_examples (answers : gmap string Py.value) (keys : list string) : M unit :=
  match keys with
  | [] => ret tt
  | key :: keys' =>
      exec store_example answers key;
      store_examples answers keys'
  end.

Definition process_survey (answers : gmap string Py.value) : M unit :=
  exec set_persona (with_survey_json answers);
  run derived <- lift (_derive_persona_fields answers);
  run v <- lift (getitem derived "persona_summary");
  exec set_persona (with_persona_summary v);
  run v <- lift (getitem derived "tone");
  exec set_persona (with_tone_style v);
  run v <- lift (getitem derived "values");
  exec set_persona (with_values v);
  run v <- lift (getitem derived "humor");
  exec set_persona (with_humor v);
  run v <- lift (getitem derived "decision_style");
  exec set_persona (with_decision_style v);
  exec set_persona (with_mbti (default "" (derived !! "mbti")));
  let catchphrase := Py.strip (Py.str (Py.get answers "catchphrase" (Py.VStr ""))) in
  exec (if Py.truthy catchphrase then
         run emb <- embed_first catchphrase;
         run item <- new_item "survey" ("Catchphrase: " +:+ catchphrase) emb ∅;
         memories_add item
       else ret tt);
  exec store_examples answers
        ["example_decision1"; "example_decision2"; "example_decision3"];
  run p <- read persona;
  let text_summary := text_summary_of p in
  run emb <- embed_first text_summary;
  run item <- new_item "survey" text_summary emb ∅;
  memories_add item.

Fixpoint catchphrases_of (ms : list MemoryItem) : list string :=
  match ms with
  | [] => []
  | m :: ms' =>
      if String.eqb (type m) "survey"
         && Py.startswith (Py.lower (text m)) "catchphrase:"
      then Py.strip (Py.split_colon_last (text m)) :: catchphrases_of ms'
      else catchphrases_of ms'
  end.

Definition _catchphrases (self' : DigitalAITwin) : list string :=
  catchphrases_of (list_ (memories self')).

(** The system prompt of [chat]. *)
Definition chat_system_prompt (p : Persona) (context_items : list MemoryItem)
    (catchphrases : list string) : string :=
  let context_lines :=
    map (fun m => "- " +:+ Py.upper (type m) +:+ ": " +:+ text m) context_items in
  let style_rules :=
    "Respond in first person as " +:+ user_name p +:+ ". Keep the tone "
    +:+ tone_style p +:+ ". "
    +:+ "Be concise (1–3 sentences) unless detail was requested. Avoid asking questions unless critical. "
    +:+ "Prefer decisive language." in
  let style_rules :=
    match catchphrases with
    | [] => style_rules
    | _ => style_rules +:+ " Optionally weave in these catchphrase(s) naturally: "
           +:+ Py.join ", " (Py.slice_to catchphrases 2) +:+ "."
    end in
  "You are the AI twin of " +:+ user_name p +:+ String "010" ""
  +:+ "Persona: " +:+ persona_summary p +:+ String "010" ""
  +:+ "Core Values: " +:+ values p +:+ String "010" ""
  +:+ "Humor: " +:+ humor p +:+ String "010" ""
  +:+ "Relevant Memories:" +:+ String "010" ""
  +:+ Py.join (String "010" "") (Py.slice_to context_lines 5)
  +:+ String "010" (String "010" "")
  +:+ "Output style rules:" +:+ String "010" "" +:+ style_rules.

Definition chat (message : string) (k : Z) : M string :=
  run q_emb <- embed_first message;
  run item <- new_item "chat" message q_emb {["role" := "user"]};
  exec memories_add item;
  run bank <- read memories;
  run context_items <- lift (search bank q_emb k None);
  run me <- read id;
  let catchphrases := _catchphrases me in
  let system_prompt := chat_system_prompt (persona me) context_items catchphrases in
  run reply <- gemini_chat system_prompt message;
  run a_emb <- embed_first reply;
  run item <- new_item "chat" reply a_emb {["role" := "assistant"]};
  exec memories_add item;
  ret reply.

(** One optional block of the decision prompt: the header and the lines
    when there are lines, nothing otherwise. *)
Definition block (header : string) (lines shown : list string) : string :=
  match lines with
  | [] => ""
  | _ => header +:+ String "010" "" +:+ Py.join (String "010" "") shown
         +:+ String "010" ""
  end.

Definition bullet (m : MemoryItem) : string := "- " +:+ text m.

(** The opening lines of the prompt of [simulate_decision]. *)
Definition decision_preamble (p : Persona) : string :=
  "You are the AI twin of " +:+ user_name p +:+ String "010" ""
  +:+ "Persona Summary: " +:+ persona_summary p +:+ String "010" ""
  +:+ "Decision-Making Style: " +:+ decision_style p +:+ String "010" "".

(** Its [style_rules]. *)
Definition decision_style_rules (p : Persona) (catchphrases : list string) : string :=
  let style_rules :=
    "Respond in first person as " +:+ user_name p
    +:+ ". State the decision clearly in the first sentence, "
    +:+ "then give 1–2 sentences of reasoning. No follow-up questions. Honor stated preferences if applicable." in
  match catchphrases with
  | [] => style_rules
  | _ => style_rules +:+ " Optionally include catchphrase(s) tastefully: "
         +:+ Py.join ", " (Py.slice_to catchphrases 2) +:+ "."
  end.

(** The system prompt of [simulate_decision]. *)
Definition decision_system_prompt (p : Persona)
    (relevant_decisions survey_ctx user_prefs : list MemoryItem)
    (catchphrases : list string) : string :=
  let context_lines_decisions := map bullet relevant_decisions in
  let context_lines_survey := map bullet survey_ctx in
  let context_lines_prefs := map bullet (Py.slice_to user_prefs 5) in
  decision_preamble p
  +:+ block "Relevant Past Decisions:" context_lines_decisions
        (Py.slice_to context_lines_decisions 5)
  +:+ block "Survey Context:" context_lines_survey
        (Py.slice_to context_lines_survey 3)
  +:+ block "Past Preferences from Chats (user statements):" context_lines_prefs
        context_lines_prefs
  +:+ "Output style rules:" +:+ String "010" ""
  +:+ decision_style_rules p catchphrases.

(** [[m for m in relevant_chats if m.meta.get("role") != "assistant"]] *)
Fixpoint user_statements (ms : list MemoryItem) : list MemoryItem :=
  match ms with
  | [] => []
  | m :: ms' =>
      if bool_decide (meta m !! "role" = Some "assistant")
      then user_statements ms'
      else m :: user_statements ms'
  end.

(** What [simulate_decision] retrieves and the prompt it assembles. *)
Definition decision_prompt (me : DigitalAITwin) (q_emb : list float) (k : Z)
    : result string :=
  do relevant_decisions <- search (memories me) q_emb k (Some "decision");
  do survey_ctx <- search (memories me) q_emb 2 (Some "survey");
  do relevant_chats <- search (memories me) q_emb (Z.max 5 k) (Some "chat");
  let user_prefs := user_statements relevant_chats in
  Ok (decision_system_prompt (persona me) relevant_decisions survey_ctx
        user_prefs (_catchphrases me)).

Definition simulate_decision (situation : string) (k : Z) (store : bool) : M string :=
  run q_emb <- embed_first situation;
  run me <- read id;
  run system_prompt <- lift (decision_prompt me q_emb k);
  run reply <- gemini_chat system_prompt situation;
  exec (if store then
         run emb <- embed_first reply;
         run item <- new_item "decision" reply emb ∅;
         memories_add item
       else ret tt);
  ret reply.

End Methods.

End twin_core.

Import twin_core.

(** ** ui.py: what the windows do to the engine *)

Module ui.

(** A control of the survey wizard, with what its reader returns:
    [Likert.value()], [QSpinBox.value()], [QComboBox.currentText()],
    [QLineEdit.text()]. *)
Inductive control : Type :=
| Likert (value : Z)
| QSpinBox (value : Z)
| QComboBox (currentText : string)
| QLineEdit (text : string).

(** The value [emit_results] reads off a control. *)
Definition reading (c : control) : Py.value :=
  match c with
  | Likert v => Py.VInt v
  | QSpinBox v => Py.VInt v
  | QComboBox t => Py.VStr t
  | QLineEdit t => Py.VStr (Py.strip t)
  end.

(** The loop of [SurveyWizard.emit_results] over [self.controls.items()]. *)
Fixpoint emit_loop (controls : list (string * control))
    (data : gmap string Py.value) : gmap string Py.value :=
  match controls with
  | [] => data
  | (key, c) :: controls' => emit_loop controls' (<[key := reading c]> data)
  end.

(** [SurveyWizard.emit_results]: the dictionary that is emitted. *)
Definition emit_results (controls : list (string * control))
    : gmap string Py.value :=
  emit_loop controls ∅.

(** [self.controls] as [SurveyWizard.__init__] fills it, page by page; what
    the controls show is the user's doing: [likert], [spin] and [line] give
    it per key, [combo] for the one combo box. *)
Definition SurveyWizard_controls (likert spin : string -> Z) (combo : string)
    (line : string -> string) : list (string * control) :=
  [ ("tone_directness", Likert (likert "tone_directness"));
    ("tone_formality", Likert (likert "tone_formality"));
    ("tone_empathy", Likert (likert "tone_empathy"));
    ("msg_length", Likert (likert "msg_length"));
    ("humor_style", QComboBox combo);
    ("humor_frequency", Likert (likert "humor_frequency"));
    ("val_honesty", QSpinBox (spin "val_honesty"));
    ("val_efficiency", QSpinBox (spin "val_efficiency"));
    ("val_loyalty", QSpinBox (spin "val_loyalty"));
    ("val_creativity", QSpinBox (spin "val_creativity"));
    ("val_frugality", QSpinBox (spin "val_frugality"));
    ("catchphrase", QLineEdit (line "catchphrase"));
    ("agreeableness", Likert (likert "agreeableness"));
    ("conscientiousness", Likert (likert "conscientiousness"));
    ("openness", Likert (likert "openness"));
    ("extraversion", Likert (likert "extraversion"));
    ("decision_data_vs_intuition", Likert (likert "decision_data_vs_intuition"));
    ("risk_tolerance", Likert (likert "risk_tolerance"));
    ("speed_vs_thoroughness", Likert (likert "speed_vs_thoroughness"));
    ("mbti_ei", Likert (likert "mbti_ei"));
    ("mbti_sn", Likert (likert "mbti_sn"));
    ("mbti_tf", Likert (likert "mbti_tf"));
    ("mbti_jp", Likert (likert "mbti_jp"));
    ("example_decision1", QLineEdit (line "example_decision1"));
    ("example_decision2", QLineEdit (line "example_decision2"));
    ("example_decision3", QLineEdit (line "example_decision3")) ].

(** [MainWindow.on_survey] after [emit_results]: the engine part (the
    table is repainted afterwards). *)
Definition on_survey (w : world) (controls : list (string * control)) : M unit :=
  process_survey w (emit_results controls).

(** [MemoryViewerPage.delete_selected], the engine part: the rows of the
    selected cells, as a set, from the highest down. *)
Definition delete_selected (bank : MemoryBank) (selected_rows : list Z)
    : MemoryBank :=
  let rows :=
    Py.sort_desc Z.ltb id (elements (list_to_set selected_rows : gset Z)) in
  fold_left delete rows bank.

(** [ChatPage.on_send], the engine part: a blank input is dropped, anything
    else goes to [chat] stripped, with the default [k]. *)
Definition on_send (w : world) (input : string) : M unit :=
  let msg := Py.strip input in
  if negb (Py.truthy msg) then ret tt
  else run reply <- chat w msg 5; ret tt.

(** [WhatWouldIDoPage.on_sim], the engine part: [simulate_decision] with
    its defaults, so the reply is stored. *)
Definition on_sim (w : world) (situation : string) : M unit :=
  let text := Py.strip situation in
  if negb (Py.truthy text) then ret tt
  else run reply <- simulate_decision w text 5 true; ret tt.

Definition with_user_name (v : string) (p : Persona) : Persona :=
  {| user_name := v; persona_summary := persona_summary p;
     tone_style := tone_style p; values := values p; humor := humor p;
     decision_style := decision_style p; survey_json := survey_json p;
     mbti := mbti p |}.

(** [SettingsPage.apply]: the engine afterwards, and what [key_applied]
    emits. *)
Definition apply (w : world) (name_input api_key_input : string)
    (twin : DigitalAITwin) : DigitalAITwin * bool :=
  let name := Py.strip name_input in
  let twin1 :=
    {| persona := with_user_name (if Py.truthy name then name else "You")
                    (persona twin);
       memories := memories twin; gemini := gemini twin |} in
  let key := Py.strip api_key_input in
  if Py.truthy key then
    let twin2 := fst (set_gemini_key w twin1 key) in
    (twin2,
     gemini_client._have_sdk (gemini twin2)
     && gemini_client._configured (gemini twin2))
  else (twin1, false).

(** What the user does in the windows: sends a chat message, asks for a
    decision, finishes the wizard, deletes the selected rows, applies the
    settings. *)
Inductive event : Type :=
| Send (input : string)
| Simulate (situation : string)
| Finish (controls : list (string * control))
| DeleteSelected (selected_rows : list Z)
| Apply (name_input api_key_input : string).

(** The handler of an event, on the engine. *)
Definition handle (w : world) (e : event) : M unit :=
  match e with
  | Send input => on_send w input
  | Simulate situation => on_sim w situation
  | Finish controls => on_survey w controls
  | DeleteSelected selected_rows =>
      fun s =>
        (Ok tt,
         {| self := {| persona := persona (self s);
                       memories := delete_selected (memories (self s)) selected_rows;
                       gemini := gemini (self s) |};
            calls := calls s |})
  | Apply name_input api_key_input =>
      fun s =>
        (Ok tt,
         {| self := fst (apply w name_input api_key_input (self s));
            calls := calls s |})
  end.

End ui.

(** * Notions the properties are stated with *)

Definition not_nan (x : float) : Prop := PrimFloat.is_nan x = false.

(** In a list sorted downwards by [key], with ties in the order [before],
    [a] may stand in front of [b]: its key is not less, and when the keys tie
    it comes [before] it. *)
Definition ranked {A K : Type} (lt : K -> K -> bool) (key : A -> K)
    (before : A -> A -> Prop) (a b : A) : Prop :=
  lt (key a) (key b) = false /\
  (lt (key b) (key a) = false -> before a b).

(** The records [search] scores under a filter, in the order of the store. *)
Definition candidates (type_filter : option string) (ms : list MemoryItem)
    : list MemoryItem :=
  List.filter (fun m => negb (skipped type_filter m)) ms.

(** The similarity [search] gives a record ([nan] where the computation
    raises). *)
Definition similarity (q : list float) (m : MemoryItem) : float :=
  match _cosine_similarity q (embedding m) with
  | Ok s => s
  | Raise _ => nan
  end.

(** [a] is not ranked below [b]. *)
Definition not_below (q : list float) (a b : MemoryItem) : Prop :=
  PrimFloat.ltb (similarity q a) (similarity q b) = false.

(** The records of a list whose similarity equals [s]. *)
Definition with_similarity (q : list float) (s : float) (ms : list MemoryItem)
    : list MemoryItem :=
  List.filter (fun m => PrimFloat.eqb (similarity q m) s) ms.

(** A state by its parts. *)
Definition mk (p : Persona) (ms : list MemoryItem) (g : gemini_client.GeminiClient)
    (n : nat) : state :=
  {| self := {| persona := p; memories := {| _memories := ms |}; gemini := g |};
     calls := n |}.

(** The offline embedding of a text. *)
Definition stub_vector (w : world) (t : string) : list float :=
  random_256 w (Z.land (str_hash w t) 4294967295).

(** A record as the engine makes it: never permanent. *)
Definition record (kind txt : string) (e : list float) (now : Z)
    (tags : gmap string string) : MemoryItem :=
  {| type := kind; text := txt; embedding := e; timestamp := now;
     meta := tags; permanent := false |}.

(** An answer read as a text: [str(answers.get(key, "")).strip()]. *)
Definition answer_text (answers : gmap string Py.value) (key : string) : string :=
  Py.strip (Py.str (Py.get answers key (Py.VStr ""))).

(** Kind and text of the records that the example decisions give, in the
    order of the keys. *)
Definition example_records (answers : gmap string Py.value) (keys : list string)
    : list (string * string) :=
  flat_map (fun key => if Py.truthy (answer_text answers key)
                       then [("decision", answer_text answers key)] else [])
           keys.

(** Kind and text of the records of a survey: the catchphrase if there is
    one, the example decisions, the summary. *)
Definition survey_records (answers : gmap string Py.value) (summary : string)
    : list (string * string) :=
  ((if Py.truthy (answer_text answers "catchphrase")
    then [("survey", "Catchphrase: " +:+ answer_text answers "catchphrase")]
    else [])
   ++ example_records answers
        ["example_decision1"; "example_decision2"; "example_decision3"]
   ++ [("survey", summary)])%list.

(** A record of the given kind and text, without tags, not permanent. *)
Definition plain_record (kt : string * string) (m : MemoryItem) : Prop :=
  type m = fst kt /\ text m = snd kt /\ meta m = ∅ /\ permanent m = false.

(** The persona after a survey whose type code is [code]. *)
Definition derived_persona (p : Persona) (answers : gmap string Py.value)
    (code : string) : Persona :=
  {| user_name := user_name p;
     persona_summary := persona_summary_of answers;
     tone_style := tone_style_of answers;
     values := Py.join ", " (top_vals answers);
     humor := humor_phrase_of answers;
     decision_style := decision_style_of answers;
     survey_json := answers;
     mbti := code |}.

(** The five axes of the values, in the order of their declaration. *)
Definition value_axes : list string :=
  ["honesty"; "efficiency"; "loyalty"; "creativity"; "frugality"].

(** The score of an axis: the answer to its question, 3 without one. *)
Definition axis_score (answers : gmap string Py.value) (axis : string) : Z :=
  geti answers ("val_" +:+ axis) 3.

Fixpoint index_of (x : string) (l : list string) : nat :=
  match l with
  | [] => O
  | y :: l' => if String.eqb x y then O else S (index_of x l')
  end.

(** Axis [a] is declared before axis [b]. *)
Definition declared_before (a b : string) : Prop :=
  (index_of a value_axes < index_of b value_axes)%nat.

(** Axis [a] goes before axis [b]: by the higher score, and at equal scores
    by the declaration. *)
Definition outranks (answers : gmap string Py.value) (a b : string) : Prop :=
  axis_score answers b < axis_score answers a
  \/ (axis_score answers a = axis_score answers b /\ declared_before a b).

(** The decision prompt as the specification words it: a sequence of
    optional fragments, each present only if its lines are not empty, put
    together in a fixed order between the preamble and the style rules. *)
Definition fragment (header : string) (lines : list string) : option string :=
  match lines with
  | [] => None
  | _ => Some (header +:+ String "010" "" +:+ Py.join (String "010" "") lines
               +:+ String "010" "")
  end.

Definition assemble (preamble : string) (fragments : list (option string))
    (rules : string) : string :=
  preamble +:+ foldr String.append rules (omap id fragments).

Definition spec_decision_prompt (p : Persona)
    (decisions survey prefs : list MemoryItem) (catchphrases : list string)
    : string :=
  assemble (decision_preamble p)
    [ fragment "Relevant Past Decisions:" (map bullet (take 5 decisions));
      fragment "Survey Context:" (map bullet (take 3 survey));
      fragment "Past Preferences from Chats (user statements):"
        (map bullet (take 5 prefs)) ]
    ("Output style rules:" +:+ String "010" ""
     +:+ decision_style_rules p catchphrases).

(** ** Sample data *)

(** The answers of the example of the specification. *)
Definition survey_example : gmap string Py.value :=
  <["tone_directness" := Py.VInt 5]>
  (<["tone_formality" := Py.VInt 1]>
   (<["val_honesty" := Py.VInt 5]>
    (<["val_creativity" := Py.VInt 4]>
     (<["val_efficiency" := Py.VInt 3]>
      (<["mbti_ei" := Py.VInt 5]>
       (<["mbti_sn" := Py.VInt 3]>
        (<["catchphrase" := Py.VStr "Ship it."]> ∅))))))).

(** A world without SDK. *)
Definition offline_world : world :=
  {| environ_key := "";
     genai_configures := fun _ => false;
     embed_content := fun _ _ _ => None;
     generate_content := fun _ _ _ _ => sdk_raises;
     str_hash := fun t => Z.of_nat (String.length t);
     random_256 := fun seed => [PrimFloat.of_uint63 (Uint63.of_Z seed); 1%float];
     utcnow := fun n => Z.of_nat n |}.

Definition sample_item (kind txt : string) (e : list float) (keep : bool)
    : MemoryItem :=
  {| type := kind; text := txt; embedding := e; timestamp := 0;
     meta := ∅; permanent := keep |}.

(** Two chat records of the same embedding around a decision record. *)
Definition sample_bank : MemoryBank :=
  {| _memories := [ sample_item "chat" "first" [1; 0]%float false;
                    sample_item "decision" "second" [0; 1]%float true;
                    sample_item "chat" "third" [1; 0]%float false ] |}.

(** An engine that has stored two chat records and no decision. *)
Definition sample_twin : DigitalAITwin :=
  {| persona := Persona_init "You";
     memories :=
       {| _memories := [ sample_item "chat" "I like short meetings" [1; 0]%float false;
                         sample_item "chat" "Noted." [0; 1]%float false ] |};
     gemini :=
       {| gemini_client.api_key := "";
          gemini_client.model_name := "gemini-1.5-flash";
          gemini_client.embed_model := "text-embedding-004";
          gemini_client._configured := false;
          gemini_client._have_sdk := false |} |}.

(** The prompt [simulate_decision] assembles on it. *)
Definition sample_decision_prompt : string :=
  match decision_prompt sample_twin [1; 0]%float 5 with
  | Ok prompt => prompt
  | Raise _ => ""
  end.

(** ** Notions for the engine as a whole *)

(** The client uses the SDK: both flags are set. *)
Definition online (g : gemini_client.GeminiClient) : bool :=
  gemini_client._have_sdk g && gemini_client._configured g.

(** A call of a public operation of the engine. *)
Inductive call : Type :=
| Chat (message : string) (k : Z)
| SimulateDecision (situation : string) (k : Z) (store : bool)
| ProcessSurvey (answers : gmap string Py.value).

(** Whether the call raises, and the state it leaves. *)
Definition perform (w : world) (c : call) (s : state) : bool * state :=
  match c with
  | Chat message k =>
      let '(r, s') := chat w message k s in (is_ok r, s')
  | SimulateDecision situation k store =>
      let '(r, s') := simulate_decision w situation k store s in (is_ok r, s')
  | ProcessSurvey answers =>
      let '(r, s') := process_survey w answers s in (is_ok r, s')
  end.

(** The state after a sequence of calls, exceptions caught by the caller. *)
Definition perform_all (w : world) (cs : list call) (s : state) : state :=
  fold_left (fun s c => snd (perform w c s)) cs s.

(** A record as the engine stores them. *)
Definition engine_made (m : MemoryItem) : Prop :=
  permanent m = false /\ In (type m) ["chat"; "decision"; "survey"].

(** A record of the given kind and text, made by the engine, with an
    embedding of property [P]. *)
Definition made_with (P : list float -> Prop) (kt : string * string)
    (m : MemoryItem) : Prop :=
  plain_record kt m /\ P (embedding m).

(** The catchphrase [_catchphrases] reads off a record of the given kind
    and text, if any. *)
Definition phrase_of (kt : string * string) : list string :=
  if String.eqb (fst kt) "survey"
     && Py.startswith (Py.lower (snd kt)) "catchphrase:"
  then [Py.strip (Py.split_colon_last (snd kt))]
  else [].

(** The keys of the answers that the engine reads. *)
Definition survey_keys : list string :=
  [ "tone_directness"; "tone_formality"; "tone_empathy"; "msg_length";
    "humor_style"; "humor_frequency";
    "decision_data_vs_intuition"; "risk_tolerance"; "speed_vs_thoroughness";
    "agreeableness"; "conscientiousness"; "openness"; "extraversion";
    "val_honesty"; "val_efficiency"; "val_loyalty"; "val_creativity";
    "val_frugality";
    "mbti_ei"; "mbti_sn"; "mbti_tf"; "mbti_jp";
    "catchphrase"; "example_decision1"; "example_decision2";
    "example_decision3" ].

(** A text that is not empty and has no white space at either end. *)
Definition clean (t : string) : Prop := Py.truthy t = true /\ Py.strip t = t.

(** All embeddings have length [d]. *)
Definition aligned (d : nat) (ms : list MemoryItem) : Prop :=
  Forall (fun m => length (embedding m) = d) ms.

(** The records of [ms], numbered from [i], whose number is not selected. *)
Fixpoint keep_rows (selected : list Z) (i : Z) (ms : list MemoryItem)
    : list MemoryItem :=
  match ms with
  | [] => []
  | m :: ms' =>
      if bool_decide (i ∈ selected) then keep_rows selected (i + 1) ms'
      else m :: keep_rows selected (i + 1) ms'
  end.

(** * Properties *)

(** ** Binary64 facts, from the specification of the primitive floats *)

Ltac compare_cases :=
  repeat match goal with
  | H : context [Z.compare ?a ?b] |- _ => destruct (Z.compare_spec a b)
  | |- context [Z.compare ?a ?b] => destruct (Z.compare_spec a b)
  | H : context [Pos.compare ?a ?b] |- _ => destruct (Pos.compare_spec a b)
  | |- context [Pos.compare ?a ?b] => destruct (Pos.compare_spec a b)
  end.

Lemma float_mul_comm (x y : float) : (x * y)%float = (y * x)%float.
Proof.
  apply Prim2SF_inj. rewrite !mul_spec. unfold SF64mul, SFmul.
  destruct (Prim2SF x) as [sx|sx| |sx mx ex], (Prim2SF y) as [sy|sy| |sy my ey];
    rewrite ?(xorb_comm sx sy); try reflexivity.
  now rewrite (Pos.mul_comm mx my), (Z.add_comm ex ey).
Qed.

Lemma SFcompare_opp x y c :
  SFcompare x y = Some c -> SFcompare y x = Some (CompOpp c).
Proof.
  destruct x as [sx|sx| |sx mx ex], y as [sy|sy| |sy my ey]; simpl;
    try discriminate;
    try (intros [= <-]; try destruct sx; try destruct sy; reflexivity).
  change (PosDef.Pos.compare_cont Eq mx my) with (Pos.compare mx my).
  change (PosDef.Pos.compare_cont Eq my mx) with (Pos.compare my mx).
  intros [= <-]. f_equal.
  rewrite (Z.compare_antisym ex ey), (Pos.compare_antisym mx my).
  destruct sx, sy; simpl; try reflexivity;
    destruct (ex ?= ey); simpl; try reflexivity;
    destruct (mx ?= my)%positive; reflexivity.
Qed.

Lemma SFltb_ntrans x y z :
  SFcompare x x <> None -> SFcompare y y <> None -> SFcompare z z <> None ->
  SFltb x y = false -> SFltb y z = false -> SFltb x z = false.
Proof.
  unfold SFltb.
  destruct x as [sx|sx| |sx mx ex], y as [sy|sy| |sy my ey],
           z as [sz|sz| |sz mz ez];
    simpl; try congruence; intros _ _ _;
    try destruct sx; try destruct sy; try destruct sz; simpl; try congruence;
    change (PosDef.Pos.compare_cont Eq) with Pos.compare;
    compare_cases; simpl; try congruence; try lia.
Qed.

Lemma SFeqb_ltb_other x y s :
  SFeqb x s = true -> SFltb x y = true -> SFeqb y s = false.
Proof.
  unfold SFeqb, SFltb.
  destruct x as [sx|sx| |sx mx ex], y as [sy|sy| |sy my ey],
           s as [ss|ss| |ss ms es];
    simpl; try congruence;
    try destruct sx; try destruct sy; try destruct ss; simpl; try congruence;
    change (PosDef.Pos.compare_cont Eq) with Pos.compare;
    compare_cases; simpl; try congruence; try lia.
Qed.

Lemma not_nan_SFcompare x : not_nan x -> SFcompare (Prim2SF x) (Prim2SF x) <> None.
Proof.
  unfold not_nan, PrimFloat.is_nan. rewrite FloatAxioms.eqb_spec. unfold SFeqb.
  destruct (SFcompare (Prim2SF x) (Prim2SF x)); [discriminate | simpl; discriminate].
Qed.

Lemma float_ltb_asym (x y : float) :
  PrimFloat.ltb x y = true -> PrimFloat.ltb y x = false.
Proof.
  rewrite !ltb_spec. unfold SFltb.
  destruct (SFcompare (Prim2SF x) (Prim2SF y)) as [c|] eqn:E; [|discriminate].
  rewrite (SFcompare_opp _ _ _ E). now destruct c.
Qed.

Lemma float_ltb_ntrans (x y z : float) :
  not_nan x -> not_nan y -> not_nan z ->
  PrimFloat.ltb x y = false -> PrimFloat.ltb y z = false ->
  PrimFloat.ltb x z = false.
Proof.
  intros Hx Hy Hz. rewrite !ltb_spec.
  apply SFltb_ntrans; now apply not_nan_SFcompare.
Qed.

Lemma float_eqb_ltb_other (x y s : float) :
  PrimFloat.eqb x s = true -> PrimFloat.ltb x y = true ->
  PrimFloat.eqb y s = false.
Proof. rewrite !FloatAxioms.eqb_spec, ltb_spec. apply SFeqb_ltb_other. Qed.

(** A zero times a finite number is a zero. *)
Lemma float_zero_mul_finite (x y : float) :
  PrimFloat.eqb x 0%float = true -> PrimFloat.is_finite y = true ->
  PrimFloat.eqb (x * y)%float 0%float = true.
Proof.
  unfold PrimFloat.is_finite, PrimFloat.is_nan, PrimFloat.is_infinity.
  rewrite !FloatAxioms.eqb_spec, abs_spec, mul_spec.
  change (Prim2SF 0%float) with (S754_zero false).
  change (Prim2SF infinity) with (S754_infinity false).
  unfold SFeqb, SF64mul, SFmul, SFabs.
  destruct (Prim2SF x) as [sx|sx| |sx mx ex], (Prim2SF y) as [sy|sy| |sy my ey];
    simpl; try congruence;
    try destruct sx; try destruct sy; simpl; try congruence.
Qed.

(** ** The stable descending sort *)

Section SortFacts.
Context {A K : Type} (lt : K -> K -> bool) (key : A -> K).

Lemma insert_desc_perm x l : Permutation (Py.insert_desc lt key x l) (x :: l).
Proof.
  induction l as [|y l IH]; simpl; [reflexivity|].
  destruct (lt (key x) (key y)); [|reflexivity].
  rewrite IH. apply perm_swap.
Qed.

Lemma sort_desc_perm l : Permutation (Py.sort_desc lt key l) l.
Proof.
  induction l as [|x l IH]; simpl; [reflexivity|].
  rewrite insert_desc_perm. now rewrite IH.
Qed.

(** What the sort needs of [<]: it is asymmetric, and on the keys that are
    [good] "not less" is transitive. *)
Variable good : K -> Prop.
Hypothesis lt_asym : forall x y, lt x y = true -> lt y x = false.
Hypothesis lt_ntrans : forall x y z, good x -> good y -> good z ->
  lt x y = false -> lt y z = false -> lt x z = false.

Variable before : A -> A -> Prop.

Local Abbreviation rk := (ranked lt key before).

Lemma insert_desc_ranked x l :
  good (key x) -> Forall (fun a => good (key a)) l ->
  Forall (before x) l ->
  StronglySorted rk l ->
  StronglySorted rk (Py.insert_desc lt key x l).
Proof.
  intros Hx Hg Hp Hs. induction Hs as [|y l Hs IH Hy]; simpl.
  - repeat constructor.
  - inversion Hg as [|? ? Hgy Hgl]; subst. inversion Hp as [|? ? Hpy Hpl]; subst.
    destruct (lt (key x) (key y)) eqn:E.
    + constructor; [now apply IH|].
      rewrite (insert_desc_perm x l). constructor; [|exact Hy].
      split; [now apply lt_asym | congruence].
    + constructor; [now constructor|].
      constructor; [split; [exact E | intros _; exact Hpy]|].
      rewrite Forall_forall in Hy, Hgl, Hpl. apply Forall_forall.
      intros z Hz. split; [|intros _; now apply Hpl].
      apply (lt_ntrans _ (key y)); auto. now apply Hy.
Qed.

Lemma sort_desc_ranked l :
  Forall (fun a => good (key a)) l ->
  StronglySorted before l ->
  StronglySorted rk (Py.sort_desc lt key l).
Proof.
  intros Hg Hp. induction Hp as [|x l Hp IH Hx]; simpl; [constructor|].
  inversion Hg as [|? ? Hgx Hgl]; subst.
  apply insert_desc_ranked; auto.
  - now rewrite sort_desc_perm.
  - now rewrite sort_desc_perm.
Qed.

(** Stability without positions: the items of one key class keep the
    order they had. *)
Variable eq : K -> K -> bool.
Hypothesis eq_lt_other : forall x y s,
  eq x s = true -> lt x y = true -> eq y s = false.

Lemma insert_desc_class x l s :
  List.filter (fun a => eq (key a) s) (Py.insert_desc lt key x l)
  = List.filter (fun a => eq (key a) s) (x :: l).
Proof.
  induction l as [|y l IH]; simpl; [reflexivity|].
  destruct (lt (key x) (key y)) eqn:E; [|reflexivity].
  simpl. rewrite IH. simpl.
  destruct (eq (key x) s) eqn:Ex; [|reflexivity].
  now rewrite (eq_lt_other _ _ _ Ex E).
Qed.

Lemma sort_desc_class l s :
  List.filter (fun a => eq (key a) s) (Py.sort_desc lt key l)
  = List.filter (fun a => eq (key a) s) l.
Proof.
  induction l as [|x l IH]; simpl; [reflexivity|].
  rewrite insert_desc_class. simpl. now rewrite IH.
Qed.

End SortFacts.

Lemma sort_desc_map {A B K : Type} (lt : K -> K -> bool) (key : B -> K)
    (f : A -> B) (l : list A) :
  Py.sort_desc lt key (map f l) = map f (Py.sort_desc lt (fun a => key (f a)) l).
Proof.
  induction l as [|x l IH]; simpl; [reflexivity|]. rewrite IH.
  generalize (Py.sort_desc lt (fun a => key (f a)) l). intros l'.
  induction l' as [|y l' IH']; simpl; [reflexivity|].
  destruct (lt (key (f x)) (key (f y))); simpl; [now rewrite IH' | reflexivity].
Qed.

Lemma slice_to_map {A B : Type} (f : A -> B) (l : list A) (n : Z) :
  Py.slice_to (map f l) n = map f (Py.slice_to l n).
Proof.
  unfold Py.slice_to. rewrite length_map.
  destruct (0 <=? n); apply firstn_map.
Qed.

Lemma StronglySorted_weaken {A : Type} (R S : A -> A -> Prop) (l : list A) :
  (forall a b, R a b -> S a b) -> StronglySorted R l -> StronglySorted S l.
Proof.
  intros HRS H. induction H as [|x l H IH Hx]; constructor; [exact IH|].
  eapply Forall_impl; [exact Hx|]. intros b. apply HRS.
Qed.

(** ** The cosine similarity *)

Lemma sum_products_comm (a b : list float) :
  np.sum_products a b = np.sum_products b a.
Proof.
  unfold np.sum_products. generalize 0%float as acc. revert b.
  induction a as [|x a IH]; intros [|y b] acc; simpl; try reflexivity.
  rewrite (float_mul_comm x y). apply IH.
Qed.

Lemma cosine_similarity_sym (a b : list float) :
  _cosine_similarity a b = _cosine_similarity b a.
Proof.
  unfold _cosine_similarity, np.dot.
  rewrite (orb_comm (Nat.eqb (np.size a) 0)).
  rewrite (float_mul_comm (np.linalg_norm a)).
  rewrite (sum_products_comm a b), (Nat.eqb_sym (np.size a) (np.size b)).
  reflexivity.
Qed.

Lemma cosine_similarity_same_length (a b : list float) :
  length a = length b -> is_ok (_cosine_similarity a b) = true.
Proof.
  intros H. unfold _cosine_similarity, np.dot, np.size. rewrite H, Nat.eqb_refl.
  destruct (_ || _); [reflexivity|]. destruct (PrimFloat.eqb _ _); reflexivity.
Qed.

Lemma cosine_similarity_zero_denominator (a b : list float) :
  PrimFloat.eqb (np.linalg_norm a * np.linalg_norm b)%float 0%float = true ->
  _cosine_similarity a b = Ok 0%float.
Proof.
  intros H. unfold _cosine_similarity. rewrite H.
  destruct (_ || _); reflexivity.
Qed.

(** C3, as the code has it.  The similarity is symmetric, exceptions
    included; it is exactly 0.0, with nothing raised and nothing divided,
    when either vector is empty, when the product of the norms comes out
    zero, and so when one norm is zero and the other finite; vectors of one
    length never raise; and a quotient is only taken by a product of norms
    that is not zero.  The quotient is not clamped: no bound is claimed. *)
Theorem cosine_similarity_symmetric_zero_safe (a b : list float) :
  _cosine_similarity a b = _cosine_similarity b a
  /\ (a = [] \/ b = [] -> _cosine_similarity a b = Ok 0%float)
  /\ (PrimFloat.eqb (np.linalg_norm a * np.linalg_norm b)%float 0%float = true ->
      _cosine_similarity a b = Ok 0%float)
  /\ (PrimFloat.eqb (np.linalg_norm a) 0%float = true ->
      PrimFloat.is_finite (np.linalg_norm b) = true ->
      _cosine_similarity a b = Ok 0%float
      /\ _cosine_similarity b a = Ok 0%float)
  /\ (length a = length b -> is_ok (_cosine_similarity a b) = true)
  /\ (forall s, _cosine_similarity a b = Ok s ->
      s = 0%float
      \/ (PrimFloat.eqb (np.linalg_norm a * np.linalg_norm b)%float 0%float = false
          /\ s = (np.sum_products a b
                  / (np.linalg_norm a * np.linalg_norm b))%float)).
Proof.
  split; [apply cosine_similarity_sym|].
  split.
  { intros [-> | ->]; unfold _cosine_similarity; simpl; [reflexivity|].
    now rewrite orb_true_r. }
  split; [apply cosine_similarity_zero_denominator|].
  split.
  { intros Hz Hf.
    assert (_cosine_similarity a b = Ok 0%float) as E
      by (apply cosine_similarity_zero_denominator; now apply float_zero_mul_finite).
    split; [exact E | now rewrite <- cosine_similarity_sym]. }
  split; [apply cosine_similarity_same_length|].
  intros s. unfold _cosine_similarity, np.dot.
  destruct (_ || _); [intros [= <-]; now left|].
  destruct (PrimFloat.eqb _ _) eqn:E; [intros [= <-]; now left|].
  destruct (Nat.eqb _ _); simpl; [intros [= <-]; now right | discriminate].
Qed.

Lemma cosine_similarity_symmetric_zero_safe_witness :
  _cosine_similarity [0; 0]%float [3; 4]%float = Ok 0%float
  /\ _cosine_similarity [3; 4]%float [0; 0]%float = Ok 0%float
  /\ _cosine_similarity [3; 4]%float [4; 3]%float
     = _cosine_similarity [4; 3]%float [3; 4]%float.
Proof.
  split; [|split].
  - apply (cosine_similarity_symmetric_zero_safe [0; 0]%float [3; 4]%float);
      reflexivity.
  - apply (cosine_similarity_symmetric_zero_safe [0; 0]%float [3; 4]%float);
      reflexivity.
  - apply (cosine_similarity_symmetric_zero_safe [3; 4]%float [4; 3]%float).
Defined.

(** At equal vectors of three ones the similarity is above 1: the sum of
    products is 3, the norm the binary64 square root of 3, whose square is
    below 3. *)
Lemma cosine_similarity_exceeds_one :
  exists s, _cosine_similarity [1; 1; 1]%float [1; 1; 1]%float = Ok s
            /\ PrimFloat.ltb 1%float s = true.
Proof. eexists. split; [vm_compute; reflexivity | vm_compute; reflexivity]. Qed.

(** A vector of zero norm against one whose norm overflows: the product of
    the norms is no number, it is not equal to zero, and neither is the
    quotient. *)
Lemma cosine_similarity_zero_against_overflow :
  _cosine_similarity [0]%float [0x1p+1000]%float = Ok nan.
Proof. vm_compute. reflexivity. Qed.

(** Unaligned shapes with norms that are not zero raise. *)
Lemma cosine_similarity_unaligned_raises :
  _cosine_similarity [1]%float [1; 1]%float = Raise ValueError.
Proof. vm_compute. reflexivity. Qed.

(** ** [search] *)

Lemma score_loop_ok (q : list float) (f : option string) (ms : list MemoryItem)
    (scored : list (float * MemoryItem)) :
  Forall (fun m => is_ok (_cosine_similarity q (embedding m)) = true)
         (candidates f ms) ->
  score_loop q f ms scored
  = Ok (scored ++ map (fun m => (similarity q m, m)) (candidates f ms))%list.
Proof.
  revert scored. induction ms as [|m ms IH]; intros scored H; simpl.
  - now rewrite app_nil_r.
  - unfold candidates in *. simpl in H.
    destruct (skipped f m); simpl in *; [now apply IH|].
    inversion H as [|? ? Hm Hms]; subst.
    unfold similarity at 1.
    destruct (_cosine_similarity q (embedding m)) as [s|e]; [|discriminate].
    simpl. rewrite (IH _ Hms). now rewrite <- app_assoc.
Qed.

(** When no similarity raises, [search] is the head of the stable descending
    sort of the candidates. *)
Lemma search_ok (bank : MemoryBank) (q : list float) (k : Z) (f : option string) :
  Forall (fun m => is_ok (_cosine_similarity q (embedding m)) = true)
         (candidates f (list_ bank)) ->
  search bank q k f
  = Ok (Py.slice_to
          (Py.sort_desc PrimFloat.ltb (similarity q) (candidates f (list_ bank))) k).
Proof.
  intros H. unfold search, list_ in *. rewrite (score_loop_ok _ _ _ [] H). simpl.
  rewrite (sort_desc_map PrimFloat.ltb fst (fun m => (similarity q m, m))).
  simpl. rewrite slice_to_map, map_map. simpl. now rewrite map_id.
Qed.

(** [search] raises exactly when the similarity of a candidate does. *)
Lemma score_loop_is_ok (q : list float) (f : option string) (ms : list MemoryItem)
    (scored : list (float * MemoryItem)) :
  is_ok (score_loop q f ms scored)
  = forallb (fun m => is_ok (_cosine_similarity q (embedding m))) (candidates f ms).
Proof.
  revert scored. induction ms as [|m ms IH]; intros scored; [reflexivity|].
  unfold candidates in *. cbn [score_loop List.filter].
  destruct (skipped f m); cbn [negb]; [apply IH|].
  cbn [forallb].
  destruct (_cosine_similarity q (embedding m)) as [s|e]; [apply IH | reflexivity].
Qed.

Lemma search_is_ok (bank : MemoryBank) (q : list float) (k : Z) (f : option string) :
  is_ok (search bank q k f)
  = forallb (fun m => is_ok (_cosine_similarity q (embedding m)))
      (candidates f (list_ bank)).
Proof.
  unfold search, list_. rewrite <- (score_loop_is_ok q f (_memories bank) []).
  now destruct (score_loop q f (_memories bank) []).
Qed.

(** Embeddings of the length of the query never make [search] raise. *)
Lemma search_aligned_ok (bank : MemoryBank) (q : list float) (k : Z)
    (f : option string) :
  Forall (fun m => length (embedding m) = length q) (list_ bank) ->
  is_ok (search bank q k f) = true.
Proof.
  intros H. rewrite search_is_ok. apply forallb_forall. intros m Hm.
  apply filter_In in Hm. destruct Hm as [Hm _].
  rewrite Forall_forall in H. apply cosine_similarity_same_length.
  symmetry. apply H. now apply list_elem_of_In.
Qed.

Lemma candidates_type (t : string) (ms : list MemoryItem) :
  t <> "" -> Forall (fun m => type m = t) (candidates (Some t) ms).
Proof.
  intros Ht. apply Forall_forall. intros m Hm.
  apply list_elem_of_In, filter_In in Hm. destruct Hm as [_ Hm].
  unfold skipped in Hm. destruct t; [congruence|]. simpl in Hm.
  apply negb_true_iff, negb_false_iff in Hm. now apply String.eqb_eq in Hm.
Qed.

Lemma candidates_none (t : string) (ms : list MemoryItem) :
  Forall (fun m => type m <> t) ms -> t <> "" -> candidates (Some t) ms = [].
Proof.
  intros H Ht. unfold candidates.
  induction H as [|m ms Hm H IH]; [reflexivity|].
  cbn [List.filter]. rewrite IH. unfold skipped.
  destruct t; [congruence|]. cbn [Py.truthy andb].
  apply String.eqb_neq in Hm. now rewrite Hm.
Qed.

(** C1, as the code has it.  For a bound [k] that is not negative and
    candidates whose similarity does not raise (as with embeddings of the
    length of the query), [search] returns: it gives at most [k] records; they are the head of a ranking [res ++ rest] of the
    records that pass the filter; under a filter that is not the empty
    string every one has the kind asked for; and when no similarity is NaN
    the ranking goes down by similarity, and for every similarity [s] the
    returned records of similarity [s] are the first, in the order of the
    store, of the stored records of similarity [s]. *)
Theorem search_returns_ranked_head (bank : MemoryBank) (q : list float) (k : Z)
    (f : option string) :
  0 <= k ->
  Forall (fun m => is_ok (_cosine_similarity q (embedding m)) = true)
         (candidates f (list_ bank)) ->
  exists res rest,
    search bank q k f = Ok res
    /\ Z.of_nat (length res) <= k
    /\ Permutation (res ++ rest)%list (candidates f (list_ bank))
    /\ (forall t, f = Some t -> t <> "" -> Forall (fun m => type m = t) res)
    /\ (Forall (fun m => not_nan (similarity q m)) (candidates f (list_ bank)) ->
        StronglySorted (not_below q) (res ++ rest)%list
        /\ forall s, with_similarity q s res
                     `prefix_of` with_similarity q s (candidates f (list_ bank))).
Proof.
  intros Hk Hlen.
  set (cands := candidates f (list_ bank)) in *.
  set (ranking := Py.sort_desc PrimFloat.ltb (similarity q) cands).
  assert (Permutation ranking cands) as Hperm by apply sort_desc_perm.
  exists (take (Z.to_nat k) ranking), (drop (Z.to_nat k) ranking).
  rewrite take_drop.
  split.
  { rewrite (search_ok _ _ _ _ Hlen).
    unfold Py.slice_to. fold cands. fold ranking.
    destruct (Z.leb_spec 0 k); [reflexivity | lia]. }
  split; [rewrite length_take; lia|].
  split; [exact Hperm|].
  split.
  { intros t -> Ht. apply Forall_take. rewrite Hperm. now apply candidates_type. }
  intros Hnan. split.
  - apply (StronglySorted_weaken
             (ranked PrimFloat.ltb (similarity q) (fun _ _ => True))).
    { intros a b [H _]. exact H. }
    apply (sort_desc_ranked _ _ not_nan).
    + apply float_ltb_asym.
    + apply float_ltb_ntrans.
    + exact Hnan.
    + clear. induction cands; constructor; auto. now apply Forall_forall.
  - intros s. exists (with_similarity q s (drop (Z.to_nat k) ranking)).
    unfold with_similarity. rewrite <- List.filter_app, take_drop.
    symmetry. apply (sort_desc_class PrimFloat.ltb (similarity q) PrimFloat.eqb).
    apply float_eqb_ltb_other.
Qed.

Lemma search_returns_ranked_head_witness :
  0 <= 2
  /\ Forall (fun m => is_ok (_cosine_similarity [1; 0]%float (embedding m)) = true)
            (candidates (Some "chat") (list_ sample_bank))
  /\ Forall (fun m => not_nan (similarity [1; 0]%float m))
            (candidates (Some "chat") (list_ sample_bank))
  /\ exists res rest,
       search sample_bank [1; 0]%float 2 (Some "chat") = Ok res
       /\ Z.of_nat (length res) <= 2
       /\ Permutation (res ++ rest)%list (candidates (Some "chat") (list_ sample_bank))
       /\ (forall t, Some "chat" = Some t -> t <> "" ->
           Forall (fun m => type m = t) res)
       /\ (Forall (fun m => not_nan (similarity [1; 0]%float m))
                  (candidates (Some "chat") (list_ sample_bank)) ->
           StronglySorted (not_below [1; 0]%float) (res ++ rest)%list
           /\ forall s, with_similarity [1; 0]%float s res
                        `prefix_of` with_similarity [1; 0]%float s
                                      (candidates (Some "chat") (list_ sample_bank))).
Proof.
  split; [lia|].
  split; [repeat constructor|].
  split; [repeat constructor|].
  apply (search_returns_ranked_head sample_bank [1; 0]%float 2 (Some "chat"));
    [lia | repeat constructor].
Defined.

(** On the sample, the two chat records tie and come back in the order in
    which they were stored. *)
Lemma search_sample_ties_in_store_order :
  search sample_bank [1; 0]%float 5 (Some "chat")
  = Ok [ sample_item "chat" "first" [1; 0]%float false;
         sample_item "chat" "third" [1; 0]%float false ].
Proof. vm_compute. reflexivity. Qed.

(** A negative [top_k] is a bound counted from the end of the ranking:
    with [-1] all candidates but the last come back, more than [-1]. *)
Lemma search_negative_top_k_exceeds :
  exists res, search sample_bank [1; 0]%float (-1) None = Ok res
              /\ -1 < Z.of_nat (length res).
Proof. eexists. split; [vm_compute; reflexivity | simpl; lia]. Qed.

(** The empty string as filter is no filter. *)
Lemma search_empty_filter_keeps_all_kinds :
  search sample_bank [1; 0]%float 5 (Some "")
  = search sample_bank [1; 0]%float 5 None.
Proof. vm_compute. reflexivity. Qed.

(** An embedding of another length than the query makes [search] raise. *)
Lemma search_unaligned_raises :
  search sample_bank [1; 0; 0]%float 5 None = Raise ValueError.
Proof. vm_compute. reflexivity. Qed.

(** ** [clear] and [delete] *)

Lemma keep_permanent_items_filter (ms : list MemoryItem) :
  keep_permanent_items ms = List.filter permanent ms.
Proof.
  induction ms as [|m ms IH]; simpl; [reflexivity|].
  destruct (permanent m); now rewrite IH.
Qed.

Lemma keep_permanent_items_sublist (ms : list MemoryItem) :
  sublist (keep_permanent_items ms) ms.
Proof.
  induction ms as [|m ms IH]; simpl; [constructor|].
  destruct (permanent m); now constructor.
Qed.

(** C8.  After [clear(keep_permanent=True)] the store lists exactly the prior
    records flagged permanent: the stored list filtered by the flag, a
    subsequence of the prior list (so in the prior relative order), all of it
    permanent, and with every prior permanent record in it.  After
    [clear(keep_permanent=False)] the store is empty. *)
Theorem clear_keeps_permanent_in_order (bank : MemoryBank) :
  list_ (clear bank true) = List.filter permanent (list_ bank)
  /\ sublist (list_ (clear bank true)) (list_ bank)
  /\ Forall (fun m => permanent m = true) (list_ (clear bank true))
  /\ (forall m, In m (list_ bank) -> permanent m = true ->
      In m (list_ (clear bank true)))
  /\ list_ (clear bank false) = [].
Proof.
  unfold clear, list_. simpl.
  split; [apply keep_permanent_items_filter|].
  split; [apply keep_permanent_items_sublist|].
  rewrite keep_permanent_items_filter.
  split.
  { apply Forall_forall. intros m Hm.
    apply list_elem_of_In, filter_In in Hm. tauto. }
  split; [|reflexivity].
  intros m Hin Hp. apply filter_In. tauto.
Qed.

Lemma clear_sample :
  list_ (clear sample_bank true) = [sample_item "decision" "second" [0; 1]%float true].
Proof. reflexivity. Qed.

Lemma pop_take_drop {A : Type} (i : nat) (l : list A) :
  pop i l = (take i l ++ drop (S i) l)%list.
Proof.
  revert i. induction l as [|x l IH]; intros [|i]; simpl; try reflexivity.
  now rewrite IH.
Qed.

(** C9.  [delete(i)] with [i] outside [0, len), negative or too large,
    leaves the store as it is, and nothing is raised (the model of [delete]
    has no exceptional outcome).  With [i] inside, the store loses the record
    at position [i] and nothing else: the records before it and after it
    remain, in order. *)
Theorem delete_by_index (bank : MemoryBank) (idx : Z) :
  (idx < 0 \/ Z.of_nat (length (list_ bank)) <= idx -> delete bank idx = bank)
  /\ (0 <= idx < Z.of_nat (length (list_ bank)) ->
      exists front m back,
        list_ bank = (front ++ m :: back)%list
        /\ Z.of_nat (length front) = idx
        /\ list_ (delete bank idx) = (front ++ back)%list).
Proof.
  unfold delete, list_. split.
  - intros H.
    destruct (Z.leb_spec 0 idx), (Z.ltb_spec idx (Z.of_nat (length (_memories bank))));
      simpl; try reflexivity; lia.
  - intros [H0 H1].
    destruct (Z.leb_spec 0 idx); [|lia].
    destruct (Z.ltb_spec idx (Z.of_nat (length (_memories bank)))); [|lia].
    simpl. rewrite pop_take_drop.
    destruct (lookup_lt_is_Some_2 (_memories bank) (Z.to_nat idx)) as [m Hm]; [lia|].
    exists (take (Z.to_nat idx) (_memories bank)), m,
           (drop (S (Z.to_nat idx)) (_memories bank)).
    split; [now rewrite <- (take_drop_middle _ _ _ Hm) at 1|].
    split; [rewrite length_take; lia | reflexivity].
Qed.

Lemma delete_by_index_witness :
  (-1 < 0 \/ Z.of_nat (length (list_ sample_bank)) <= -1 ->
   delete sample_bank (-1) = sample_bank)
  /\ delete sample_bank (-1) = sample_bank
  /\ delete sample_bank 3 = sample_bank
  /\ list_ (delete sample_bank 1)
     = [ sample_item "chat" "first" [1; 0]%float false;
         sample_item "chat" "third" [1; 0]%float false ].
Proof.
  split; [apply (delete_by_index sample_bank (-1))|].
  split; [apply (delete_by_index sample_bank (-1)); left; lia|].
  split; [apply (delete_by_index sample_bank 3); right; simpl; lia|].
  reflexivity.
Defined.

(** ** The derivation of the persona *)

(** [geti] has no exceptional outcome: whatever the answer is, it is an
    integer, and 3 when the answer is missing or [int] raises on it. *)
Lemma geti_default (answers : gmap string Py.value) (key : string) :
  (answers !! key = None -> geti answers key 3 = 3)
  /\ (forall v e, answers !! key = Some v -> Py.int v = Raise e ->
      geti answers key 3 = 3)
  /\ (forall v n, answers !! key = Some v -> Py.int v = Ok n ->
      geti answers key 3 = n).
Proof.
  unfold geti, Py.get. repeat split.
  - intros ->. reflexivity.
  - intros v e -> ->. reflexivity.
  - intros v n -> ->. reflexivity.
Qed.

(** The derivation raises exactly when the type code does, and otherwise
    returns the six fields. *)
Lemma derive_persona_fields_outcome (answers : gmap string Py.value) :
  match _derive_mbti answers with
  | Ok code =>
      exists d, _derive_persona_fields answers = Ok d
                /\ dom d = list_to_set ["tone"; "values"; "humor"; "decision_style";
                                        "persona_summary"; "mbti"]
                /\ d !! "mbti" = Some code
                /\ d !! "tone" = Some (tone_style_of answers)
                /\ d !! "values" = Some (Py.join ", " (top_vals answers))
                /\ d !! "humor" = Some (humor_phrase_of answers)
                /\ d !! "decision_style" = Some (decision_style_of answers)
                /\ d !! "persona_summary" = Some (persona_summary_of answers)
  | Raise e => _derive_persona_fields answers = Raise e
  end.
Proof.
  unfold _derive_persona_fields.
  destruct (_derive_mbti answers) as [code|e]; simpl; [|reflexivity].
  eexists. split; [reflexivity|].
  split; [rewrite !dom_insert_L, dom_empty_L; set_solver|].
  repeat split; now simplify_map_eq.
Qed.

(** When [int] accepts the four answers of the type code (3 standing for a
    missing one), the type code does not raise, and the derivation returns
    its six fields. *)
Lemma derive_mbti_ok (answers : gmap string Py.value) :
  (forall key, In key ["mbti_ei"; "mbti_sn"; "mbti_tf"; "mbti_jp"] ->
     is_ok (Py.int (Py.get answers key (Py.VInt 3))) = true) ->
  is_ok (_derive_mbti answers) = true.
Proof.
  intros H. unfold _derive_mbti.
  pose proof (H "mbti_ei" ltac:(simpl; tauto)) as H1.
  pose proof (H "mbti_sn" ltac:(simpl; tauto)) as H2.
  pose proof (H "mbti_tf" ltac:(simpl; tauto)) as H3.
  pose proof (H "mbti_jp" ltac:(simpl; tauto)) as H4.
  destruct (Py.int (Py.get answers "mbti_ei" (Py.VInt 3))); [|discriminate].
  destruct (Py.int (Py.get answers "mbti_sn" (Py.VInt 3))); [|discriminate].
  destruct (Py.int (Py.get answers "mbti_tf" (Py.VInt 3))); [|discriminate].
  destruct (Py.int (Py.get answers "mbti_jp" (Py.VInt 3))); [|discriminate].
  reflexivity.
Qed.

Lemma derive_persona_fields_complete (answers : gmap string Py.value) :
  (forall key, In key ["mbti_ei"; "mbti_sn"; "mbti_tf"; "mbti_jp"] ->
     is_ok (Py.int (Py.get answers key (Py.VInt 3))) = true) ->
  exists d, _derive_persona_fields answers = Ok d
            /\ dom d = list_to_set ["tone"; "values"; "humor"; "decision_style";
                                    "persona_summary"; "mbti"].
Proof.
  intros H. apply derive_mbti_ok in H.
  pose proof (derive_persona_fields_outcome answers) as Hd.
  destruct (_derive_mbti answers) as [code|e]; [|discriminate].
  destruct Hd as (d & Ed & Hdom & _). eauto.
Qed.

(** C2: where the code leaves the claim.  A type-axis answer that is no
    number makes the derivation raise: [_derive_mbti] calls [int] on it
    outside any [try], while [geti], on the same answer, gives 3. *)
Theorem derive_raises_on_non_numeric_type_axis :
  _derive_persona_fields {["mbti_ei" := Py.VStr "abc"]} = Raise ValueError
  /\ _derive_persona_fields {["mbti_jp" := Py.VNone]} = Raise TypeError
  /\ geti {["mbti_ei" := Py.VStr "abc"]} "mbti_ei" 3 = 3.
Proof. repeat split; vm_compute; reflexivity. Qed.

Lemma string_append_assoc (s1 s2 s3 : string) :
  (s1 +:+ s2) +:+ s3 = s1 +:+ s2 +:+ s3.
Proof.
  induction s1 as [|c s1 IH]; [reflexivity|].
  change (String c ((s1 +:+ s2) +:+ s3) = String c (s1 +:+ s2 +:+ s3)).
  now rewrite IH.
Qed.

Lemma values_map_axes (answers : gmap string Py.value) :
  values_map answers = map (fun axis => (axis, axis_score answers axis)) value_axes.
Proof. reflexivity. Qed.

Lemma top_vals_sorted_axes (answers : gmap string Py.value) :
  top_vals answers
  = take 3 (Py.sort_desc Z.ltb (axis_score answers) value_axes).
Proof.
  unfold top_vals, _top_values. rewrite values_map_axes.
  rewrite (sort_desc_map Z.ltb snd). simpl snd.
  rewrite slice_to_map, map_map. simpl fst. rewrite map_id. reflexivity.
Qed.

Lemma value_axes_declared : StronglySorted declared_before value_axes.
Proof.
  unfold declared_before, value_axes.
  repeat (constructor; [|repeat constructor; simpl; lia]). constructor.
Qed.

(** C6, as the code has it.  Every axis has a score (3 without an answer),
    so the values are always three: the head [a; b; c] of the five axes
    ranked by score downwards, equal scores in the order of declaration.
    The sentence of the summary joins them as "a, b and c", the [values]
    field as "a, b, c".  The fallback of the sentence is for an empty list
    of values only, which the derivation never has. *)
Theorem top_values_ranked (answers : gmap string Py.value) :
  exists a b c rest,
    top_vals answers = [a; b; c]
    /\ Permutation ([a; b; c] ++ rest)%list value_axes
    /\ StronglySorted (outranks answers) ([a; b; c] ++ rest)%list
    /\ _top_values_sentence (top_vals answers)
       = a +:+ ", " +:+ b +:+ " and " +:+ c
    /\ Py.join ", " (top_vals answers) = a +:+ ", " +:+ b +:+ ", " +:+ c
    /\ _top_values_sentence (_top_values [] 3) = "pragmatism"
    /\ (forall v, _top_values_sentence [v] = v).
Proof.
  rewrite top_vals_sorted_axes.
  set (ranking := Py.sort_desc Z.ltb (axis_score answers) value_axes).
  assert (Permutation ranking value_axes) as Hperm by apply sort_desc_perm.
  assert (StronglySorted (outranks answers) ranking) as Hsorted.
  { apply (StronglySorted_weaken
             (ranked Z.ltb (axis_score answers) declared_before)).
    - intros a b [H1 H2]. unfold outranks.
      destruct (Z.ltb_spec (axis_score answers b) (axis_score answers a));
        [now left | right].
      apply Z.ltb_ge in H1. split; [lia | now apply H2].
    - apply (sort_desc_ranked _ _ (fun _ => True)).
      + intros x y H. apply Z.ltb_lt in H. apply Z.ltb_ge. lia.
      + intros x y z _ _ _ H1 H2. apply Z.ltb_ge in H1, H2. apply Z.ltb_ge. lia.
      + apply Forall_forall. auto.
      + apply value_axes_declared. }
  pose proof (Permutation_length Hperm) as Hlen.
  destruct ranking as [|a [|b [|c rest]]]; try discriminate Hlen.
  exists a, b, c, rest. simpl take.
  split; [reflexivity|].
  split; [exact Hperm|].
  split; [exact Hsorted|].
  split; [simpl; now rewrite string_append_assoc|].
  repeat split.
Qed.

(** With no answers at all the values are the first three axes, not the
    fallback. *)
Lemma top_values_of_no_answers :
  top_vals ∅ = ["honesty"; "efficiency"; "loyalty"]
  /\ _top_values_sentence (top_vals ∅) = "honesty, efficiency and loyalty"
  /\ _top_values_sentence (top_vals ∅) <> "pragmatism".
Proof. repeat split; try (vm_compute; reflexivity). vm_compute. discriminate. Qed.

(** ** The engine, one step at a time *)

Lemma state_parts (s : state) :
  s = mk (persona (self s)) (_memories (memories (self s))) (gemini (self s)) (calls s).
Proof. destruct s as [[p [ms] g] n]. reflexivity. Qed.

Lemma bind_ok {A B : Type} (m : M A) (k : A -> M B) (s s' : state) (a : A) :
  m s = (Ok a, s') -> bind m k s = k a s'.
Proof. intros E. unfold bind. now rewrite E. Qed.

Lemma bind_raise {A B : Type} (m : M A) (k : A -> M B) (s s' : state) (e : exn) :
  m s = (Raise e, s') -> bind m k s = (Raise e, s').
Proof. intros E. unfold bind. now rewrite E. Qed.

Section Steps.
Variable w : world.
Variables (p : Persona) (ms : list MemoryItem) (g : gemini_client.GeminiClient).

(** [embed] of one text gives one vector, whatever the SDK does. *)
Lemma embed_one (n : nat) (t : string) :
  exists v n', gemini_client.embed w g n [t] = ([v], n').
Proof.
  unfold gemini_client.embed, gemini_client.embed_loop, gemini_client.stub_vectors.
  destruct (gemini_client._have_sdk g && gemini_client._configured g);
    [|simpl; eauto].
  destruct (embed_content w n (gemini_client.embed_model g) t) as [v|];
    [|simpl; eauto].
  simpl. destruct (Nat.eqb (length v) 0); simpl; eauto.
Qed.

Lemma embed_first_run (n : nat) (t : string) :
  exists v n', embed_first w t (mk p ms g n) = (Ok v, mk p ms g n').
Proof.
  unfold embed_first, mk. cbn [self calls gemini].
  destruct (embed_one n t) as (v & n' & E). rewrite E. eauto.
Qed.

Lemma embed_first_offline (n : nat) (t : string) :
  gemini_client._have_sdk g && gemini_client._configured g = false ->
  embed_first w t (mk p ms g n) = (Ok (stub_vector w t), mk p ms g n).
Proof.
  intros H. unfold embed_first, mk, gemini_client.embed.
  cbn [self calls gemini]. now rewrite H.
Qed.

Lemma gemini_chat_run (n : nat) (system_prompt user_message : string) :
  exists reply n',
    gemini_chat w system_prompt user_message (mk p ms g n) = (Ok reply, mk p ms g n').
Proof.
  unfold gemini_chat, mk. cbn [self calls gemini].
  destruct (gemini_client.chat w g n system_prompt user_message) as [reply n'].
  eauto.
Qed.

Lemma gemini_chat_offline (n : nat) (system_prompt user_message : string) :
  gemini_client._have_sdk g && gemini_client._configured g = false ->
  gemini_chat w system_prompt user_message (mk p ms g n)
  = (Ok (gemini_client.stub_reply user_message), mk p ms g n).
Proof.
  intros H. unfold gemini_chat, mk, gemini_client.chat.
  cbn [self calls gemini]. now rewrite H.
Qed.

Lemma new_item_run (n : nat) (kind txt : string) (e : list float)
    (tags : gmap string string) :
  existsb (String.eqb kind) VALID_MEMORY_TYPES = true ->
  new_item w kind txt e tags (mk p ms g n)
  = (Ok (record kind txt e (utcnow w n) tags), mk p ms g (S n)).
Proof.
  intros H. unfold new_item, mk, MemoryItem_init.
  cbn [self calls]. now rewrite H.
Qed.

Lemma memories_add_run (n : nat) (item : MemoryItem) :
  memories_add item (mk p ms g n) = (Ok tt, mk p (ms ++ [item]) g n).
Proof. reflexivity. Qed.

Lemma set_persona_run (n : nat) (f : Persona -> Persona) :
  set_persona f (mk p ms g n) = (Ok tt, mk (f p) ms g n).
Proof. reflexivity. Qed.

Lemma read_run {A : Type} (n : nat) (f : DigitalAITwin -> A) :
  read f (mk p ms g n) = (Ok (f (self (mk p ms g n))), mk p ms g n).
Proof. reflexivity. Qed.

(** Embedding a text, making the record and adding it. *)
Lemma store_record_run (n : nat) (kind embedded txt : string)
    (tags : gmap string string) :
  existsb (String.eqb kind) VALID_MEMORY_TYPES = true ->
  exists e now n',
    bind (embed_first w embedded)
      (fun emb => bind (new_item w kind txt emb tags) (fun item => memories_add item))
      (mk p ms g n)
    = (Ok tt, mk p (ms ++ [record kind txt e now tags]) g n').
Proof.
  intros H. destruct (embed_first_run n embedded) as (e & n1 & E).
  exists e, (utcnow w n1), (S n1).
  rewrite (bind_ok _ _ _ _ _ E).
  rewrite (bind_ok _ _ _ _ _ (new_item_run n1 kind txt e tags H)).
  apply memories_add_run.
Qed.

End Steps.

Lemma str_take_prefix (n : nat) (s : string) :
  String.prefix (Py.str_take n s) s = true
  /\ (String.length (Py.str_take n s) <= n)%nat.
Proof.
  revert s. induction n as [|n IH]; intros [|c s]; simpl; try (split; [reflexivity|lia]).
  destruct (IH s) as [H1 H2]. rewrite H1.
  destruct (ascii_dec c c); [split; [reflexivity|lia] | congruence].
Qed.

(** ** [chat] *)

(** C4.  With no SDK in use and an empty store, [chat] returns the stub
    reply, the fixed template around the first 160 characters of the
    message, and raises nothing; afterwards the store holds exactly two
    records: the message as a chat record of role user, then the reply as a
    chat record of role assistant. *)
Theorem chat_offline_on_empty_store (w : world) (p : Persona)
    (g : gemini_client.GeminiClient) (n : nat) (message : string) (k : Z) :
  gemini_client._have_sdk g && gemini_client._configured g = false ->
  let reply :=
    "[Stubbed Gemini Reply] Based on your persona and memories, "
    +:+ "here's a likely response: " +:+ Py.str_take 160 message +:+ " ..." in
  chat w message k (mk p [] g n)
  = (Ok reply,
     mk p [ record "chat" message (stub_vector w message) (utcnow w n)
              {["role" := "user"]};
            record "chat" reply (stub_vector w reply) (utcnow w (S n))
              {["role" := "assistant"]} ]
        g (S (S n)))
  /\ String.prefix (Py.str_take 160 message) message = true
  /\ (String.length (Py.str_take 160 message) <= 160)%nat.
Proof.
  intros Hoff reply. split; [|apply str_take_prefix].
  unfold chat.
  rewrite (bind_ok _ _ _ _ _ (embed_first_offline w p [] g n message Hoff)).
  rewrite (bind_ok _ _ _ _ _
             (new_item_run w p [] g n "chat" message _ _ eq_refl)).
  rewrite (bind_ok _ _ _ _ _ (memories_add_run _ _ _ _ _)).
  rewrite (bind_ok _ _ _ _ _ (read_run _ _ _ _ memories)).
  set (item := record "chat" message (stub_vector w message) (utcnow w n)
                 {["role" := "user"]}).
  assert (exists found,
            search (memories (self (mk p ([] ++ [item]) g (S n))))
              (stub_vector w message) k None = Ok found) as [found Hfound].
  { eexists. apply search_ok. repeat constructor.
    now apply cosine_similarity_same_length. }
  unfold lift at 1. erewrite bind_ok; [|now rewrite Hfound].
  rewrite (bind_ok _ _ _ _ _ (read_run _ _ _ _ id)).
  rewrite (bind_ok _ _ _ _ _ (gemini_chat_offline w p _ g (S n) _ message Hoff)).
  fold reply. change (gemini_client.stub_reply message) with reply.
  rewrite (bind_ok _ _ _ _ _ (embed_first_offline w p _ g (S n) reply Hoff)).
  rewrite (bind_ok _ _ _ _ _
             (new_item_run w p _ g (S n) "chat" reply _ _ eq_refl)).
  rewrite (bind_ok _ _ _ _ _ (memories_add_run _ _ _ _ _)).
  reflexivity.
Qed.

Lemma chat_offline_on_empty_store_witness :
  gemini_client._have_sdk (gemini_client.init offline_world None)
  && gemini_client._configured (gemini_client.init offline_world None) = false
  /\ (let reply :=
        "[Stubbed Gemini Reply] Based on your persona and memories, "
        +:+ "here's a likely response: "
        +:+ Py.str_take 160 "What's your take on deadlines?" +:+ " ..." in
      chat offline_world "What's your take on deadlines?" 5
        (mk (Persona_init "You") [] (gemini_client.init offline_world None) 0)
      = (Ok reply,
         mk (Persona_init "You")
            [ record "chat" "What's your take on deadlines?"
                (stub_vector offline_world "What's your take on deadlines?")
                (utcnow offline_world 0) {["role" := "user"]};
              record "chat" reply (stub_vector offline_world reply)
                (utcnow offline_world 1) {["role" := "assistant"]} ]
            (gemini_client.init offline_world None) 2)
      /\ String.prefix (Py.str_take 160 "What's your take on deadlines?")
           "What's your take on deadlines?" = true
      /\ (String.length (Py.str_take 160 "What's your take on deadlines?")
          <= 160)%nat).
Proof.
  split; [reflexivity|].
  apply (chat_offline_on_empty_store offline_world (Persona_init "You")
           (gemini_client.init offline_world None) 0
           "What's your take on deadlines?" 5).
  reflexivity.
Defined.

(** ** [simulate_decision] and the store *)

(** C10.  [simulate_decision] never stores the situation.  With
    [store=False] the store is left as it was, whether a reply comes back or
    an exception; so it is when an exception is raised with [store=True];
    and a reply with [store=True] appends exactly one record, a decision
    record that holds the reply and is not permanent.  The persona and the
    client are never touched. *)
Theorem simulate_decision_store_effect (w : world) (s : state)
    (situation : string) (k : Z) (store : bool) :
  exists r s',
    simulate_decision w situation k store s = (r, s')
    /\ persona (self s') = persona (self s)
    /\ gemini (self s') = gemini (self s)
    /\ match r, store with
       | Ok reply, true =>
           exists e now,
             list_ (memories (self s'))
             = (list_ (memories (self s)) ++ [record "decision" reply e now ∅])%list
       | _, _ => memories (self s') = memories (self s)
       end.
Proof.
  rewrite (state_parts s).
  generalize (persona (self s)) (_memories (memories (self s)))
             (gemini (self s)) (calls s).
  clear s. intros p ms g n. unfold simulate_decision.
  destruct (embed_first_run w p ms g n situation) as (q & n1 & Eq).
  rewrite (bind_ok _ _ _ _ _ Eq).
  rewrite (bind_ok _ _ _ _ _ (read_run _ _ _ _ id)).
  destruct (decision_prompt (id (self (mk p ms g n1))) q k) as [prompt|e] eqn:Ep.
  2:{ exists (Raise e), (mk p ms g n1). repeat split. }
  rewrite (bind_ok _ _ _ _ _ (eq_refl : lift (Ok prompt) _ = _)).
  destruct (gemini_chat_run w p ms g n1 prompt situation) as (reply & n2 & Er).
  rewrite (bind_ok _ _ _ _ _ Er).
  destruct store.
  - destruct (store_record_run w p ms g n2 "decision" reply reply ∅ eq_refl)
      as (e & now & n3 & Es).
    exists (Ok reply), (mk p (ms ++ [record "decision" reply e now ∅]) g n3).
    split; [now rewrite (bind_ok _ _ _ _ _ Es)|].
    repeat split. exists e, now. reflexivity.
  - exists (Ok reply), (mk p ms g n2). repeat split.
Qed.

(** On the sample store, offline: nothing is added without [store], one
    decision record with it. *)
Lemma simulate_decision_sample :
  list_ (memories (self (snd (simulate_decision offline_world "Ship today?" 5 false
                               (mk (Persona_init "You") (list_ sample_bank)
                                   (gemini_client.init offline_world None) 0)))))
  = list_ sample_bank
  /\ map type
       (list_ (memories (self (snd (simulate_decision offline_world "Ship today?" 5 true
                                      (mk (Persona_init "You") (list_ sample_bank)
                                          (gemini_client.init offline_world None) 0))))))
     = ["chat"; "decision"; "chat"; "decision"].
Proof. split; vm_compute; reflexivity. Qed.

(** ** [process_survey] *)

Lemma lift_ok {A : Type} (r : result A) (a : A) (s : state) :
  r = Ok a -> lift r s = (Ok a, s).
Proof. intros ->. reflexivity. Qed.

Lemma getitem_ok (d : gmap string string) (key v : string) :
  d !! key = Some v -> getitem d key = Ok v.
Proof. intros H. unfold getitem. now rewrite H. Qed.

Section Survey.
Variable w : world.
Variable g : gemini_client.GeminiClient.

(** A record stored on a condition. *)
Lemma store_optional_run (p : Persona) (ms : list MemoryItem) (n : nat)
    (cond : bool) (kind embedded txt : string) :
  existsb (String.eqb kind) VALID_MEMORY_TYPES = true ->
  exists items n',
    (if cond
     then bind (embed_first w embedded)
            (fun emb => bind (new_item w kind txt emb ∅)
                          (fun item => memories_add item))
     else ret tt) (mk p ms g n)
    = (Ok tt, mk p (ms ++ items) g n')
    /\ Forall2 plain_record (if cond then [(kind, txt)] else []) items.
Proof.
  intros Hkind. destruct cond.
  - destruct (store_record_run w p ms g n kind embedded txt ∅ Hkind)
      as (e & now & n' & E).
    exists [record kind txt e now ∅], n'. split; [exact E|].
    repeat constructor.
  - exists [], n. rewrite app_nil_r. split; [reflexivity | constructor].
Qed.

Lemma store_examples_run (p : Persona) (ms : list MemoryItem) (n : nat)
    (answers : gmap string Py.value) (keys : list string) :
  exists items n',
    store_examples w answers keys (mk p ms g n) = (Ok tt, mk p (ms ++ items) g n')
    /\ Forall2 plain_record (example_records answers keys) items.
Proof.
  revert ms n. induction keys as [|key keys IH]; intros ms n.
  - exists [], n. rewrite app_nil_r. split; [reflexivity | constructor].
  - destruct (store_optional_run p ms n (Py.truthy (answer_text answers key))
                "decision" (answer_text answers key) (answer_text answers key)
                eq_refl)
      as (items1 & n1 & E1 & F1).
    destruct (IH (ms ++ items1)%list n1) as (items2 & n2 & E2 & F2).
    exists (items1 ++ items2)%list, n2. split.
    + cbn [store_examples]. unfold store_example.
      change (Py.strip (Py.str (Py.get answers key (Py.VStr ""))))
        with (answer_text answers key).
      cbv zeta. rewrite (bind_ok _ _ _ _ _ E1). rewrite E2.
      now rewrite <- app_assoc.
    + unfold example_records. cbn [flat_map].
      apply Forall2_app; [exact F1 | exact F2].
Qed.

(** [process_survey] when the type code is derived: the persona is replaced
    by the derived one, and the store gains the records of the survey, in
    order. *)
Lemma process_survey_run (p : Persona) (ms : list MemoryItem) (n : nat)
    (answers : gmap string Py.value) (code : string) :
  _derive_mbti answers = Ok code ->
  exists items n',
    process_survey w answers (mk p ms g n)
    = (Ok tt, mk (derived_persona p answers code) (ms ++ items) g n')
    /\ Forall2 plain_record
         (survey_records answers (text_summary_of (derived_persona p answers code)))
         items.
Proof.
  intros Hcode.
  pose proof (derive_persona_fields_outcome answers) as Hd. rewrite Hcode in Hd.
  destruct Hd as (d & Ed & _ & Hm & Ht & Hv & Hh & Hds & Hps).
  unfold process_survey.
  rewrite (bind_ok _ _ _ _ _ (set_persona_run _ _ _ _ _)).
  rewrite (bind_ok _ _ _ _ _ (lift_ok _ _ _ Ed)).
  rewrite (bind_ok _ _ _ _ _ (lift_ok _ _ _ (getitem_ok _ _ _ Hps))).
  rewrite (bind_ok _ _ _ _ _ (set_persona_run _ _ _ _ _)).
  rewrite (bind_ok _ _ _ _ _ (lift_ok _ _ _ (getitem_ok _ _ _ Ht))).
  rewrite (bind_ok _ _ _ _ _ (set_persona_run _ _ _ _ _)).
  rewrite (bind_ok _ _ _ _ _ (lift_ok _ _ _ (getitem_ok _ _ _ Hv))).
  rewrite (bind_ok _ _ _ _ _ (set_persona_run _ _ _ _ _)).
  rewrite (bind_ok _ _ _ _ _ (lift_ok _ _ _ (getitem_ok _ _ _ Hh))).
  rewrite (bind_ok _ _ _ _ _ (set_persona_run _ _ _ _ _)).
  rewrite (bind_ok _ _ _ _ _ (lift_ok _ _ _ (getitem_ok _ _ _ Hds))).
  rewrite (bind_ok _ _ _ _ _ (set_persona_run _ _ _ _ _)).
  rewrite Hm. cbn [default].
  rewrite (bind_ok _ _ _ _ _ (set_persona_run _ _ _ _ _)).
  change (with_mbti code _) with (derived_persona p answers code).
  change (Py.strip (Py.str (Py.get answers "catchphrase" (Py.VStr ""))))
    with (answer_text answers "catchphrase").
  cbv zeta.
  destruct (store_optional_run (derived_persona p answers code) ms n
              (Py.truthy (answer_text answers "catchphrase")) "survey"
              (answer_text answers "catchphrase")
              ("Catchphrase: " +:+ answer_text answers "catchphrase") eq_refl)
    as (items1 & n1 & E1 & F1).
  rewrite (bind_ok _ _ _ _ _ E1).
  destruct (store_examples_run (derived_persona p answers code) (ms ++ items1)%list
              n1 answers
              ["example_decision1"; "example_decision2"; "example_decision3"])
    as (items2 & n2 & E2 & F2).
  rewrite (bind_ok _ _ _ _ _ E2).
  rewrite (bind_ok _ _ _ _ _ (read_run _ _ _ _ persona)).
  cbn [self persona mk].
  destruct (store_record_run w (derived_persona p answers code)
              ((ms ++ items1) ++ items2)%list g n2 "survey"
              (text_summary_of (derived_persona p answers code))
              (text_summary_of (derived_persona p answers code)) ∅ eq_refl)
    as (e & now & n3 & E3).
  rewrite E3.
  exists (items1 ++ items2 ++ [record "survey"
            (text_summary_of (derived_persona p answers code)) e now ∅])%list, n3.
  split; [now rewrite <- !app_assoc|].
  unfold survey_records.
  apply Forall2_app; [exact F1|].
  apply Forall2_app; [exact F2|].
  repeat constructor.
Qed.

(** When the type code raises, so does [process_survey]: nothing is stored,
    and of the persona only the raw answers were replaced. *)
Lemma process_survey_raises (p : Persona) (ms : list MemoryItem) (n : nat)
    (answers : gmap string Py.value) (e : exn) :
  _derive_mbti answers = Raise e ->
  process_survey w answers (mk p ms g n)
  = (Raise e, mk (with_survey_json answers p) ms g n).
Proof.
  intros Hcode.
  pose proof (derive_persona_fields_outcome answers) as Hd. rewrite Hcode in Hd.
  unfold process_survey.
  rewrite (bind_ok _ _ _ _ _ (set_persona_run _ _ _ _ _)).
  apply bind_raise. unfold lift. now rewrite Hd.
Qed.

End Survey.

Lemma survey_records_example (summary : string) :
  survey_records survey_example summary
  = [("survey", "Catchphrase: Ship it."); ("survey", summary)].
Proof. vm_compute. reflexivity. Qed.

(** C7.  On the answers of the example, whatever the engine held and
    whatever the SDK does, [process_survey] returns; the tone is
    "direct, casual"; the values lead with honesty; the type code is EXXX,
    with E first and the placeholder X third; and the store holds a survey
    record with the text "Catchphrase: Ship it.". *)
Theorem process_survey_example (w : world) (s : state) :
  exists s',
    process_survey w survey_example s = (Ok tt, s')
    /\ tone_style (persona (self s')) = "direct, casual"
    /\ Py.contains "direct" (tone_style (persona (self s'))) = true
    /\ Py.contains "casual" (tone_style (persona (self s'))) = true
    /\ top_vals survey_example = ["honesty"; "creativity"; "efficiency"]
    /\ values (persona (self s')) = "honesty, creativity, efficiency"
    /\ mbti (persona (self s')) = "EXXX"
    /\ String.get 0 (mbti (persona (self s'))) = Some "E"%char
    /\ String.get 2 (mbti (persona (self s'))) = Some "X"%char
    /\ exists e now,
         In (record "survey" "Catchphrase: Ship it." e now ∅)
            (list_ (memories (self s'))).
Proof.
  rewrite (state_parts s).
  generalize (persona (self s)) (_memories (memories (self s)))
             (gemini (self s)) (calls s).
  clear s. intros p ms g n.
  assert (_derive_mbti survey_example = Ok "EXXX") as Hcode
    by (vm_compute; reflexivity).
  destruct (process_survey_run w g p ms n survey_example "EXXX" Hcode)
    as (items & n' & E & F).
  rewrite survey_records_example in F.
  exists (mk (derived_persona p survey_example "EXXX") (ms ++ items) g n').
  split; [exact E|].
  cbn [mk self persona memories list_ _memories derived_persona
       tone_style values mbti].
  repeat (split; [vm_compute; reflexivity|]).
  inversion F as [|kt item kts items' Hitem F']; subst.
  destruct item as [ty tx e now tags perm].
  destruct Hitem as (Hty & Htx & Htags & Hperm). simpl in Hty, Htx, Htags, Hperm.
  subst. exists e, now. apply in_or_app. right. left. reflexivity.
Qed.

(** ** The prompt of [simulate_decision] *)

Lemma decision_system_prompt_spec (p : Persona)
    (decisions survey prefs : list MemoryItem) (catchphrases : list string) :
  decision_system_prompt p decisions survey prefs catchphrases
  = spec_decision_prompt p decisions survey prefs catchphrases.
Proof.
  unfold decision_system_prompt, spec_decision_prompt, assemble.
  change (Py.slice_to (map bullet decisions) 5) with (take 5 (map bullet decisions)).
  change (Py.slice_to (map bullet survey) 3) with (take 3 (map bullet survey)).
  change (Py.slice_to prefs 5) with (take 5 prefs).
  rewrite !firstn_map.
  destruct decisions, survey, prefs; reflexivity.
Qed.

Lemma search_no_candidates (bank : MemoryBank) (q : list float) (k : Z) (t : string) :
  t <> "" -> Forall (fun m => type m <> t) (list_ bank) ->
  search bank q k (Some t) = Ok [].
Proof.
  intros Ht H. rewrite search_ok; rewrite (candidates_none _ _ H Ht).
  - unfold Py.slice_to. simpl. now destruct (0 <=? k); rewrite ?take_nil.
  - constructor.
Qed.

(** With embeddings of the length of the query the prompt is assembled. *)
Lemma decision_prompt_returns (me : DigitalAITwin) (q : list float) (k : Z) :
  Forall (fun m => length (embedding m) = length q) (list_ (memories me)) ->
  is_ok (decision_prompt me q k) = true.
Proof.
  intros H. unfold decision_prompt.
  pose proof (search_aligned_ok (memories me) q k (Some "decision") H) as H1.
  pose proof (search_aligned_ok (memories me) q 2 (Some "survey") H) as H2.
  pose proof (search_aligned_ok (memories me) q (Z.max 5 k) (Some "chat") H) as H3.
  destruct (search (memories me) q k (Some "decision")); [|discriminate].
  destruct (search (memories me) q 2 (Some "survey")); [|discriminate].
  destruct (search (memories me) q (Z.max 5 k) (Some "chat")); [|discriminate].
  reflexivity.
Qed.

(** C5.  The prompt that [simulate_decision] assembles is the preamble, the
    fragments that have lines, in the order decisions, survey, preferences,
    and the style rules: a block whose retrieved set is empty contributes
    nothing, header included.  With no decision record in the store the
    retrieved decisions are empty, and the prompt is made of the other two
    fragments only. *)
Theorem decision_prompt_omits_empty_blocks (me : DigitalAITwin) (q : list float)
    (k : Z) (prompt : string) :
  decision_prompt me q k = Ok prompt ->
  exists decisions survey chats,
    search (memories me) q k (Some "decision") = Ok decisions
    /\ search (memories me) q 2 (Some "survey") = Ok survey
    /\ search (memories me) q (Z.max 5 k) (Some "chat") = Ok chats
    /\ prompt = spec_decision_prompt (persona me) decisions survey
                  (user_statements chats) (_catchphrases me)
    /\ (decisions = [] ->
        prompt = assemble (decision_preamble (persona me))
                   [ fragment "Survey Context:" (map bullet (take 3 survey));
                     fragment "Past Preferences from Chats (user statements):"
                       (map bullet (take 5 (user_statements chats))) ]
                   ("Output style rules:" +:+ String "010" ""
                    +:+ decision_style_rules (persona me) (_catchphrases me)))
    /\ (survey = [] ->
        prompt = assemble (decision_preamble (persona me))
                   [ fragment "Relevant Past Decisions:" (map bullet (take 5 decisions));
                     fragment "Past Preferences from Chats (user statements):"
                       (map bullet (take 5 (user_statements chats))) ]
                   ("Output style rules:" +:+ String "010" ""
                    +:+ decision_style_rules (persona me) (_catchphrases me)))
    /\ (user_statements chats = [] ->
        prompt = assemble (decision_preamble (persona me))
                   [ fragment "Relevant Past Decisions:" (map bullet (take 5 decisions));
                     fragment "Survey Context:" (map bullet (take 3 survey)) ]
                   ("Output style rules:" +:+ String "010" ""
                    +:+ decision_style_rules (persona me) (_catchphrases me)))
    /\ (Forall (fun m => type m <> "decision") (list_ (memories me)) ->
        decisions = []).
Proof.
  unfold decision_prompt. intros H.
  destruct (search (memories me) q k (Some "decision")) as [decisions|] eqn:Ed;
    [|discriminate].
  destruct (search (memories me) q 2 (Some "survey")) as [survey|] eqn:Es;
    [|discriminate].
  destruct (search (memories me) q (Z.max 5 k) (Some "chat")) as [chats|] eqn:Ec;
    [|discriminate].
  simpl in H. injection H as <-.
  exists decisions, survey, chats.
  rewrite decision_system_prompt_spec.
  repeat (split; [reflexivity|]).
  split; [intros ->; reflexivity|].
  split; [intros ->; reflexivity|].
  split; [intros ->; reflexivity|].
  intros Hnone.
  rewrite (search_no_candidates _ q k "decision") in Ed; [congruence | discriminate | exact Hnone].
Qed.

Lemma decision_prompt_omits_empty_blocks_witness :
  decision_prompt sample_twin [1; 0]%float 5 = Ok sample_decision_prompt
  /\ Py.contains "Relevant Past Decisions" sample_decision_prompt = false
  /\ Py.contains "Survey Context" sample_decision_prompt = false
  /\ Py.contains "Past Preferences from Chats (user statements):" sample_decision_prompt
     = true
  /\ exists decisions survey chats,
       search (memories sample_twin) [1; 0]%float 5 (Some "decision") = Ok decisions
       /\ search (memories sample_twin) [1; 0]%float 2 (Some "survey") = Ok survey
       /\ search (memories sample_twin) [1; 0]%float (Z.max 5 5) (Some "chat") = Ok chats
       /\ sample_decision_prompt
          = spec_decision_prompt (persona sample_twin) decisions survey
              (user_statements chats) (_catchphrases sample_twin)
       /\ (decisions = [] ->
           sample_decision_prompt
           = assemble (decision_preamble (persona sample_twin))
               [ fragment "Survey Context:" (map bullet (take 3 survey));
                 fragment "Past Preferences from Chats (user statements):"
                   (map bullet (take 5 (user_statements chats))) ]
               ("Output style rules:" +:+ String "010" ""
                +:+ decision_style_rules (persona sample_twin)
                      (_catchphrases sample_twin)))
       /\ (survey = [] ->
           sample_decision_prompt
           = assemble (decision_preamble (persona sample_twin))
               [ fragment "Relevant Past Decisions:" (map bullet (take 5 decisions));
                 fragment "Past Preferences from Chats (user statements):"
                   (map bullet (take 5 (user_statements chats))) ]
               ("Output style rules:" +:+ String "010" ""
                +:+ decision_style_rules (persona sample_twin)
                      (_catchphrases sample_twin)))
       /\ (user_statements chats = [] ->
           sample_decision_prompt
           = assemble (decision_preamble (persona sample_twin))
               [ fragment "Relevant Past Decisions:" (map bullet (take 5 decisions));
                 fragment "Survey Context:" (map bullet (take 3 survey)) ]
               ("Output style rules:" +:+ String "010" ""
                +:+ decision_style_rules (persona sample_twin)
                      (_catchphrases sample_twin)))
       /\ (Forall (fun m => type m <> "decision") (list_ (memories sample_twin)) ->
           decisions = []).
Proof.
  split; [vm_compute; reflexivity|].
  split; [vm_compute; reflexivity|].
  split; [vm_compute; reflexivity|].
  split; [vm_compute; reflexivity|].
  apply (decision_prompt_omits_empty_blocks sample_twin [1; 0]%float 5
           sample_decision_prompt).
  vm_compute. reflexivity.
Defined.

(** * Further properties of the code *)

(** ** The memory bank *)

(** X1.  Asking [search] for fewer records gives the first ones of what it
    gives for more: the ranking does not depend on [top_k]. *)
Theorem search_smaller_k_is_prefix (bank : MemoryBank) (q : list float)
    (k k' : Z) (f : option string) (res' : list MemoryItem) :
  0 <= k <= k' ->
  search bank q k' f = Ok res' ->
  search bank q k f = Ok (take (Z.to_nat k) res').
Proof.
  intros Hk. unfold search.
  destruct (score_loop q f (_memories bank) []) as [scored|e]; [|discriminate].
  simpl. intros [= <-]. f_equal.
  unfold Py.slice_to.
  destruct (Z.leb_spec 0 k); [|lia]. destruct (Z.leb_spec 0 k'); [|lia].
  rewrite <- firstn_map. rewrite <- (firstn_map _ (Z.to_nat k')).
  rewrite take_take. f_equal. lia.
Qed.

Lemma search_smaller_k_is_prefix_witness :
  search sample_bank [1; 0]%float 1 None
  = Ok (take 1 [ sample_item "chat" "first" [1; 0]%float false;
                 sample_item "chat" "third" [1; 0]%float false;
                 sample_item "decision" "second" [0; 1]%float true ]).
Proof.
  apply (search_smaller_k_is_prefix sample_bank [1; 0]%float 1 3 None);
    [lia | vm_compute; reflexivity].
Defined.

Lemma score_loop_filter_first (q : list float) (t : string) (ms : list MemoryItem)
    (scored : list (float * MemoryItem)) :
  t <> "" ->
  score_loop q (Some t) ms scored
  = score_loop q None (List.filter (fun m => String.eqb (type m) t) ms) scored.
Proof.
  intros Ht. revert scored. induction ms as [|m ms IH]; intros scored; [reflexivity|].
  cbn [score_loop List.filter]. unfold skipped at 1.
  destruct t as [|c t]; [congruence|]. cbn [Py.truthy andb].
  destruct (String.eqb (type m) (String c t)); cbn [negb].
  - cbn [score_loop skipped].
    destruct (_cosine_similarity q (embedding m)); simpl; [apply IH | reflexivity].
  - apply IH.
Qed.

(** X2.  Searching with a kind filter is searching, without filter, the
    store reduced to the records of that kind: records of other kinds are
    not even scored, so they can neither appear nor make [search] raise. *)
Theorem search_filter_is_search_of_kind (bank : MemoryBank) (q : list float)
    (k : Z) (t : string) :
  t <> "" ->
  search bank q k (Some t)
  = search {| _memories := List.filter (fun m => String.eqb (type m) t) (list_ bank) |}
      q k None.
Proof.
  intros Ht. unfold search, list_. cbn [_memories].
  now rewrite (score_loop_filter_first q t _ [] Ht).
Qed.

Lemma search_filter_is_search_of_kind_witness :
  search sample_bank [1; 0; 0]%float 5 (Some "survey") = Ok []
  /\ search sample_bank [1; 0]%float 5 (Some "decision")
     = search {| _memories := [sample_item "decision" "second" [0; 1]%float true] |}
         [1; 0]%float 5 None.
Proof.
  split.
  - rewrite (search_filter_is_search_of_kind sample_bank [1; 0; 0]%float 5 "survey");
      [reflexivity | discriminate].
  - apply (search_filter_is_search_of_kind sample_bank [1; 0]%float 5 "decision").
    discriminate.
Defined.

Lemma search_ok_inv (bank : MemoryBank) (q : list float) (k : Z) (f : option string)
    (res : list MemoryItem) :
  search bank q k f = Ok res ->
  res = Py.slice_to
          (Py.sort_desc PrimFloat.ltb (similarity q) (candidates f (list_ bank))) k.
Proof.
  intros H. pose proof (search_is_ok bank q k f) as Hok. rewrite H in Hok.
  symmetry in Hok. cbn [is_ok] in Hok.
  rewrite forallb_forall in Hok.
  rewrite search_ok in H; [congruence|].
  apply Forall_forall. intros m Hm. apply Hok. now apply list_elem_of_In.
Qed.

(** X3.  The first record [search] returns is a best match: when no
    similarity is NaN, no record that passes the filter is more similar to
    the query. *)
Theorem search_head_is_best (bank : MemoryBank) (q : list float) (k : Z)
    (f : option string) (m : MemoryItem) (rest : list MemoryItem) :
  search bank q k f = Ok (m :: rest) ->
  Forall (fun c => not_nan (similarity q c)) (candidates f (list_ bank)) ->
  Forall (fun c => PrimFloat.ltb (similarity q m) (similarity q c) = false)
         (candidates f (list_ bank)).
Proof.
  intros H Hnan. apply search_ok_inv in H.
  set (cands := candidates f (list_ bank)) in *.
  set (ranking := Py.sort_desc PrimFloat.ltb (similarity q) cands) in *.
  assert (StronglySorted (ranked PrimFloat.ltb (similarity q) (fun _ _ => True))
            ranking) as Hs.
  { apply (sort_desc_ranked _ _ not_nan);
      [apply float_ltb_asym | apply float_ltb_ntrans | exact Hnan |].
    clear. induction cands; constructor; auto. now apply Forall_forall. }
  assert (Permutation ranking cands) as Hperm by apply sort_desc_perm.
  rewrite <- Hperm.
  assert (exists tail, ranking = m :: tail) as [tail E].
  { unfold Py.slice_to in H. destruct ranking as [|x tail].
    - destruct (0 <=? k); rewrite take_nil in H; discriminate.
    - exists tail. destruct (0 <=? k);
        (destruct (Z.to_nat _); [discriminate | simpl in H; congruence]). }
  rewrite E in Hs |- *. inversion Hs as [|? ? _ Hhead]; subst.
  constructor.
  - destruct (PrimFloat.ltb (similarity q m) (similarity q m)) eqn:Hmm; [|reflexivity].
    now rewrite (float_ltb_asym _ _ Hmm) in Hmm.
  - eapply Forall_impl; [exact Hhead|]. intros c [Hc _]. exact Hc.
Qed.

Lemma search_head_is_best_witness :
  Forall (fun c => PrimFloat.ltb
                     (similarity [0; 1]%float
                        (sample_item "decision" "second" [0; 1]%float true))
                     (similarity [0; 1]%float c) = false)
         (candidates None (list_ sample_bank)).
Proof.
  apply (search_head_is_best sample_bank [0; 1]%float 2 None _
           [sample_item "chat" "first" [1; 0]%float false]).
  - vm_compute. reflexivity.
  - repeat constructor.
Defined.

(** X4.  How many records [search] returns: all candidates when there are
    at most [top_k], [top_k] otherwise; and for a negative [top_k] all but
    the last [-top_k]. *)
Theorem search_count (bank : MemoryBank) (q : list float) (k : Z)
    (f : option string) (res : list MemoryItem) :
  search bank q k f = Ok res ->
  Z.of_nat (length res)
  = if 0 <=? k
    then Z.min k (Z.of_nat (length (candidates f (list_ bank))))
    else Z.max 0 (Z.of_nat (length (candidates f (list_ bank))) + k).
Proof.
  intros H. apply search_ok_inv in H. subst res. unfold Py.slice_to.
  pose proof (Permutation_length
                (sort_desc_perm PrimFloat.ltb (similarity q)
                   (candidates f (list_ bank)))) as Hlen.
  destruct (Z.leb_spec 0 k); rewrite length_take, Hlen; lia.
Qed.

Lemma search_count_witness :
  Z.of_nat (length [ sample_item "chat" "first" [1; 0]%float false;
                     sample_item "chat" "third" [1; 0]%float false ])
  = if 0 <=? 5
    then Z.min 5 (Z.of_nat (length (candidates (Some "chat") (list_ sample_bank))))
    else Z.max 0 (Z.of_nat (length (candidates (Some "chat") (list_ sample_bank))) + 5).
Proof.
  apply (search_count sample_bank [1; 0]%float 5 (Some "chat")).
  vm_compute. reflexivity.
Defined.

Lemma pop_last {A : Type} (l : list A) (x : A) : pop (length l) (l ++ [x]) = l.
Proof. induction l as [|y l IH]; simpl; [reflexivity | now rewrite IH]. Qed.

(** X5.  Adding a record and deleting the last position gives the store
    back; the added record is what [list()] then shows at that position. *)
Theorem add_then_delete_last (bank : MemoryBank) (item : MemoryItem) :
  delete (add bank item) (Z.of_nat (length (list_ bank))) = bank
  /\ list_ (add bank item) !! length (list_ bank) = Some item
  /\ length (list_ (add bank item)) = S (length (list_ bank)).
Proof.
  destruct bank as [ms]. unfold delete, add, list_. cbn [_memories].
  rewrite length_app. cbn [length].
  split; [|split].
  - destruct (Z.leb_spec 0 (Z.of_nat (length ms))); [|lia].
    destruct (Z.ltb_spec (Z.of_nat (length ms)) (Z.of_nat (length ms + 1))); [|lia].
    cbn [andb]. rewrite Nat2Z.id. now rewrite pop_last.
  - rewrite lookup_app_r by lia. now rewrite Nat.sub_diag.
  - lia.
Qed.

(** X6.  [clear] composed: clearing twice is clearing once, and clearing
    with [keep_permanent] after an [add] keeps the added record exactly when
    it is permanent. *)
Theorem clear_composes (bank : MemoryBank) (item : MemoryItem) (keep : bool) :
  clear (clear bank keep) keep = clear bank keep
  /\ clear (add bank item) true
     = (if permanent item then add (clear bank true) item else clear bank true)
  /\ clear (add bank item) false = clear bank false.
Proof.
  destruct bank as [ms]. unfold clear, add. cbn [_memories].
  split; [|split; [|reflexivity]].
  - destruct keep; cbn [_memories]; [|reflexivity]. f_equal.
    rewrite !keep_permanent_items_filter.
    induction ms as [|m ms IH]; [reflexivity|]. simpl.
    destruct (permanent m) eqn:E; simpl; [rewrite E|]; now rewrite IH.
  - rewrite !keep_permanent_items_filter, List.filter_app. simpl.
    destruct (permanent item); [reflexivity | now rewrite app_nil_r].
Qed.

(** ** Deleting the selected rows *)

Lemma keep_rows_ext (s1 s2 : list Z) (i : Z) (ms : list MemoryItem) :
  (forall x, x ∈ s1 <-> x ∈ s2) -> keep_rows s1 i ms = keep_rows s2 i ms.
Proof.
  intros H. revert i. induction ms as [|m ms IH]; intros i; [reflexivity|].
  cbn [keep_rows]. rewrite (bool_decide_ext _ _ (H i)). now rewrite !IH.
Qed.

Lemma keep_rows_below (sel : list Z) (i : Z) (ms : list MemoryItem) :
  Forall (fun x => x < i) sel -> keep_rows sel i ms = ms.
Proof.
  revert i. induction ms as [|m ms IH]; intros i H; [reflexivity|].
  cbn [keep_rows]. rewrite bool_decide_false.
  - f_equal. apply IH. eapply Forall_impl; [exact H|]. simpl. lia.
  - intros Hin. rewrite Forall_forall in H. specialize (H _ Hin). lia.
Qed.

Lemma keep_rows_skip (r : Z) (rest : list Z) (i : Z) (ms : list MemoryItem) :
  r < i -> keep_rows (r :: rest) i ms = keep_rows rest i ms.
Proof.
  revert i. induction ms as [|m ms IH]; intros i H; [reflexivity|].
  cbn [keep_rows]. rewrite !IH by lia.
  assert (bool_decide (i ∈ r :: rest) = bool_decide (i ∈ rest)) as ->; [|reflexivity].
  apply bool_decide_ext. rewrite elem_of_cons. split; [intros [?|?]; [lia|done] | auto].
Qed.

Lemma keep_rows_pop (r : Z) (rest : list Z) (i : Z) (ms : list MemoryItem) :
  Forall (fun x => x < r) rest -> i <= r ->
  keep_rows rest i
    (if r - i <? Z.of_nat (length ms) then pop (Z.to_nat (r - i)) ms else ms)
  = keep_rows (r :: rest) i ms.
Proof.
  intros Hrest. revert i. induction ms as [|m ms IH]; intros i Hi.
  - cbn [length keep_rows].
    destruct (r - i <? _); [destruct (Z.to_nat (r - i))|]; reflexivity.
  - destruct (Z.eq_dec r i) as [->|Hne].
    + rewrite Z.sub_diag. cbn [length Z.to_nat pop].
      destruct (Z.ltb_spec 0 (Z.of_nat (S (length ms)))); [|lia].
      cbn [keep_rows]. rewrite bool_decide_true by (apply elem_of_cons; auto).
      rewrite keep_rows_skip by lia.
      rewrite !keep_rows_below; [reflexivity | |exact Hrest].
      eapply Forall_impl; [exact Hrest|]. simpl. lia.
    + specialize (IH (i + 1) ltac:(lia)).
      replace (r - (i + 1) <? Z.of_nat (length ms))
        with (r - i <? Z.of_nat (length (m :: ms))) in IH
        by (cbn [length]; destruct (Z.ltb_spec (r - i) (Z.of_nat (S (length ms))));
            destruct (Z.ltb_spec (r - (i + 1)) (Z.of_nat (length ms))); lia).
      replace (Z.to_nat (r - i)) with (S (Z.to_nat (r - (i + 1)))) by lia.
      cbn [pop].
      assert (bool_decide (i ∈ r :: rest) = bool_decide (i ∈ rest)) as Hd.
      { apply bool_decide_ext. rewrite elem_of_cons.
        split; [intros [?|?]; [lia|done] | auto]. }
      destruct (r - i <? Z.of_nat (length (m :: ms))); cbn [keep_rows];
        rewrite Hd, <- IH; reflexivity.
Qed.

Lemma delete_rows_descending (rows : list Z) (bank : MemoryBank) :
  StronglySorted (fun a b => b < a) rows ->
  list_ (fold_left delete rows bank) = keep_rows rows 0 (list_ bank).
Proof.
  revert bank. induction rows as [|r rest IH]; intros bank Hs.
  - simpl. symmetry. apply keep_rows_below. constructor.
  - inversion Hs as [|? ? Hs' Hr]; subst. cbn [fold_left].
    rewrite (IH _ Hs'). unfold delete, list_.
    destruct (Z.leb_spec 0 r); cbn [andb].
    + rewrite <- (keep_rows_pop r rest 0 (_memories bank) Hr) by lia.
      rewrite Z.sub_0_r. now destruct (r <? _).
    + now rewrite keep_rows_skip by lia.
Qed.

Lemma NoDup_StronglySorted_ne (l : list Z) :
  NoDup l -> StronglySorted (fun a b => a <> b) l.
Proof.
  induction 1 as [|x l Hx Hl IH]; [constructor|].
  constructor; [exact IH|].
  apply Forall_forall. intros y Hy ->. contradiction.
Qed.

(** X7.  Deleting the selected rows of the memory table removes exactly the
    records at the selected positions, whatever the order and repetitions
    of the selection: the rows go from the highest down, so no deletion
    shifts a row that is still to be deleted.  Rows outside the store are
    ignored. *)
Theorem delete_selected_removes_selected (bank : MemoryBank) (selected : list Z) :
  list_ (ui.delete_selected bank selected) = keep_rows selected 0 (list_ bank).
Proof.
  unfold ui.delete_selected.
  set (rows := Py.sort_desc Z.ltb id (elements (list_to_set selected : gset Z))).
  assert (Permutation rows (elements (list_to_set selected : gset Z))) as Hperm
    by apply sort_desc_perm.
  rewrite delete_rows_descending.
  - apply keep_rows_ext. intros x. rewrite Hperm, elem_of_elements.
    apply elem_of_list_to_set.
  - apply (StronglySorted_weaken (ranked Z.ltb id (fun a b => a <> b))).
    { intros a b [H1 H2]. unfold id in *. apply Z.ltb_ge in H1.
      destruct (Z.eq_dec a b) as [->|]; [|lia].
      exfalso. apply H2; [apply Z.ltb_irrefl | reflexivity]. }
    apply (sort_desc_ranked _ _ (fun _ => True)).
    + intros x y H. apply Z.ltb_lt in H. apply Z.ltb_ge. lia.
    + intros x y z _ _ _ H1 H2. apply Z.ltb_ge in H1, H2. apply Z.ltb_ge. lia.
    + apply Forall_forall. auto.
    + apply NoDup_StronglySorted_ne, NoDup_elements.
Qed.

(** On the sample: rows 2 and 0, row 0 selected twice and a stale row 7. *)
Lemma delete_selected_sample :
  list_ (ui.delete_selected sample_bank [0; 2; 0; 7])
  = [sample_item "decision" "second" [0; 1]%float true].
Proof. vm_compute. reflexivity. Qed.

(** ** The client of the generative SDK *)

Lemma embed_loop_length (w : world) (model : string) (n : nat) (texts : list string)
    (vecs : list (list float)) (n' : nat) :
  gemini_client.embed_loop w model n texts = (Some vecs, n') ->
  Forall2 (fun t v => exists i, embed_content w i model t = Some v) texts vecs.
Proof.
  revert n vecs n'. induction texts as [|t texts IH]; intros n vecs n'.
  - simpl. intros [= <- <-]. constructor.
  - cbn [gemini_client.embed_loop].
    destruct (embed_content w n model t) as [v|] eqn:E; [|discriminate].
    destruct (gemini_client.embed_loop w model (S n) texts) as [[rest|] n''] eqn:El;
      simpl; [|discriminate].
    intros [= <- <-]. constructor; [eauto | eapply IH; exact El].
Qed.

(** X8.  [embed] answers with one vector per text, and never mixes sources:
    the vectors are either all the SDK's, one of them not empty, or all the
    offline ones (as when the client is offline, a call raises, or every
    SDK vector is empty). *)
Theorem embed_one_vector_per_text (w : world) (g : gemini_client.GeminiClient)
    (n : nat) (texts : list string) :
  length (fst (gemini_client.embed w g n texts)) = length texts
  /\ (fst (gemini_client.embed w g n texts) = map (stub_vector w) texts
      \/ (online g = true
          /\ Forall2 (fun t v => exists i,
                        embed_content w i (gemini_client.embed_model g) t = Some v)
               texts (fst (gemini_client.embed w g n texts))
          /\ Exists (fun v => v <> []) (fst (gemini_client.embed w g n texts))))
  /\ (online g = false ->
      gemini_client.embed w g n texts = (map (stub_vector w) texts, n)).
Proof.
  unfold gemini_client.embed, online, gemini_client.stub_vectors.
  fold (stub_vector w).
  destruct texts as [|t texts]; [simpl; auto|].
  destruct (gemini_client._have_sdk g && gemini_client._configured g).
  2:{ cbn [fst]. rewrite length_map. auto. }
  destruct (gemini_client.embed_loop w (gemini_client.embed_model g) n (t :: texts))
    as [[vecs|] n'] eqn:El.
  2:{ cbn [fst]. rewrite length_map. split; [reflexivity|]. split; [now left | discriminate]. }
  pose proof (embed_loop_length _ _ _ _ _ _ El) as H2.
  destruct (forallb (fun v => Nat.eqb (length v) 0) vecs) eqn:Ef; cbn [fst].
  - rewrite length_map. split; [reflexivity|]. split; [now left | discriminate].
  - split; [symmetry; eapply Forall2_length; exact H2|].
    split; [|discriminate]. right. split; [reflexivity|]. split; [exact H2|].
    clear -Ef. induction vecs as [|v vecs IH]; [discriminate|].
    simpl in Ef. apply andb_false_iff in Ef. destruct Ef as [Ef|Ef].
    + apply Exists_cons_hd. intros ->. discriminate.
    + apply Exists_cons_tl. auto.
Qed.

(** A single vector is the offline one or is not empty. *)
Lemma embed_single_source (w : world) (g : gemini_client.GeminiClient) (n : nat)
    (t : string) (v : list float) (n' : nat) :
  gemini_client.embed w g n [t] = ([v], n') ->
  v = stub_vector w t \/ v <> [].
Proof.
  unfold gemini_client.embed, gemini_client.embed_loop, gemini_client.stub_vectors.
  fold (stub_vector w).
  destruct (gemini_client._have_sdk g && gemini_client._configured g);
    [|intros [= <- _]; now left].
  destruct (embed_content w n (gemini_client.embed_model g) t) as [v0|];
    [|intros [= <- _]; now left].
  cbn [option_map forallb]. destruct (Nat.eqb (length v0) 0) eqn:E; cbn [andb].
  - intros [= <- _]. now left.
  - intros [= <- _]. right. intros ->. discriminate.
Qed.

(** *** Stripped strings *)

Lemma rstrip_cons (c : ascii) (s : string) :
  Py.rstrip (String c s)
  = match Py.rstrip s with
    | EmptyString => if Py.isspace c then EmptyString else String c EmptyString
    | r => String c r
    end.
Proof. reflexivity. Qed.

Lemma rstrip_idem (s : string) : Py.rstrip (Py.rstrip s) = Py.rstrip s.
Proof.
  induction s as [|c s IH]; [reflexivity|]. rewrite rstrip_cons.
  destruct (Py.rstrip s) as [|d r] eqn:E.
  - destruct (Py.isspace c) eqn:Ec; [reflexivity|].
    rewrite rstrip_cons. cbn [Py.rstrip]. now rewrite Ec.
  - rewrite rstrip_cons, IH. reflexivity.
Qed.

Lemma lstrip_head (s : string) :
  Py.lstrip s = "" \/ exists c r, Py.lstrip s = String c r /\ Py.isspace c = false.
Proof.
  induction s as [|c s IH]; [now left|]. cbn [Py.lstrip].
  destruct (Py.isspace c) eqn:E; [exact IH | right; eauto].
Qed.

Lemma rstrip_head (c : ascii) (s : string) :
  Py.isspace c = false -> exists r, Py.rstrip (String c s) = String c r.
Proof.
  intros E. rewrite rstrip_cons. destruct (Py.rstrip s); [rewrite E|]; eauto.
Qed.

Lemma strip_fixed (s : string) :
  Py.lstrip s = s -> Py.rstrip s = s -> Py.strip s = s.
Proof. intros H1 H2. unfold Py.strip. now rewrite H1. Qed.

Lemma strip_idem (s : string) : Py.strip (Py.strip s) = Py.strip s.
Proof.
  unfold Py.strip at 2 3.
  destruct (lstrip_head s) as [E | (c & r & E & Hc)]; rewrite E; [reflexivity|].
  destruct (rstrip_head c r Hc) as [r' Er].
  apply strip_fixed; [|apply rstrip_idem].
  rewrite Er. cbn [Py.lstrip]. now rewrite Hc.
Qed.

Lemma rstrip_app_end (s t : string) :
  t <> "" -> Py.rstrip t = t -> Py.rstrip (s +:+ t) = s +:+ t.
Proof.
  intros Ht Hr. induction s as [|c s IH]; [exact Hr|].
  change (String c s +:+ t) with (String c (s +:+ t)). rewrite rstrip_cons.
  rewrite IH. destruct (s +:+ t) eqn:E; [|reflexivity].
  destruct s; [change (t = "") in E; congruence | discriminate].
Qed.

Lemma stub_reply_stripped (user_message : string) :
  Py.truthy (gemini_client.stub_reply user_message) = true
  /\ Py.strip (gemini_client.stub_reply user_message)
     = gemini_client.stub_reply user_message.
Proof.
  split; [reflexivity|]. apply strip_fixed; [reflexivity|].
  unfold gemini_client.stub_reply.
  repeat (apply rstrip_app_end; [|]); try reflexivity.
  - intros E. destruct (Py.str_take 160 user_message); discriminate.
  - intros E. destruct (Py.str_take 160 user_message); discriminate.
  - discriminate.
Qed.

Lemma first_candidate_stripped (candidates : list (list string)) (r : string) :
  gemini_client.first_candidate candidates = Some r ->
  Py.truthy r = true /\ Py.strip r = r.
Proof.
  induction candidates as [|parts rest IH]; [discriminate|].
  cbn [gemini_client.first_candidate]. destruct parts as [|part parts]; [exact IH|].
  destruct (Py.truthy (Py.strip (Py.join " " (part :: parts)))) eqn:E; [|exact IH].
  intros [= <-]. split; [exact E | apply strip_idem].
Qed.

(** The reply of the client, from the SDK or not, is never blank. *)
Lemma chat_reply_clean (w : world) (g : gemini_client.GeminiClient) (n : nat)
    (system_prompt user_message : string) :
  clean (fst (gemini_client.chat w g n system_prompt user_message)).
Proof.
  unfold clean, gemini_client.chat.
  pose proof (stub_reply_stripped user_message) as [Hs1 Hs2].
  destruct (gemini_client._have_sdk g && gemini_client._configured g);
    [|cbn [fst]; auto].
  destruct (generate_content w n (gemini_client.model_name g) system_prompt
              user_message) as [|txt candidates]; [cbn [fst]; auto|].
  destruct txt as [t|];
    [destruct (Py.truthy (Py.strip t)) eqn:Et;
       [cbn [fst]; auto using strip_idem|]|];
    (destruct (gemini_client.first_candidate candidates) as [r|] eqn:Ec;
       [apply first_candidate_stripped in Ec; cbn [fst]; tauto | cbn [fst]; auto]).
Qed.

(** X9.  Whatever the SDK answers, raises or leaves out, [chat] of the
    client returns a reply that is not empty and has no white space at
    either end; offline it is the stub reply, and no external call is
    made. *)
Theorem client_chat_reply_never_blank (w : world) (g : gemini_client.GeminiClient)
    (n : nat) (system_prompt user_message : string) :
  Py.truthy (fst (gemini_client.chat w g n system_prompt user_message)) = true
  /\ Py.strip (fst (gemini_client.chat w g n system_prompt user_message))
     = fst (gemini_client.chat w g n system_prompt user_message)
  /\ (online g = false ->
      gemini_client.chat w g n system_prompt user_message
      = (gemini_client.stub_reply user_message, n)).
Proof.
  destruct (chat_reply_clean w g n system_prompt user_message) as [H1 H2].
  split; [exact H1|]. split; [exact H2|].
  unfold gemini_client.chat, online. intros ->. reflexivity.
Qed.

(** X10.  The mode of the client is decided by the key alone, at
    construction and at every [set_api_key]: it is online exactly when the
    stripped key is not empty and the SDK configures with it.  A blank key
    always puts it offline, although [_configured] keeps its old value. *)
Theorem client_mode_is_decided_by_key (w : world) (g : gemini_client.GeminiClient)
    (key : string) :
  online (fst (gemini_client.set_api_key w g key))
  = Py.truthy (Py.strip key) && genai_configures w (Py.strip key)
  /\ gemini_client.api_key (fst (gemini_client.set_api_key w g key)) = Py.strip key
  /\ snd (gemini_client.set_api_key w g key) = Py.strip key
  /\ (Py.strip key = "" ->
      gemini_client._have_sdk (fst (gemini_client.set_api_key w g key)) = false
      /\ gemini_client._configured (fst (gemini_client.set_api_key w g key))
         = gemini_client._configured g)
  /\ online (gemini_client.init w (Some key))
     = (if Py.truthy key
        then Py.truthy (Py.strip key) && genai_configures w (Py.strip key)
        else Py.truthy (Py.strip (environ_key w))
             && genai_configures w (Py.strip (environ_key w)))
  /\ online (gemini_client.init w None)
     = Py.truthy (Py.strip (environ_key w))
       && genai_configures w (Py.strip (environ_key w)).
Proof.
  unfold online, gemini_client.set_api_key, gemini_client.init,
    gemini_client._configure_sdk.
  cbn [fst snd gemini_client.api_key gemini_client._configured
       gemini_client._have_sdk].
  split; [|split; [|split; [|split; [|split]]]].
  - destruct (Py.truthy (Py.strip key)); cbn [negb];
      cbn [gemini_client._have_sdk gemini_client._configured andb];
      [now destruct (genai_configures w (Py.strip key)) | reflexivity].
  - now destruct (Py.truthy (Py.strip key)).
  - reflexivity.
  - intros ->. split; reflexivity.
  - destruct (Py.truthy key);
      (destruct (Py.truthy (Py.strip _)); cbn [negb];
       cbn [gemini_client._have_sdk gemini_client._configured andb];
       [now destruct (genai_configures w _) | reflexivity]).
  - destruct (Py.truthy (Py.strip _)); cbn [negb];
      cbn [gemini_client._have_sdk gemini_client._configured andb];
      [now destruct (genai_configures w _) | reflexivity].
Qed.

(** ** The engine: what every call does to the store *)

Lemma gemini_chat_clean (w : world) (p : Persona) (ms : list MemoryItem)
    (g : gemini_client.GeminiClient) (n : nat)
    (system_prompt user_message : string) :
  exists reply n',
    gemini_chat w system_prompt user_message (mk p ms g n) = (Ok reply, mk p ms g n')
    /\ clean reply.
Proof.
  unfold gemini_chat, mk. cbn [self calls gemini].
  pose proof (chat_reply_clean w g n system_prompt user_message) as H.
  destruct (gemini_client.chat w g n system_prompt user_message) as [reply n'].
  eauto.
Qed.

Section EmbeddingInvariant.
Variable w : world.
Variable g : gemini_client.GeminiClient.

(** A property of every vector the client gives for a single text. *)
Variable P : list float -> Prop.
Hypothesis HP : forall t n v n', gemini_client.embed w g n [t] = ([v], n') -> P v.

Local Abbreviation made := (made_with P).

Lemma embed_first_P (p : Persona) (ms : list MemoryItem) (n : nat) (t : string) :
  exists v n', embed_first w t (mk p ms g n) = (Ok v, mk p ms g n') /\ P v.
Proof.
  unfold embed_first, mk. cbn [self calls gemini].
  destruct (embed_one w g n t) as (v & n' & E). rewrite E.
  exists v, n'. split; [reflexivity | eapply HP; exact E].
Qed.

Lemma store_record_P (p : Persona) (ms : list MemoryItem) (n : nat)
    (kind embedded txt : string) (tags : gmap string string) :
  existsb (String.eqb kind) VALID_MEMORY_TYPES = true ->
  exists e now n',
    bind (embed_first w embedded)
      (fun emb => bind (new_item w kind txt emb tags) (fun item => memories_add item))
      (mk p ms g n)
    = (Ok tt, mk p (ms ++ [record kind txt e now tags]) g n')
    /\ P e.
Proof.
  intros H. destruct (embed_first_P p ms n embedded) as (e & n1 & E & He).
  exists e, (utcnow w n1), (S n1). split; [|exact He].
  rewrite (bind_ok _ _ _ _ _ E).
  rewrite (bind_ok _ _ _ _ _ (new_item_run w p ms g n1 kind txt e tags H)).
  apply memories_add_run.
Qed.

Lemma store_optional_P (p : Persona) (ms : list MemoryItem) (n : nat)
    (cond : bool) (kind embedded txt : string) :
  existsb (String.eqb kind) VALID_MEMORY_TYPES = true ->
  exists items n',
    (if cond
     then bind (embed_first w embedded)
            (fun emb => bind (new_item w kind txt emb ∅)
                          (fun item => memories_add item))
     else ret tt) (mk p ms g n)
    = (Ok tt, mk p (ms ++ items) g n')
    /\ Forall2 made (if cond then [(kind, txt)] else []) items.
Proof.
  intros Hkind. destruct cond.
  - destruct (store_record_P p ms n kind embedded txt ∅ Hkind)
      as (e & now & n' & E & He).
    exists [record kind txt e now ∅], n'. split; [exact E|].
    repeat constructor. exact He.
  - exists [], n. rewrite app_nil_r. split; [reflexivity | constructor].
Qed.

Lemma store_examples_P (p : Persona) (ms : list MemoryItem) (n : nat)
    (answers : gmap string Py.value) (keys : list string) :
  exists items n',
    store_examples w answers keys (mk p ms g n) = (Ok tt, mk p (ms ++ items) g n')
    /\ Forall2 made (example_records answers keys) items.
Proof.
  revert ms n. induction keys as [|key keys IH]; intros ms n.
  - exists [], n. rewrite app_nil_r. split; [reflexivity | constructor].
  - destruct (store_optional_P p ms n (Py.truthy (answer_text answers key))
                "decision" (answer_text answers key) (answer_text answers key)
                eq_refl)
      as (items1 & n1 & E1 & F1).
    destruct (IH (ms ++ items1)%list n1) as (items2 & n2 & E2 & F2).
    exists (items1 ++ items2)%list, n2. split.
    + cbn [store_examples]. unfold store_example.
      change (Py.strip (Py.str (Py.get answers key (Py.VStr ""))))
        with (answer_text answers key).
      cbv zeta. rewrite (bind_ok _ _ _ _ _ E1). rewrite E2.
      now rewrite <- app_assoc.
    + unfold example_records. cbn [flat_map].
      apply Forall2_app; [exact F1 | exact F2].
Qed.

Lemma process_survey_P (p : Persona) (ms : list MemoryItem) (n : nat)
    (answers : gmap string Py.value) (code : string) :
  _derive_mbti answers = Ok code ->
  exists items n',
    process_survey w answers (mk p ms g n)
    = (Ok tt, mk (derived_persona p answers code) (ms ++ items) g n')
    /\ Forall2 made
         (survey_records answers (text_summary_of (derived_persona p answers code)))
         items.
Proof.
  intros Hcode.
  pose proof (derive_persona_fields_outcome answers) as Hd. rewrite Hcode in Hd.
  destruct Hd as (d & Ed & _ & Hm & Ht & Hv & Hh & Hds & Hps).
  unfold process_survey.
  rewrite (bind_ok _ _ _ _ _ (set_persona_run _ _ _ _ _)).
  rewrite (bind_ok _ _ _ _ _ (lift_ok _ _ _ Ed)).
  rewrite (bind_ok _ _ _ _ _ (lift_ok _ _ _ (getitem_ok _ _ _ Hps))).
  rewrite (bind_ok _ _ _ _ _ (set_persona_run _ _ _ _ _)).
  rewrite (bind_ok _ _ _ _ _ (lift_ok _ _ _ (getitem_ok _ _ _ Ht))).
  rewrite (bind_ok _ _ _ _ _ (set_persona_run _ _ _ _ _)).
  rewrite (bind_ok _ _ _ _ _ (lift_ok _ _ _ (getitem_ok _ _ _ Hv))).
  rewrite (bind_ok _ _ _ _ _ (set_persona_run _ _ _ _ _)).
  rewrite (bind_ok _ _ _ _ _ (lift_ok _ _ _ (getitem_ok _ _ _ Hh))).
  rewrite (bind_ok _ _ _ _ _ (set_persona_run _ _ _ _ _)).
  rewrite (bind_ok _ _ _ _ _ (lift_ok _ _ _ (getitem_ok _ _ _ Hds))).
  rewrite (bind_ok _ _ _ _ _ (set_persona_run _ _ _ _ _)).
  rewrite Hm. cbn [default].
  rewrite (bind_ok _ _ _ _ _ (set_persona_run _ _ _ _ _)).
  change (with_mbti code _) with (derived_persona p answers code).
  change (Py.strip (Py.str (Py.get answers "catchphrase" (Py.VStr ""))))
    with (answer_text answers "catchphrase").
  cbv zeta.
  destruct (store_optional_P (derived_persona p answers code) ms n
              (Py.truthy (answer_text answers "catchphrase")) "survey"
              (answer_text answers "catchphrase")
              ("Catchphrase: " +:+ answer_text answers "catchphrase") eq_refl)
    as (items1 & n1 & E1 & F1).
  rewrite (bind_ok _ _ _ _ _ E1).
  destruct (store_examples_P (derived_persona p answers code) (ms ++ items1)%list
              n1 answers
              ["example_decision1"; "example_decision2"; "example_decision3"])
    as (items2 & n2 & E2 & F2).
  rewrite (bind_ok _ _ _ _ _ E2).
  rewrite (bind_ok _ _ _ _ _ (read_run _ _ _ _ persona)).
  cbn [self persona mk].
  destruct (store_record_P (derived_persona p answers code)
              ((ms ++ items1) ++ items2)%list n2 "survey"
              (text_summary_of (derived_persona p answers code))
              (text_summary_of (derived_persona p answers code)) ∅ eq_refl)
    as (e & now & n3 & E3 & He).
  rewrite E3.
  exists (items1 ++ items2 ++ [record "survey"
            (text_summary_of (derived_persona p answers code)) e now ∅])%list, n3.
  split; [now rewrite <- !app_assoc|].
  unfold survey_records.
  apply Forall2_app; [exact F1|].
  apply Forall2_app; [exact F2|].
  repeat constructor. exact He.
Qed.

(** [chat], step by step: the message is stored first; then either the
    search raises, which ends the call, or a reply is made and stored. *)
Lemma chat_run (p : Persona) (ms : list MemoryItem) (n : nat)
    (message : string) (k : Z) :
  exists q now n1,
    P q
    /\ ((exists e,
           search {| _memories := ms ++ [record "chat" message q now {["role" := "user"]}] |}
             q k None = Raise e
           /\ chat w message k (mk p ms g n)
              = (Raise e,
                 mk p (ms ++ [record "chat" message q now {["role" := "user"]}]) g n1))
        \/ (exists found reply a now' n2,
              search {| _memories := ms ++ [record "chat" message q now {["role" := "user"]}] |}
                q k None = Ok found
              /\ P a
              /\ clean reply
              /\ chat w message k (mk p ms g n)
                 = (Ok reply,
                    mk p (ms ++ [ record "chat" message q now {["role" := "user"]};
                                  record "chat" reply a now' {["role" := "assistant"]} ])
                       g n2))).
Proof.
  destruct (embed_first_P p ms n message) as (q & n0 & Eq & Hq).
  exists q, (utcnow w n0), (S n0). split; [exact Hq|].
  set (user := record "chat" message q (utcnow w n0) {["role" := "user"]}).
  unfold chat.
  rewrite (bind_ok _ _ _ _ _ Eq).
  rewrite (bind_ok _ _ _ _ _ (new_item_run w p ms g n0 "chat" message _ _ eq_refl)).
  fold user.
  rewrite (bind_ok _ _ _ _ _ (memories_add_run _ _ _ _ _)).
  rewrite (bind_ok _ _ _ _ _ (read_run _ _ _ _ memories)).
  cbn [self memories mk].
  destruct (search {| _memories := ms ++ [user] |} q k None) as [found|e] eqn:Es.
  2:{ left. exists e. split; [reflexivity|]. reflexivity. }
  right.
  rewrite (bind_ok _ _ _ _ _ (eq_refl : lift (Ok found) _ = _)).
  rewrite (bind_ok _ _ _ _ _ (read_run _ _ _ _ id)).
  destruct (gemini_chat_clean w p (ms ++ [user]) g (S n0)
              (chat_system_prompt
                 (persona (id (self (mk p (ms ++ [user]) g (S n0))))) found
                 (_catchphrases (id (self (mk p (ms ++ [user]) g (S n0))))))
              message) as (reply & n2 & Er & Hr).
  rewrite (bind_ok _ _ _ _ _ Er).
  destruct (embed_first_P p (ms ++ [user]) n2 reply) as (a & n3 & Ea & Ha).
  exists found, reply, a, (utcnow w n3), (S n3).
  split; [reflexivity|]. split; [exact Ha|]. split; [exact Hr|].
  rewrite (bind_ok _ _ _ _ _ Ea).
  rewrite (bind_ok _ _ _ _ _
             (new_item_run w p _ g n3 "chat" reply _ _ eq_refl)).
  rewrite (bind_ok _ _ _ _ _ (memories_add_run _ _ _ _ _)).
  cbn [ret]. now rewrite <- app_assoc.
Qed.

(** [simulate_decision], step by step. *)
Lemma simulate_decision_run (p : Persona) (ms : list MemoryItem) (n : nat)
    (situation : string) (k : Z) (store : bool) :
  exists q n1,
    P q
    /\ ((exists e,
           decision_prompt (self (mk p ms g n1)) q k = Raise e
           /\ simulate_decision w situation k store (mk p ms g n)
              = (Raise e, mk p ms g n1))
        \/ (exists prompt reply items n2,
              decision_prompt (self (mk p ms g n1)) q k = Ok prompt
              /\ clean reply
              /\ simulate_decision w situation k store (mk p ms g n)
                 = (Ok reply, mk p (ms ++ items) g n2)
              /\ Forall2 made (if store then [("decision", reply)] else []) items)).
Proof.
  destruct (embed_first_P p ms n situation) as (q & n1 & Eq & Hq).
  exists q, n1. split; [exact Hq|].
  unfold simulate_decision.
  rewrite (bind_ok _ _ _ _ _ Eq).
  rewrite (bind_ok _ _ _ _ _ (read_run _ _ _ _ id)).
  change (id (self (mk p ms g n1))) with (self (mk p ms g n1)).
  destruct (decision_prompt (self (mk p ms g n1)) q k) as [prompt|e] eqn:Ep.
  2:{ left. exists e. split; reflexivity. }
  right.
  rewrite (bind_ok _ _ _ _ _ (eq_refl : lift (Ok prompt) _ = _)).
  destruct (gemini_chat_clean w p ms g n1 prompt situation) as (reply & n2 & Er & Hr).
  rewrite (bind_ok _ _ _ _ _ Er).
  destruct (store_optional_P p ms n2 store "decision" reply reply eq_refl)
    as (items & n3 & Es & Fs).
  exists prompt, reply, items, n3. split; [reflexivity|]. split; [exact Hr|].
  split; [|exact Fs].
  now rewrite (bind_ok _ _ _ _ _ Es).
Qed.

Lemma made_engine_made (kts : list (string * string)) (items : list MemoryItem) :
  Forall (fun kt => In (fst kt) ["chat"; "decision"; "survey"]) kts ->
  Forall2 made kts items ->
  Forall (fun m => engine_made m /\ P (embedding m)) items.
Proof.
  intros Hk F. induction F as [|kt m kts items [(Hty & _ & _ & Hperm) Hp] F IH];
    [constructor|].
  inversion Hk; subst. constructor; [|now apply IH].
  split; [|exact Hp]. split; [exact Hperm | now rewrite Hty].
Qed.

Lemma survey_records_kinds (answers : gmap string Py.value) (summary : string) :
  Forall (fun kt => In (fst kt) ["chat"; "decision"; "survey"])
         (survey_records answers summary).
Proof.
  unfold survey_records, example_records. cbn [flat_map].
  repeat (apply Forall_app; split);
    repeat match goal with
    | |- Forall _ (if ?c then _ else _) => destruct c
    | |- Forall _ [] => constructor
    | |- Forall _ (_ :: _) => constructor; [simpl; tauto|]
    end.
Qed.

(** One call: the store gains records at its end, all of them records the
    engine makes, with vectors the client gave. *)
Lemma perform_step (c : call) (p : Persona) (ms : list MemoryItem) (n : nat) :
  exists ok p' items n',
    perform w c (mk p ms g n) = (ok, mk p' (ms ++ items) g n')
    /\ user_name p' = user_name p
    /\ Forall (fun m => engine_made m /\ P (embedding m)) items.
Proof.
  destruct c as [message k | situation k store | answers]; cbn [perform].
  - destruct (chat_run p ms n message k)
      as (q & now & n1 & Hq
          & [(e & _ & E) | (found & reply & a & now' & n2 & _ & Ha & _ & E)]);
      rewrite E.
    + exists false, p, [record "chat" message q now {["role" := "user"]}], n1.
      split; [reflexivity|]. split; [reflexivity|].
      repeat constructor; simpl; tauto.
    + exists true, p, [ record "chat" message q now {["role" := "user"]};
                        record "chat" reply a now' {["role" := "assistant"]} ], n2.
      split; [reflexivity|]. split; [reflexivity|].
      repeat constructor; simpl; tauto.
  - destruct (simulate_decision_run p ms n situation k store)
      as (q & n1 & _ & [(e & _ & E) | (prompt & reply & items & n2 & _ & _ & E & F)]);
      rewrite E.
    + exists false, p, [], n1. rewrite app_nil_r. repeat split. constructor.
    + exists true, p, items, n2. split; [reflexivity|]. split; [reflexivity|].
      eapply made_engine_made; [|exact F].
      destruct store; repeat constructor; simpl; tauto.
  - destruct (_derive_mbti answers) as [code|e] eqn:Ec.
    + destruct (process_survey_P p ms n answers code Ec) as (items & n' & E & F).
      rewrite E. exists true, (derived_persona p answers code), items, n'.
      split; [reflexivity|]. split; [reflexivity|].
      eapply made_engine_made; [apply survey_records_kinds | exact F].
    + rewrite (process_survey_raises w g p ms n answers e Ec).
      exists false, (with_survey_json answers p), [], n. rewrite app_nil_r.
      repeat split. constructor.
Qed.

(** Any sequence of calls. *)
Lemma perform_all_steps (cs : list call) (p : Persona) (ms : list MemoryItem)
    (n : nat) :
  exists p' items n',
    perform_all w cs (mk p ms g n) = mk p' (ms ++ items) g n'
    /\ user_name p' = user_name p
    /\ Forall (fun m => engine_made m /\ P (embedding m)) items.
Proof.
  revert p ms n. induction cs as [|c cs IH]; intros p ms n.
  - exists p, [], n. rewrite app_nil_r. repeat split. constructor.
  - destruct (perform_step c p ms n) as (ok & p1 & items1 & n1 & E1 & U1 & F1).
    destruct (IH p1 (ms ++ items1)%list n1) as (p2 & items2 & n2 & E2 & U2 & F2).
    exists p2, (items1 ++ items2)%list, n2.
    unfold perform_all in *. cbn [fold_left]. rewrite E1. cbn [snd].
    rewrite E2. split; [now rewrite app_assoc|]. split; [congruence|].
    apply Forall_app. auto.
Qed.

End EmbeddingInvariant.

Lemma keep_permanent_engine_made (items : list MemoryItem) :
  Forall engine_made items -> keep_permanent_items items = [].
Proof.
  induction 1 as [|m items [Hm _] _ IH]; [reflexivity|].
  simpl. now rewrite Hm.
Qed.

Lemma keep_permanent_items_app (l1 l2 : list MemoryItem) :
  keep_permanent_items (l1 ++ l2)
  = (keep_permanent_items l1 ++ keep_permanent_items l2)%list.
Proof. rewrite !keep_permanent_items_filter. apply List.filter_app. Qed.


(** X12.  The store only grows at its end, whatever the calls and their
    outcomes: after any sequence of [chat], [simulate_decision] and
    [process_survey] the prior records are all there, unchanged and in
    order, followed by records the engine made, none permanent, of kind
    chat, decision or survey.  So [clear(keep_permanent=True)] afterwards
    leaves exactly the permanent records there were before.  The client and
    the user name are never touched. *)
Theorem engine_only_appends (w : world) (cs : list call) (s : state) :
  exists items,
    list_ (memories (self (perform_all w cs s)))
    = (list_ (memories (self s)) ++ items)%list
    /\ Forall engine_made items
    /\ list_ (clear (memories (self (perform_all w cs s))) true)
       = list_ (clear (memories (self s)) true)
    /\ gemini (self (perform_all w cs s)) = gemini (self s)
    /\ user_name (persona (self (perform_all w cs s))) = user_name (persona (self s)).
Proof.
  rewrite (state_parts s).
  generalize (persona (self s)) (_memories (memories (self s)))
             (gemini (self s)) (calls s).
  clear s. intros p ms g n.
  destruct (perform_all_steps w g (fun _ => True) (fun _ _ _ _ _ => I) cs p ms n)
    as (p' & items & n' & E & U & F).
  rewrite E. exists items.
  assert (Forall engine_made items) as F'
    by (eapply Forall_impl; [exact F|]; simpl; tauto).
  split; [reflexivity|]. split; [exact F'|].
  split; [|split; [reflexivity | exact U]].
  unfold clear, list_, mk. cbn [self memories _memories].
  rewrite keep_permanent_items_app, (keep_permanent_engine_made _ F').
  apply app_nil_r.
Qed.

(** X13.  When the offline generator never gives an empty vector, no record the
    engine stores has an empty embedding: a store without empty embeddings
    stays so through any sequence of calls. *)
Theorem engine_embeddings_never_empty (w : world) (cs : list call) (s : state) :
  (forall seed, random_256 w seed <> []) ->
  Forall (fun m => embedding m <> []) (list_ (memories (self s))) ->
  Forall (fun m => embedding m <> []) (list_ (memories (self (perform_all w cs s)))).
Proof.
  intros Hw. rewrite (state_parts s).
  generalize (persona (self s)) (_memories (memories (self s)))
             (gemini (self s)) (calls s).
  clear s. intros p ms g n Hms.
  assert (forall t n v n', gemini_client.embed w g n [t] = ([v], n') -> v <> []) as HP.
  { intros t n0 v n' E. destruct (embed_single_source _ _ _ _ _ _ E) as [-> | H];
      [apply Hw | exact H]. }
  destruct (perform_all_steps w g (fun v => v <> []) HP cs p ms n)
    as (p' & items & n' & E & _ & F).
  rewrite E. unfold list_, mk in *. cbn [self memories _memories] in *.
  apply Forall_app. split; [exact Hms|].
  eapply Forall_impl; [exact F|]. simpl. tauto.
Qed.

Lemma engine_embeddings_never_empty_witness :
  Forall (fun m => embedding m <> [])
    (list_ (memories (self (perform_all offline_world
                              [Chat "Ship today?" 5; SimulateDecision "Ship?" 5 true]
                              (mk (Persona_init "You") (list_ sample_bank)
                                  (gemini_client.init offline_world None) 0))))).
Proof.
  apply (engine_embeddings_never_empty offline_world).
  - intros seed. discriminate.
  - repeat constructor; discriminate.
Defined.

(** X14.  When every vector the client gives has length [d] (as offline, with a
    generator of d-long vectors) and so has every stored embedding, no
    [chat] and no [simulate_decision] raises, [process_survey] raises only
    when the type code does, and the store keeps embeddings of length [d]:
    the condition holds again for the next call. *)
Theorem calls_return_on_vectors_of_one_length (w : world) (s : state) (d : nat)
    (c : call) :
  (forall t n v n',
     gemini_client.embed w (gemini (self s)) n [t] = ([v], n') -> length v = d) ->
  aligned d (list_ (memories (self s))) ->
  exists ok s',
    perform w c s = (ok, s')
    /\ gemini (self s') = gemini (self s)
    /\ aligned d (list_ (memories (self s')))
    /\ ok = match c with
            | ProcessSurvey answers => is_ok (_derive_mbti answers)
            | _ => true
            end.
Proof.
  rewrite (state_parts s).
  generalize (persona (self s)) (_memories (memories (self s)))
             (gemini (self s)) (calls s).
  clear s. intros p ms g n. unfold aligned, list_, mk.
  cbn [self memories _memories gemini]. intros HP Hms.
  destruct c as [message k | situation k store | answers]; cbn [perform].
  - destruct (chat_run w g (fun v => length v = d) HP p ms n message k)
      as (q & now & n1 & Hq
          & [(e & Es & E) | (found & reply & a & now' & n2 & _ & Ha & _ & E)]).
    + exfalso.
      assert (is_ok (search {| _memories := ms ++ [record "chat" message q now
                                                     {["role" := "user"]}] |}
                       q k None) = true) as Hok.
      { apply search_aligned_ok. unfold list_. cbn [_memories].
        apply Forall_app. split; [|repeat constructor].
        eapply Forall_impl; [exact Hms|]. simpl. congruence. }
      rewrite Es in Hok. discriminate.
    + fold (mk p ms g n). rewrite E. exists true. eexists.
      split; [reflexivity|]. cbn [self memories _memories gemini mk].
      split; [reflexivity|]. split; [|reflexivity].
      apply Forall_app. split; [exact Hms|]. repeat constructor; assumption.
  - destruct (simulate_decision_run w g (fun v => length v = d) HP p ms n
                situation k store)
      as (q & n1 & Hq & [(e & Ep & E) | (prompt & reply & items & n2 & _ & _ & E & F)]).
    + exfalso.
      assert (is_ok (decision_prompt (self (mk p ms g n1)) q k) = true) as Hok.
      { apply decision_prompt_returns. unfold list_, mk. cbn [self memories _memories].
        eapply Forall_impl; [exact Hms|]. simpl. congruence. }
      rewrite Ep in Hok. discriminate.
    + fold (mk p ms g n). rewrite E. exists true. eexists.
      split; [reflexivity|]. cbn [self memories _memories gemini mk].
      split; [reflexivity|]. split; [|reflexivity].
      apply Forall_app. split; [exact Hms|].
      clear -F. induction F as [|? ? ? ? [_ H] _ IH]; constructor; assumption.
  - fold (mk p ms g n). destruct (_derive_mbti answers) as [code|e] eqn:Ec.
    + destruct (process_survey_P w g (fun v => length v = d) HP p ms n answers code Ec)
        as (items & n' & E & F).
      rewrite E. exists true. eexists.
      split; [reflexivity|]. cbn [self memories _memories gemini mk is_ok].
      split; [reflexivity|]. split; [|reflexivity].
      apply Forall_app. split; [exact Hms|].
      clear -F. induction F as [|? ? ? ? [_ H] _ IH]; constructor; assumption.
    + rewrite (process_survey_raises w g p ms n answers e Ec).
      exists false. eexists. split; [reflexivity|].
      cbn [self memories _memories gemini mk is_ok]. auto.
Qed.

Lemma calls_return_on_vectors_of_one_length_witness :
  exists ok s',
    perform offline_world (Chat "Ship today?" 5)
      (mk (Persona_init "You") (list_ sample_bank)
          (gemini_client.init offline_world None) 0) = (ok, s')
    /\ gemini (self s') = gemini_client.init offline_world None
    /\ aligned 2 (list_ (memories (self s')))
    /\ ok = true.
Proof.
  apply (calls_return_on_vectors_of_one_length offline_world
           (mk (Persona_init "You") (list_ sample_bank)
               (gemini_client.init offline_world None) 0) 2 (Chat "Ship today?" 5)).
  - intros t n v n' H. injection H as <- _. reflexivity.
  - repeat constructor.
Defined.

(** ** The survey, end to end *)

(** X15.  What [process_survey] does.  When the type code is derived, the persona
    is replaced as a whole by the derived one (of the old persona only the
    user name remains), and the store gains, in this order, the catchphrase
    record if the catchphrase is not blank, a decision record for each
    example decision that is not blank, and the summary record.  When the
    type code raises, the call raises: nothing is stored and the derived
    fields keep their old values, but the raw answers are already
    replaced. *)
Theorem process_survey_effect (w : world) (s : state)
    (answers : gmap string Py.value) :
  exists r s',
    process_survey w answers s = (r, s')
    /\ gemini (self s') = gemini (self s)
    /\ match _derive_mbti answers with
       | Ok code =>
           r = Ok tt
           /\ persona (self s') = derived_persona (persona (self s)) answers code
           /\ exists items,
                list_ (memories (self s')) = (list_ (memories (self s)) ++ items)%list
                /\ Forall2 plain_record
                     (survey_records answers
                        (text_summary_of
                           (derived_persona (persona (self s)) answers code)))
                     items
       | Raise e =>
           r = Raise e
           /\ persona (self s') = with_survey_json answers (persona (self s))
           /\ memories (self s') = memories (self s)
       end.
Proof.
  rewrite (state_parts s).
  generalize (persona (self s)) (_memories (memories (self s)))
             (gemini (self s)) (calls s).
  clear s. intros p ms g n.
  destruct (_derive_mbti answers) as [code|e] eqn:Ec.
  - destruct (process_survey_run w g p ms n answers code Ec) as (items & n' & E & F).
    exists (Ok tt). eexists. split; [exact E|]. repeat split.
    exists items. split; [reflexivity | exact F].
  - exists (Raise e). eexists.
    split; [exact (process_survey_raises w g p ms n answers e Ec)|]. repeat split.
Qed.

Lemma catchphrases_of_app (l1 l2 : list MemoryItem) :
  catchphrases_of (l1 ++ l2) = (catchphrases_of l1 ++ catchphrases_of l2)%list.
Proof.
  induction l1 as [|m l1 IH]; [reflexivity|]. simpl.
  destruct (_ && _); simpl; now rewrite IH.
Qed.

Lemma catchphrases_of_records (kts : list (string * string)) (items : list MemoryItem) :
  Forall2 plain_record kts items -> catchphrases_of items = flat_map phrase_of kts.
Proof.
  induction 1 as [|kt m kts items (Hty & Htx & _) _ IH]; [reflexivity|].
  cbn [catchphrases_of flat_map]. unfold phrase_of. rewrite Hty, Htx, IH.
  now destruct (_ && _).
Qed.

Lemma answer_text_stripped (answers : gmap string Py.value) (key : string) :
  Py.strip (answer_text answers key) = answer_text answers key.
Proof. apply strip_idem. Qed.

Lemma phrases_of_survey_records (answers : gmap string Py.value) (p : Persona) :
  flat_map phrase_of (survey_records answers (text_summary_of p))
  = if Py.truthy (answer_text answers "catchphrase")
    then [answer_text answers "catchphrase"] else [].
Proof.
  unfold survey_records, example_records. rewrite !flat_map_app. cbn [flat_map].
  assert (forall key,
            flat_map phrase_of
              (if Py.truthy (answer_text answers key)
               then [("decision", answer_text answers key)] else []) = []) as Hd
    by (intros key; now destruct (Py.truthy _)).
  rewrite !flat_map_app, !Hd. cbn [app].
  change (phrase_of ("survey", text_summary_of p)) with (@nil string).
  rewrite !app_nil_r.
  destruct (Py.truthy (answer_text answers "catchphrase")); [|reflexivity].
  cbn [flat_map app]. unfold phrase_of. cbn [fst snd].
  change (String.eqb "survey" "survey"
          && Py.startswith
               (Py.lower ("Catchphrase: " +:+ answer_text answers "catchphrase"))
               "catchphrase:") with true.
  cbv iota.
  change (Py.split_colon_last ("Catchphrase: " +:+ answer_text answers "catchphrase"))
    with (String " " (answer_text answers "catchphrase")).
  change (Py.strip (String " " (answer_text answers "catchphrase")))
    with (Py.strip (answer_text answers "catchphrase")).
  now rewrite answer_text_stripped.
Qed.

(** X16.  A catchphrase given in the survey is a catchphrase of the engine
    afterwards: [_catchphrases] then returns what it returned before,
    followed by the stripped catchphrase if that is not blank; neither the
    example decisions nor the summary record are taken for catchphrases. *)
Theorem survey_catchphrase_round_trip (w : world) (s : state)
    (answers : gmap string Py.value) :
  is_ok (_derive_mbti answers) = true ->
  _catchphrases (self (snd (process_survey w answers s)))
  = (_catchphrases (self s)
     ++ (if Py.truthy (answer_text answers "catchphrase")
         then [answer_text answers "catchphrase"] else []))%list.
Proof.
  intros Hok. rewrite (state_parts s).
  generalize (persona (self s)) (_memories (memories (self s)))
             (gemini (self s)) (calls s).
  clear s. intros p ms g n.
  destruct (_derive_mbti answers) as [code|] eqn:Ec; [|discriminate].
  destruct (process_survey_run w g p ms n answers code Ec) as (items & n' & E & F).
  rewrite E. unfold _catchphrases, list_, mk. cbn [snd self memories _memories].
  rewrite catchphrases_of_app, (catchphrases_of_records _ _ F).
  now rewrite phrases_of_survey_records.
Qed.

Lemma survey_catchphrase_round_trip_witness :
  _catchphrases
    (self (snd (process_survey offline_world survey_example
                  (mk (Persona_init "You") (list_ sample_bank)
                      (gemini_client.init offline_world None) 0))))
  = (_catchphrases
       (self (mk (Persona_init "You") (list_ sample_bank)
                 (gemini_client.init offline_world None) 0))
     ++ (if Py.truthy (answer_text survey_example "catchphrase")
         then [answer_text survey_example "catchphrase"] else []))%list.
Proof.
  apply (survey_catchphrase_round_trip offline_world
           (mk (Persona_init "You") (list_ sample_bank)
               (gemini_client.init offline_world None) 0) survey_example).
  vm_compute. reflexivity.
Defined.

Lemma get_insert_other (answers : gmap string Py.value) (key k : string)
    (v dflt : Py.value) :
  key <> k -> Py.get (<[key := v]> answers) k dflt = Py.get answers k dflt.
Proof. intros H. unfold Py.get. now rewrite lookup_insert_ne. Qed.

(** X17.  An answer under a key the engine does not read changes nothing: the
    derived fields, the type code and the records of the survey are those
    of the answers without it. *)
Theorem unread_answers_are_ignored (answers : gmap string Py.value)
    (key : string) (v : Py.value) (summary : string) :
  ~ In key survey_keys ->
  _derive_persona_fields (<[key := v]> answers) = _derive_persona_fields answers
  /\ _derive_mbti (<[key := v]> answers) = _derive_mbti answers
  /\ survey_records (<[key := v]> answers) summary = survey_records answers summary.
Proof.
  intros H.
  assert (forall k dflt, In k survey_keys ->
            Py.get (<[key := v]> answers) k dflt = Py.get answers k dflt) as Hget.
  { intros k dflt Hk. apply get_insert_other. intros ->. contradiction. }
  assert (forall k dflt, In k survey_keys ->
            geti (<[key := v]> answers) k dflt = geti answers k dflt) as Hgeti.
  { intros k dflt Hk. unfold geti. now rewrite Hget. }
  assert (_derive_mbti (<[key := v]> answers) = _derive_mbti answers) as Hm.
  { unfold _derive_mbti. rewrite !Hget by (simpl; tauto). reflexivity. }
  split; [|split; [exact Hm|]].
  - unfold _derive_persona_fields. rewrite Hm.
    unfold tone_style_of, tone_bits, humor_phrase_of, decision_style_of,
      persona_summary_of, tone_style_of, tone_bits, humor_phrase_of,
      decision_style_of, top_vals, values_map.
    rewrite !Hgeti by (simpl; tauto). rewrite !Hget by (simpl; tauto).
    reflexivity.
  - unfold survey_records, example_records, answer_text. cbn [flat_map].
    rewrite !Hget by (simpl; tauto). reflexivity.
Qed.

Lemma unread_answers_are_ignored_witness :
  _derive_persona_fields (<["shoe_size" := Py.VStr "abc"]> survey_example)
  = _derive_persona_fields survey_example
  /\ _derive_mbti (<["shoe_size" := Py.VStr "abc"]> survey_example)
     = _derive_mbti survey_example
  /\ survey_records (<["shoe_size" := Py.VStr "abc"]> survey_example) "summary"
     = survey_records survey_example "summary".
Proof.
  apply (unread_answers_are_ignored survey_example "shoe_size" (Py.VStr "abc")).
  intros H. simpl in H.
  repeat (destruct H as [H | H]; [discriminate H|]). exact H.
Defined.

(** ** The derivation, field by field *)

Lemma axis_letter_cases (hi lo : string) (v : Z) :
  (4 <= v /\ axis_letter hi lo v = hi)
  \/ (v <= 2 /\ axis_letter hi lo v = lo)
  \/ (v = 3 /\ axis_letter hi lo v = "X").
Proof.
  unfold axis_letter.
  destruct (Z.leb_spec 4 v); [now left|].
  destruct (Z.leb_spec v 2); [right; now left|].
  right. right. split; [lia | reflexivity].
Qed.

(** X18.  The type code, when it is derived, has four characters, one per axis;
    the placeholder X stands exactly where the answer is 3.  Answers beyond
    the scale are not rejected: 4 and more give the high letter, 2 and less
    the low one. *)
Theorem type_code_shape (answers : gmap string Py.value) (code : string) :
  _derive_mbti answers = Ok code ->
  exists ei sn tf jp,
    Py.int (Py.get answers "mbti_ei" (Py.VInt 3)) = Ok ei
    /\ Py.int (Py.get answers "mbti_sn" (Py.VInt 3)) = Ok sn
    /\ Py.int (Py.get answers "mbti_tf" (Py.VInt 3)) = Ok tf
    /\ Py.int (Py.get answers "mbti_jp" (Py.VInt 3)) = Ok jp
    /\ String.length code = 4%nat
    /\ (String.get 0 code = Some "X"%char <-> ei = 3)
    /\ (String.get 1 code = Some "X"%char <-> sn = 3)
    /\ (String.get 2 code = Some "X"%char <-> tf = 3)
    /\ (String.get 3 code = Some "X"%char <-> jp = 3)
    /\ (String.get 0 code = Some "E"%char <-> 4 <= ei)
    /\ (String.get 0 code = Some "I"%char <-> ei <= 2).
Proof.
  unfold _derive_mbti.
  destruct (Py.int (Py.get answers "mbti_ei" (Py.VInt 3))) as [ei|]; [|discriminate].
  destruct (Py.int (Py.get answers "mbti_sn" (Py.VInt 3))) as [sn|]; [|discriminate].
  destruct (Py.int (Py.get answers "mbti_tf" (Py.VInt 3))) as [tf|]; [|discriminate].
  destruct (Py.int (Py.get answers "mbti_jp" (Py.VInt 3))) as [jp|]; [|discriminate].
  cbn [result_bind]. intros [= <-]. exists ei, sn, tf, jp.
  repeat (split; [reflexivity|]).
  destruct (axis_letter_cases "E" "I" ei) as [[H1 ->] | [[H1 ->] | [H1 ->]]];
  destruct (axis_letter_cases "N" "S" sn) as [[H2 ->] | [[H2 ->] | [H2 ->]]];
  destruct (axis_letter_cases "F" "T" tf) as [[H3 ->] | [[H3 ->] | [H3 ->]]];
  destruct (axis_letter_cases "P" "J" jp) as [[H4 ->] | [[H4 ->] | [H4 ->]]];
  (split; [reflexivity|]);
  repeat split; intros; try lia; try discriminate; reflexivity.
Qed.

Lemma type_code_shape_witness :
  exists ei sn tf jp,
    Py.int (Py.get survey_example "mbti_ei" (Py.VInt 3)) = Ok ei
    /\ Py.int (Py.get survey_example "mbti_sn" (Py.VInt 3)) = Ok sn
    /\ Py.int (Py.get survey_example "mbti_tf" (Py.VInt 3)) = Ok tf
    /\ Py.int (Py.get survey_example "mbti_jp" (Py.VInt 3)) = Ok jp
    /\ String.length "EXXX" = 4%nat
    /\ (String.get 0 "EXXX" = Some "X"%char <-> ei = 3)
    /\ (String.get 1 "EXXX" = Some "X"%char <-> sn = 3)
    /\ (String.get 2 "EXXX" = Some "X"%char <-> tf = 3)
    /\ (String.get 3 "EXXX" = Some "X"%char <-> jp = 3)
    /\ (String.get 0 "EXXX" = Some "E"%char <-> 4 <= ei)
    /\ (String.get 0 "EXXX" = Some "I"%char <-> ei <= 2).
Proof.
  apply (type_code_shape survey_example "EXXX"). vm_compute. reflexivity.
Defined.

(** X19.  The tone has two to four descriptors and never the same one twice:
    the pass through [dict.fromkeys] removes nothing, the tone is the plain
    comma list of the descriptors, directness first, formality second. *)
Theorem tone_descriptors_distinct (answers : gmap string Py.value) :
  NoDup (tone_bits answers)
  /\ tone_style_of answers = Py.join ", " (tone_bits answers)
  /\ (2 <= length (tone_bits answers) <= 4)%nat
  /\ (exists rest, tone_bits answers
                   = (if 4 <=? geti answers "tone_directness" 3 then "direct"
                      else if geti answers "tone_directness" 3 <=? 2
                           then "diplomatic" else "balanced")
                     :: (if 4 <=? geti answers "tone_formality" 3 then "formal"
                         else if geti answers "tone_formality" 3 <=? 2
                              then "casual" else "semi-formal")
                     :: rest).
Proof.
  unfold tone_style_of, tone_bits.
  generalize (geti answers "tone_directness" 3) (geti answers "tone_formality" 3)
             (geti answers "tone_empathy" 3) (geti answers "msg_length" 3).
  intros a b c d.
  destruct (4 <=? a), (a <=? 2), (4 <=? b), (b <=? 2), (4 <=? c), (4 <=? d), (d <=? 2);
    (split; [apply (bool_decide_unpack _); vm_compute; exact I|]);
    (split; [vm_compute; reflexivity|]);
    (split; [simpl; lia|]); eexists; reflexivity.
Qed.

(** ** The windows *)

(** X20.  The survey wizard and the engine agree on the keys: the wizard emits
    exactly the keys the engine reads.  Whatever the controls show, its
    answers derive: [on_survey] never raises, the raw answers are kept, and
    the type code is read off the four sliders. *)
Theorem wizard_answers_always_derive (w : world) (s : state)
    (likert spin : string -> Z) (combo : string) (line : string -> string) :
  dom (ui.emit_results (ui.SurveyWizard_controls likert spin combo line))
  = list_to_set survey_keys
  /\ exists s',
       ui.on_survey w (ui.SurveyWizard_controls likert spin combo line) s = (Ok tt, s')
       /\ survey_json (persona (self s'))
          = ui.emit_results (ui.SurveyWizard_controls likert spin combo line)
       /\ mbti (persona (self s'))
          = axis_letter "E" "I" (likert "mbti_ei")
            +:+ axis_letter "N" "S" (likert "mbti_sn")
            +:+ axis_letter "F" "T" (likert "mbti_tf")
            +:+ axis_letter "P" "J" (likert "mbti_jp").
Proof.
  split.
  { unfold ui.emit_results, ui.SurveyWizard_controls, survey_keys.
    cbn [ui.emit_loop list_to_set]. rewrite !dom_insert_L, dom_empty_L.
    set_solver. }
  rewrite (state_parts s).
  generalize (persona (self s)) (_memories (memories (self s)))
             (gemini (self s)) (calls s).
  clear s. intros p ms g n. unfold ui.on_survey.
  set (answers := ui.emit_results (ui.SurveyWizard_controls likert spin combo line)).
  assert (_derive_mbti answers
          = Ok (axis_letter "E" "I" (likert "mbti_ei")
                +:+ axis_letter "N" "S" (likert "mbti_sn")
                +:+ axis_letter "F" "T" (likert "mbti_tf")
                +:+ axis_letter "P" "J" (likert "mbti_jp"))) as Hcode.
  { unfold _derive_mbti.
    assert (forall key, In key ["mbti_ei"; "mbti_sn"; "mbti_tf"; "mbti_jp"] ->
              Py.get answers key (Py.VInt 3) = Py.VInt (likert key)) as Hget.
    { intros key Hk. unfold Py.get, answers, ui.emit_results,
        ui.SurveyWizard_controls. cbn [ui.emit_loop ui.reading].
      simpl in Hk. destruct Hk as [<- | [<- | [<- | [<- | []]]]];
        now simplify_map_eq. }
    rewrite !Hget by (simpl; tauto). reflexivity. }
  destruct (process_survey_run w g p ms n answers _ Hcode) as (items & n' & E & _).
  eexists. split; [exact E|]. split; reflexivity.
Qed.

(** X21.  The user statements [simulate_decision] quotes are the retrieved chat
    records that are not tagged as the assistant's, in the order retrieved:
    of the two records a [chat] turn stores, the message is kept and the
    reply is left out. *)
Theorem user_statements_exclude_replies (ms : list MemoryItem) :
  sublist (user_statements ms) ms
  /\ Forall (fun m => meta m !! "role" <> Some "assistant") (user_statements ms)
  /\ (forall m, In m ms -> meta m !! "role" <> Some "assistant" ->
      In m (user_statements ms))
  /\ (forall message reply q a t1 t2,
        user_statements
          [ record "chat" message q t1 {["role" := "user"]};
            record "chat" reply a t2 {["role" := "assistant"]} ]
        = [record "chat" message q t1 {["role" := "user"]}]).
Proof.
  split; [|split; [|split]].
  - induction ms as [|m ms IH]; [constructor|]. cbn [user_statements].
    destruct (bool_decide _); now constructor.
  - induction ms as [|m ms IH]; [constructor|]. cbn [user_statements].
    destruct (bool_decide _) eqn:E; [exact IH|].
    constructor; [now apply bool_decide_eq_false in E | exact IH].
  - induction ms as [|m ms IH]; intros x Hin Hx; [contradiction|].
    cbn [user_statements]. destruct Hin as [-> | Hin].
    + rewrite bool_decide_false by exact Hx. now left.
    + destruct (bool_decide _); [|right]; now apply IH.
  - intros. cbn [user_statements record meta].
    rewrite bool_decide_false by (simplify_map_eq; discriminate).
    rewrite bool_decide_true by now simplify_map_eq.
    reflexivity.
Qed.

(** *** Texts that are never blank *)

Lemma append_not_empty (s t : string) : t <> "" -> s +:+ t <> "".
Proof. intros Ht E. destruct s; [exact (Ht E) | discriminate]. Qed.

Lemma clean_rstrip (t : string) : clean t -> Py.rstrip t = t.
Proof.
  intros [_ H]. rewrite <- H at 1. unfold Py.strip. rewrite rstrip_idem. exact H.
Qed.

Lemma clean_not_empty (t : string) : clean t -> t <> "".
Proof. intros [H _] ->. discriminate. Qed.

Lemma clean_strip (t : string) : Py.truthy (Py.strip t) = true -> clean (Py.strip t).
Proof. intros H. split; [exact H | apply strip_idem]. Qed.

Lemma clean_catchphrase (c : string) : clean c -> clean ("Catchphrase: " +:+ c).
Proof.
  intros H. split; [reflexivity|]. apply strip_fixed; [reflexivity|].
  apply rstrip_app_end; [now apply clean_not_empty | now apply clean_rstrip].
Qed.

Lemma clean_text_summary (p : Persona) : clean (text_summary_of p).
Proof.
  split; [reflexivity|]. apply strip_fixed; [reflexivity|].
  unfold text_summary_of.
  repeat (apply rstrip_app_end; [repeat apply append_not_empty; discriminate|]).
  reflexivity.
Qed.

Lemma survey_records_clean (answers : gmap string Py.value) (p : Persona) :
  Forall (fun kt => clean (snd kt)) (survey_records answers (text_summary_of p)).
Proof.
  unfold survey_records, example_records, answer_text. cbn [flat_map].
  repeat (apply Forall_app; split);
    repeat match goal with
    | |- Forall _ (if ?c then _ else _) => destruct c eqn:?
    | |- Forall _ [] => constructor
    | |- Forall _ (_ :: _) => constructor
    end; cbn [snd];
    auto using clean_text_summary, clean_catchphrase, clean_strip.
Qed.

Lemma plain_records_clean (kts : list (string * string)) (items : list MemoryItem) :
  Forall (fun kt => clean (snd kt)) kts ->
  Forall2 plain_record kts items ->
  Forall (fun m => clean (text m)) items.
Proof.
  intros H F. induction F as [|kt m kts items (_ & Ht & _) _ IH]; [constructor|].
  inversion H; subst. constructor; [now rewrite Ht | auto].
Qed.

Lemma delete_keeps (P : MemoryItem -> Prop) (bank : MemoryBank) (idx : Z) :
  Forall P (list_ bank) -> Forall P (list_ (delete bank idx)).
Proof.
  unfold delete, list_. intros H.
  destruct ((0 <=? idx) && (idx <? Z.of_nat (length (_memories bank)))); [|exact H].
  cbn [_memories]. rewrite pop_take_drop.
  apply Forall_app. split; [now apply Forall_take | now apply Forall_drop].
Qed.

Lemma delete_selected_keeps (P : MemoryItem -> Prop) (bank : MemoryBank)
    (selected : list Z) :
  Forall P (list_ bank) -> Forall P (list_ (ui.delete_selected bank selected)).
Proof.
  unfold ui.delete_selected.
  generalize (Py.sort_desc Z.ltb id (elements (list_to_set selected : gset Z))).
  intros rows. revert bank.
  induction rows as [|r rows IH]; intros bank H; [exact H|].
  cbn [fold_left]. apply IH. now apply delete_keeps.
Qed.

(** X22.  [SettingsPage.apply]: the user name is never left blank (a blank
    field gives "You") and the store is untouched.  A blank key field
    leaves the client as it is, online or not, and [key_applied] emits
    False; any other key is set stripped, and what is emitted is the mode
    of the client afterwards: True exactly when the SDK configures with
    the key. *)
Theorem settings_apply_effect (w : world) (name_input api_key_input : string)
    (twin : DigitalAITwin) :
  clean (user_name (persona (fst (ui.apply w name_input api_key_input twin))))
  /\ (Py.strip name_input <> "" ->
      user_name (persona (fst (ui.apply w name_input api_key_input twin)))
      = Py.strip name_input)
  /\ memories (fst (ui.apply w name_input api_key_input twin)) = memories twin
  /\ snd (ui.apply w name_input api_key_input twin)
     = Py.truthy (Py.strip api_key_input)
       && genai_configures w (Py.strip api_key_input)
  /\ (Py.strip api_key_input = "" ->
      gemini (fst (ui.apply w name_input api_key_input twin)) = gemini twin)
  /\ (Py.strip api_key_input <> "" ->
      online (gemini (fst (ui.apply w name_input api_key_input twin)))
      = snd (ui.apply w name_input api_key_input twin)
      /\ gemini_client.api_key
           (gemini (fst (ui.apply w name_input api_key_input twin)))
         = Py.strip api_key_input).
Proof.
  unfold ui.apply, set_gemini_key, gemini_client.set_api_key,
    gemini_client._configure_sdk, online.
  rewrite !strip_idem.
  destruct (Py.truthy (Py.strip api_key_input)) eqn:Ek;
    cbn [fst snd persona memories gemini ui.with_user_name user_name negb andb
         gemini_client.api_key gemini_client._have_sdk gemini_client._configured];
    rewrite ?Ek;
    cbn [fst snd persona memories gemini ui.with_user_name user_name negb andb
         gemini_client.api_key gemini_client._have_sdk gemini_client._configured].
  - split; [|split; [|split; [|split; [|split]]]].
    + destruct (Py.truthy (Py.strip name_input)) eqn:En;
        [now apply clean_strip | split; reflexivity].
    + intros Hn. destruct (Py.strip name_input); [congruence | reflexivity].
    + reflexivity.
    + now destruct (genai_configures w (Py.strip api_key_input)).
    + intros E. rewrite E in Ek. discriminate.
    + intros _. now destruct (genai_configures w (Py.strip api_key_input)).
  - split; [|split; [|split; [|split; [|split]]]].
    + destruct (Py.truthy (Py.strip name_input)) eqn:En;
        [now apply clean_strip | split; reflexivity].
    + intros Hn. destruct (Py.strip name_input); [congruence | reflexivity].
    + reflexivity.
    + reflexivity.
    + reflexivity.
    + intros Hk. destruct (Py.strip api_key_input); [congruence | discriminate].
Qed.

(** X23.  Through the windows no record with a blank text gets into the
    store: whatever the user does (send a message, ask for a decision,
    finish the wizard, delete rows, apply the settings) and whether the
    handler raises or not, when every stored text was not empty and
    without white space at its ends, so is every stored text afterwards.
    The pages strip their input and drop it when blank, the client never
    gives a blank reply, and the survey stores only answers that are not
    blank. *)
Theorem windows_store_clean_texts (w : world) (e : ui.event) (s : state) :
  Forall (fun m => clean (text m)) (list_ (memories (self s))) ->
  Forall (fun m => clean (text m))
    (list_ (memories (self (snd (ui.handle w e s))))).
Proof.
  rewrite (state_parts s).
  generalize (persona (self s)) (_memories (memories (self s)))
             (gemini (self s)) (calls s).
  clear s. intros p ms g n. unfold list_ at 1, mk at 1.
  cbn [self memories _memories]. intros Hms.
  destruct e as [input | situation | controls | rows | name key]; cbn [ui.handle].
  - unfold ui.on_send.
    destruct (Py.truthy (Py.strip input)) eqn:Ei; cbn [negb]; [|exact Hms].
    destruct (chat_run w g (fun _ => True) (fun _ _ _ _ _ => I) p ms n
                (Py.strip input) 5)
      as (q & now & n1 & _
          & [(e & _ & E) | (found & reply & a & now' & n2 & _ & _ & Hr & E)]).
    + rewrite (bind_raise _ _ _ _ _ E). unfold list_, mk.
      cbn [snd self memories _memories].
      apply Forall_app. split; [exact Hms|].
      constructor; [apply clean_strip; exact Ei | constructor].
    + rewrite (bind_ok _ _ _ _ _ E). unfold list_, mk.
      cbn [ret snd self memories _memories].
      apply Forall_app. split; [exact Hms|].
      constructor; [apply clean_strip; exact Ei|].
      constructor; [exact Hr | constructor].
  - unfold ui.on_sim.
    destruct (Py.truthy (Py.strip situation)) eqn:Ei; cbn [negb]; [|exact Hms].
    destruct (simulate_decision_run w g (fun _ => True) (fun _ _ _ _ _ => I) p ms n
                (Py.strip situation) 5 true)
      as (q & n1 & _ & [(e & _ & E) | (prompt & reply & items & n2 & _ & Hr & E & F)]).
    + rewrite (bind_raise _ _ _ _ _ E). exact Hms.
    + rewrite (bind_ok _ _ _ _ _ E). unfold list_, mk.
      cbn [ret snd self memories _memories].
      apply Forall_app. split; [exact Hms|].
      apply (plain_records_clean [("decision", reply)]);
        [constructor; [exact Hr | constructor]|].
      eapply Forall2_impl; [exact F|]. intros kt m [H _]. exact H.
  - unfold ui.on_survey.
    destruct (_derive_mbti (ui.emit_results controls)) as [code|e] eqn:Ec.
    + destruct (process_survey_run w g p ms n _ code Ec) as (items & n' & E & F).
      rewrite E. unfold list_, mk. cbn [snd self memories _memories].
      apply Forall_app. split; [exact Hms|].
      eapply plain_records_clean; [apply survey_records_clean | exact F].
    + rewrite (process_survey_raises w g p ms n _ e Ec). exact Hms.
  - cbn [snd self memories mk].
    apply (delete_selected_keeps _ {| _memories := ms |}). exact Hms.
  - cbn [snd self mk]. unfold ui.apply, set_gemini_key.
    destruct (Py.truthy (Py.strip key)); [|exact Hms].
    destruct (gemini_client.set_api_key w _ (Py.strip key)). exact Hms.
Qed.

Lemma windows_store_clean_texts_witness :
  Forall (fun m => clean (text m))
    (list_ (memories (self (snd (ui.handle offline_world (ui.Send " Ship today? ")
                                   (mk (Persona_init "You") (list_ sample_bank)
                                       (gemini_client.init offline_world None) 0)))))).
Proof.
  apply (windows_store_clean_texts offline_world).
  repeat (constructor; [split; reflexivity|]). constructor.
Defined.
